(** * Acurite 00592TX pulse-train decoder (A00592TX.cpp)

    A shallow embedding of the decoder: the edge interrupt handler
    [handler_rf433] with its sync detector [isSync], the bit decoder
    [convertTimingToBit], the poll routine [loop592] (bit packing, running
    sum check, sensor table lookup, merge into [sensorData]) and the
    staleness sweep [ageStaleData].

    Integers are [Z] with the wrap-around of their C type written out.  The
    target is the Arduino the source names (pin 3 / INT1): [int] and
    [unsigned int] are 16 bits wide, [long] and [unsigned long] 32 bits.
    One expression of the source gives another result where [int] is wider,
    the bias taken off the temperature; there the width is a parameter. *)

From Stdlib Require Import ZArith QArith Bool String Lia.
From stdpp Require Import base list.

Local Open Scope Z_scope.

(** ** Fixed-width unsigned integers *)

Definition to_uint8 (x : Z) : Z := x mod 2 ^ 8.
Definition to_uint16 (x : Z) : Z := x mod 2 ^ 16.
Definition to_uint (x : Z) : Z := x mod 2 ^ 16.
Definition to_ulong (x : Z) : Z := x mod 2 ^ 32.

(** Array read [a[i]].  Every index the program computes is in range when
    the arrays have their declared sizes; outside them (undefined in C) the
    model reads 0. *)
Definition rd (a : list Z) (i : Z) : Z := default 0 (a !! Z.to_nat i).

(** Array write [a[i] = v]; a write outside the array is dropped. *)
Definition wr (a : list Z) (i : Z) (v : Z) : list Z := <[Z.to_nat i := v]> a.

(** Conversion of a [double] to [uint16_t]: truncation toward zero.  The
    doubles met here are half-integers below 2^17, which both the 32-bit and
    the 64-bit formats hold exactly, so a rational stands for them. *)
Definition double_to_uint16 (x : Q) : Z :=
  to_uint16 (Z.quot (Qnum x) (Zpos (Qden x))).

(** ** The header's constants

    Modelled from the spec: A00592TX.h is not part of the sources; its macros
    and the sensor address table are the configuration the spec lists (sync
    and bit nominal durations, plausibility bounds, staleness timeout,
    registered addresses, status masks).  They are taken as parameters.

    Three more parameters stand for what the source leaves open where it
    stores a temperature: [int_bits], the width of [int] on the target;
    [out_of_range_uint16], what the target makes of a double below zero
    converted to [uint16_t], which C++ leaves undefined; and
    [temperature_field], the conversion of a [uint16_t] to the type the
    header declares for the [temperature] field of a slot. *)
Class Header := {
  RING_BUFFER_SIZE : Z;
  SYNC_HIGH : Z;
  SYNC_LOW : Z;
  PULSE_LONG : Z;
  PULSE_SHORT : Z;
  BIT1_HIGH : Z;
  BIT1_LOW : Z;
  BIT0_HIGH : Z;
  BIT0_LOW : Z;
  probeIdArray : list Z;
  SENSOR_STALE_DATA_TIMEOUT : Z;
  SENSOR_DATA_FRESH_MASK : Z;
  SENSOR_DATA_FRESH_VAL : Z;
  SENSOR_BATTERY_LOW_MASK : Z;
  SENSOR_BATTERY_LOW_VAL : Z;
  SENSOR_BATTERY_LOW : Z;
  int_bits : Z;
  out_of_range_uint16 : Z -> Z;
  temperature_field : Z -> Z
}.

(** Modelled from the spec: the frame geometry macros of the absent header,
    7 bytes / 56 bits / 112 data edges / 8 sync edges (the source's opening
    comment gives the same numbers). *)
Definition SYNCPULSEEDGES : Z := 8.
Definition DATABYTESCNT : Z := 7.
Definition DATABITSCNT : Z := DATABYTESCNT * 8.
Definition DATABITSEDGES : Z := DATABITSCNT * 2.

(** ** Records *)

(** Modelled from the spec: [struct acurite_00592TX] is declared in the
    absent header.  It is laid over the seven raw bytes of a frame.  Byte 0
    holds two fields, as the spec's frame layout and the source's opening
    comment give them: the channel in its upper two bits, and in the other
    six the upper part of the sensor's 14-bit address, which is [id_high].
    The source reads [id_high] and [id_low] with no mask of its own, and
    reads [status], [temperature_high] and [temperature_low] as whole bytes
    that it masks itself. *)
Module Raw.
Record acurite_00592TX := {
  channel : Z;
  id_high : Z;
  id_low : Z;
  status : Z;
  rsvd : Z;
  temperature_high : Z;
  temperature_low : Z;
  crc : Z
}.
End Raw.

(** Modelled from the spec: [struct sensorTemperatureData] is declared in the
    absent header.  The fields are the four the source writes: [id] (from a
    [uint8_t]), [status] (combined with the [uint8_t] masks), [temperature]
    (assigned a value cast to [uint16_t], and converted to the field's own
    type by [temperature_field]) and [timestamp] (seconds, from
    [millis() / 1000]). *)
Module Sensor.
Record sensorTemperatureData := {
  id : Z;
  status : Z;
  temperature : Z;
  timestamp : Z
}.
End Sensor.

Abbreviation acurite_00592TX := Raw.acurite_00592TX.
Abbreviation sensorTemperatureData := Sensor.sensorTemperatureData.

(** The file-scope variables, the statics of [handler_rf433], whether the
    pin-change interrupt is attached, and the lines printed so far. *)
Record State := {
  pulseDurations : list Z;
  syncIndex : Z;
  dataIndex : Z;
  syncFound : bool;
  received : bool;
  changeCount : Z;
  duration : Z;
  lastTime : Z;
  ringIndex : Z;
  bitState : Z;
  attached : bool;
  sensorData : list sensorTemperatureData;
  CRC : Z;
  Serial : list string
}.

(** Which [return] of [loop592] was taken. *)
Inductive Outcome :=
| NoFrame
| BitTimingError
| CrcError
| SensorIdError
| Merged (id : Z).

Section Decoder.
Context {hdr : Header}.

Definition _numSensors : Z := Z.of_nat (length probeIdArray).

(** ** isSync *)

Fixpoint isSync_from (fuel : nat) (i : Z) (buf : list Z) (idx : Z) : bool :=
  match fuel with
  | O => true
  | S fuel' =>
    if i <? SYNCPULSEEDGES then
      let t1 := rd buf (to_uint (idx + RING_BUFFER_SIZE - i) mod RING_BUFFER_SIZE) in
      let t0 := rd buf (to_uint (idx + RING_BUFFER_SIZE - i - 1) mod RING_BUFFER_SIZE) in
      if (t0 <? to_ulong (SYNC_HIGH - 100)) || (t0 >? to_ulong (SYNC_HIGH + 100))
         || (t1 <? to_ulong (SYNC_LOW - 100)) || (t1 >? to_ulong (SYNC_LOW + 100))
      then false
      else isSync_from fuel' (i + 2) buf idx
    else true
  end.

Definition isSync (buf : list Z) (idx : Z) : bool :=
  isSync_from (Z.to_nat SYNCPULSEEDGES) 0 buf idx.

(** [bitState = digitalRead(DATAPIN)], the handler's first statement. *)
Definition set_bitState (pin : Z) (s : State) : State :=
  {| pulseDurations := pulseDurations s; syncIndex := syncIndex s;
     dataIndex := dataIndex s; syncFound := syncFound s;
     received := received s; changeCount := changeCount s;
     duration := duration s; lastTime := lastTime s;
     ringIndex := ringIndex s; bitState := pin;
     attached := attached s; sensorData := sensorData s;
     CRC := CRC s; Serial := Serial s |}.

(** ** handler_rf433

    [pin] is what [digitalRead(DATAPIN)] returns and [now] what [micros()]
    returns at this edge. *)
Definition handler_rf433 (pin now : Z) (s : State) : State :=
  if received s then set_bitState pin s
  else
    let duration' := to_ulong (now - lastTime s) in
    let lastTime' := to_ulong now in
    let runt := (duration' >? to_ulong (PULSE_LONG + 100))
                || (duration' <? to_ulong (PULSE_SHORT - 100)) in
    let syncFound1 := if runt then false else syncFound s in
    let changeCount1 := if runt then 0 else changeCount s in
    let ringIndex' := to_uint (ringIndex s + 1) mod RING_BUFFER_SIZE in
    let buf := wr (pulseDurations s) ringIndex' duration' in
    let changeCount2 := to_uint (changeCount1 + 1) in
    let sync := isSync buf ringIndex' in
    let syncFound2 := if sync then true else syncFound1 in
    let changeCount3 := if sync then 0 else changeCount2 in
    let syncIndex' := if sync then ringIndex' else syncIndex s in
    let dataIndex' :=
      if sync then to_uint (ringIndex' + 1) mod RING_BUFFER_SIZE else dataIndex s in
    let full := syncFound2 && negb (changeCount3 <? DATABITSEDGES)
                && negb (changeCount3 >? DATABITSEDGES) in
    let overrun := syncFound2 && negb (changeCount3 <? DATABITSEDGES)
                   && (changeCount3 >? DATABITSEDGES) in
    {| pulseDurations := buf; syncIndex := syncIndex';
       dataIndex := dataIndex';
       syncFound := if overrun then false else syncFound2;
       received := full; changeCount := changeCount3;
       duration := duration'; lastTime := lastTime';
       ringIndex := ringIndex'; bitState := pin;
       attached := if full then false else attached s;
       sensorData := sensorData s;
       CRC := CRC s; Serial := Serial s |}.

(** ** convertTimingToBit *)

Definition convertTimingToBit (t0 t1 : Z) : Z :=
  if (t0 >? to_uint (BIT1_HIGH - 100)) && (t0 <? to_uint (BIT1_HIGH + 100))
     && (t1 >? to_uint (BIT1_LOW - 100)) && (t1 <? to_uint (BIT1_LOW + 100))
  then 1
  else if (t0 >? to_uint (BIT0_HIGH - 100)) && (t0 <? to_uint (BIT0_HIGH + 100))
          && (t1 >? to_uint (BIT0_LOW - 100)) && (t1 <? to_uint (BIT0_LOW + 100))
  then 0
  else -1.

(** ** ageStaleData

    [millis] is what [millis()] returns.  The loop visits every slot of
    [sensorData], which has [_numSensors] entries. *)
Definition age_slot (now : Z) (d : sensorTemperatureData) : sensorTemperatureData :=
  if to_ulong (Sensor.timestamp d + SENSOR_STALE_DATA_TIMEOUT) <? now then
    {| Sensor.id := Sensor.id d;
       Sensor.status :=
         to_uint8 (Z.land (Sensor.status d) (Z.lnot SENSOR_DATA_FRESH_MASK));
       Sensor.temperature := Sensor.temperature d;
       Sensor.timestamp := Sensor.timestamp d |}
  else d.

Definition ageStaleData (millis : Z) (sd : list sensorTemperatureData)
  : list sensorTemperatureData :=
  age_slot (to_ulong millis / 1000) <$> sd.

(** ** setup592 *)

Definition setup592 : State :=
  {| pulseDurations := replicate (Z.to_nat RING_BUFFER_SIZE) 0;
     syncIndex := 0; dataIndex := 0; syncFound := false; received := false;
     changeCount := 0; duration := 0; lastTime := 0; ringIndex := 0;
     bitState := 0; attached := true;
     sensorData :=
       map (fun i => {| Sensor.id := to_uint8 (i + 1); Sensor.status := 0;
                        Sensor.temperature := 0; Sensor.timestamp := 0 |})
           (seqZ 0 _numSensors);
     CRC := 0; Serial := [] |}.

(** ** loop592 *)

(** The bit loop, from bit [i] on, [n] bits to go: [None] when a pair of
    durations decodes to no bit. *)
Fixpoint decode_bits (n : nat) (i : Z) (buf : list Z) (ringIndex : Z)
    (dataBytes : list Z) : option (list Z) :=
  match n with
  | O => Some dataBytes
  | S n' =>
    let bit :=
      convertTimingToBit
        (to_uint (rd buf (ringIndex mod RING_BUFFER_SIZE)))
        (to_uint (rd buf (to_uint (ringIndex + 1) mod RING_BUFFER_SIZE))) in
    if bit <? 0 then None
    else
      decode_bits n' (i + 1) buf (to_uint (ringIndex + 2))
        (wr dataBytes (i / 8)
            (to_uint8 (Z.lor (rd dataBytes (i / 8)) (Z.shiftl bit (7 - i mod 8)))))
  end.

Definition decode_frame (s : State) : option (list Z) :=
  decode_bits (Z.to_nat DATABITSCNT) 0 (pulseDurations s)
    (to_uint (syncIndex s + 1) mod RING_BUFFER_SIZE)
    (replicate (Z.to_nat DATABYTESCNT) 0).

(** The running sum over the first [DATABYTESCNT - 1] bytes, in a [uint8_t]. *)
Definition crc_sum (dataBytes : list Z) : Z :=
  fold_left (fun c i => to_uint8 (c + rd dataBytes i)) (seqZ 0 (DATABYTESCNT - 1)) 0.

(** Modelled from the spec: the cast of [dataBytes] to the absent
    [struct acurite_00592TX], with byte 0 split as the spec lays it out. *)
Definition overlay (dataBytes : list Z) : acurite_00592TX :=
  {| Raw.channel := Z.shiftr (rd dataBytes 0) 6;
     Raw.id_high := Z.land (rd dataBytes 0) 0x3F;
     Raw.id_low := rd dataBytes 1;
     Raw.status := rd dataBytes 2;
     Raw.rsvd := rd dataBytes 3;
     Raw.temperature_high := rd dataBytes 4;
     Raw.temperature_low := rd dataBytes 5;
     Raw.crc := rd dataBytes 6 |}.

(** [id_high * 256 + id_low] in a [uint16_t]. *)
Definition hexID (d : acurite_00592TX) : Z :=
  to_uint16 (Raw.id_high d * 256 + Raw.id_low d).

(** The search of the address table: [id] is overwritten at every match. *)
Fixpoint find_sensor_from (tbl : list Z) (i : Z) (key : Z) (id : Z) : Z :=
  match tbl with
  | [] => id
  | p :: tbl' =>
    find_sensor_from tbl' (i + 1) key (if key =? p then to_uint8 i else id)
  end.

Definition find_sensor (key : Z) : Z :=
  find_sensor_from probeIdArray 0 key (to_uint8 (_numSensors + 1)).

(** The 14-bit value of the two temperature bytes, in a [uint16_t]. *)
Definition raw_temperature (d : acurite_00592TX) : Z :=
  to_uint16 (to_uint16 (Z.shiftl (Z.land (Raw.temperature_high d) 127) 7)
             + Z.land (Raw.temperature_low d) 127).

(** [(uint16_t)((temperature - 1024) + 0.5)].  The [uint16_t] operand is
    promoted: to [unsigned int] where [int] has 16 bits, so that the
    difference wraps, and to [int] where it is wider, so that the difference
    can be negative.  The difference is made a double, the half is added,
    and the conversion to [uint16_t] truncates toward zero; a truncated
    value below zero is outside the type, and what is stored then is the
    target's doing. *)
Definition biased_temperature (temperature : Z) : Z :=
  let difference :=
    if int_bits <=? 16 then to_uint (temperature - 1024) else temperature - 1024 in
  let x := Qplus (inject_Z difference) (Qmake 1 2) in
  let truncated := Z.quot (Qnum x) (Zpos (Qden x)) in
  if truncated <? 0 then to_uint16 (out_of_range_uint16 truncated)
  else double_to_uint16 x.

(** The writes to [sensorData[id]], field by field: [id], the battery bit
    and the fresh bits of [status], [temperature], [timestamp]. *)
Definition merge_slot (id : Z) (d : acurite_00592TX) (millis : Z)
    (old : sensorTemperatureData) : sensorTemperatureData :=
  let status1 :=
    if Z.land (Raw.status d) SENSOR_BATTERY_LOW_MASK =? SENSOR_BATTERY_LOW_VAL
    then to_uint8 (Z.lor (Sensor.status old) SENSOR_BATTERY_LOW)
    else to_uint8 (Z.land (Sensor.status old) (Z.lnot SENSOR_BATTERY_LOW)) in
  {| Sensor.id := to_uint8 (id + 1);
     Sensor.status :=
       to_uint8 (Z.lor status1 (Z.land SENSOR_DATA_FRESH_VAL SENSOR_DATA_FRESH_MASK));
     Sensor.temperature :=
       temperature_field (biased_temperature (raw_temperature d));
     Sensor.timestamp := to_ulong millis / 1000 |}.

Definition merge (id : Z) (d : acurite_00592TX) (millis : Z)
    (sd : list sensorTemperatureData) : list sensorTemperatureData :=
  match sd !! Z.to_nat id with
  | Some old => <[Z.to_nat id := merge_slot id d millis old]> sd
  | None => sd
  end.

(** The common tail of the three error exits: print, clear the flags,
    attach the interrupt again. *)
Definition abandon (msg : string) (crc : Z) (s : State) : State :=
  {| pulseDurations := pulseDurations s; syncIndex := syncIndex s;
     dataIndex := dataIndex s; syncFound := false; received := false;
     changeCount := changeCount s; duration := duration s;
     lastTime := lastTime s; ringIndex := ringIndex s; bitState := bitState s;
     attached := true; sensorData := sensorData s;
     CRC := crc; Serial := Serial s ++ [msg] |}.

(** One pass of the poll routine.  The pass reads the clock for the new
    timestamp, and again in [ageStaleData]: [millis] is what [millis()]
    returns at the first read and [sweep] what it returns in the sweep.  The
    first component tells which exit was taken. *)
Definition loop592 (millis sweep : Z) (s : State) : Outcome * State :=
  if received s then
    match decode_frame s with
    | None => (BitTimingError, abandon "Bit Timing : Decoding error." (CRC s) s)
    | Some dataBytes =>
      let crc := crc_sum dataBytes in
      let acurite_data := overlay dataBytes in
      if negb (crc =? Raw.crc acurite_data) then
        (CrcError, abandon "Sensor Data CRC : CRC error." crc s)
      else
        let id := find_sensor (hexID acurite_data) in
        if id >? _numSensors then
          (SensorIdError, abandon "Sensor ID : out of bounds error." crc s)
        else
          (Merged id,
           {| pulseDurations := pulseDurations s; syncIndex := syncIndex s;
              dataIndex := dataIndex s; syncFound := false; received := false;
              changeCount := changeCount s; duration := duration s;
              lastTime := lastTime s; ringIndex := ringIndex s;
              bitState := bitState s; attached := true;
              sensorData :=
                ageStaleData sweep (merge id acurite_data millis (sensorData s));
              CRC := crc; Serial := Serial s |})
    end
  else
    (NoFrame,
     {| pulseDurations := pulseDurations s; syncIndex := syncIndex s;
        dataIndex := dataIndex s; syncFound := syncFound s;
        received := received s; changeCount := changeCount s;
        duration := duration s; lastTime := lastTime s;
        ringIndex := ringIndex s; bitState := bitState s;
        attached := attached s;
        sensorData := ageStaleData sweep (sensorData s);
        CRC := CRC s; Serial := Serial s |}).

(** Whether a slot reads as fresh. *)
Definition fresh (d : sensorTemperatureData) : bool :=
  negb (Z.land (Sensor.status d) SENSOR_DATA_FRESH_MASK =? 0).

(** A run of the interrupt handler over a stream of edges, each given by
    the pin level read and the clock read. *)
Definition run_handler (edges : list (Z * Z)) (s : State) : State :=
  fold_left (fun st e => handler_rf433 (fst e) (snd e) st) edges s.

End Decoder.

(** ** Example configuration and edge streams *)

(** The nominal timings of the spec (sync 600 us, bits 400/200 us), a ring
    of 120 durations, the battery masks the source lists in its comments,
    the 16-bit [int] of the Arduino, a [temperature] field that holds a
    [uint16_t] as it is, and a sensor table whose first entry is [table0]. *)
Definition header_with (table0 : Z) : Header :=
  {| RING_BUFFER_SIZE := 120;
     SYNC_HIGH := 600; SYNC_LOW := 600;
     PULSE_LONG := 400; PULSE_SHORT := 200;
     BIT1_HIGH := 400; BIT1_LOW := 200;
     BIT0_HIGH := 200; BIT0_LOW := 400;
     probeIdArray := [table0; 0x1E09; 0x26ED; 0x36E7; 0x0604; 0x386C];
     SENSOR_STALE_DATA_TIMEOUT := 90;
     SENSOR_DATA_FRESH_MASK := 0x01; SENSOR_DATA_FRESH_VAL := 0x01;
     SENSOR_BATTERY_LOW_MASK := 0xC0; SENSOR_BATTERY_LOW_VAL := 0x80;
     SENSOR_BATTERY_LOW := 0x80;
     int_bits := 16; out_of_range_uint16 := to_uint16;
     temperature_field := fun v => v |}.

(** The table of the spec's end-to-end example: address 0x034A registered. *)
Definition example_header : Header := header_with 0x034A.

(** Six payload bytes followed by their running sum. *)
Definition with_checksum (six : list Z) : list Z :=
  six ++ [fold_left Z.add six 0 mod 256].

(** The frame of the spec's end-to-end example. *)
Definition example_frame : list Z :=
  with_checksum [0xC3; 0x4A; 0x44; 0x90; 0x08; 0x10].

(** The durations a transmitter sends for one byte, most significant bit
    first: a long high and short low for 1, the reverse for 0. *)
Definition byte_durations (b : Z) : list Z :=
  flat_map (fun k => if Z.testbit b k then [400; 200] else [200; 400])
           [7; 6; 5; 4; 3; 2; 1; 0].

Definition frame_durations (bytes : list Z) : list Z :=
  replicate 8 600 ++ flat_map byte_durations bytes.

(** Edges (pin level, clock) for a stream of durations starting at [t]. *)
Fixpoint edges_from (t : Z) (pin : Z) (ds : list Z) : list (Z * Z) :=
  match ds with
  | [] => []
  | d :: ds' => (pin, t + d) :: edges_from (t + d) (1 - pin) ds'
  end.

(** The state after [setup592] and the capture of a stream of durations. *)
Definition capture (h : Header) (ds : list Z) : State :=
  @run_handler h (edges_from 0 0 ds) (@setup592 h).

(** The state after [setup592] and the capture of one transmitted frame. *)
Definition captured (h : Header) (bytes : list Z) : State :=
  capture h (frame_durations bytes).

(** Modelled from the spec: the channel a reading should carry, from the top
    two bits of byte 0 (11 is A, 10 is B, 00 is C, 01 unknown).  The source
    has no such computation; this is the mapping the claim refers to. *)
Inductive Channel := ChannelA | ChannelB | ChannelC | ChannelUnknown.

Definition spec_channel (byte0 : Z) : Channel :=
  match Z.shiftr byte0 6 with
  | 3 => ChannelA
  | 2 => ChannelB
  | 0 => ChannelC
  | _ => ChannelUnknown
  end.

(** The example frame sent by a sensor whose address, 0x034B, is not in the
    table of [example_header]. *)
Definition unlisted_frame : list Z :=
  with_checksum [0xC3; 0x4B; 0x44; 0x90; 0x08; 0x10].

(** The example configuration on a target whose [int] has 32 bits and whose
    conversion of a negative double wraps, with the same [temperature]
    field. *)
Definition wide_header : Header :=
  {| RING_BUFFER_SIZE := 120;
     SYNC_HIGH := 600; SYNC_LOW := 600;
     PULSE_LONG := 400; PULSE_SHORT := 200;
     BIT1_HIGH := 400; BIT1_LOW := 200;
     BIT0_HIGH := 200; BIT0_LOW := 400;
     probeIdArray := [0x034A; 0x1E09; 0x26ED; 0x36E7; 0x0604; 0x386C];
     SENSOR_STALE_DATA_TIMEOUT := 90;
     SENSOR_DATA_FRESH_MASK := 0x01; SENSOR_DATA_FRESH_VAL := 0x01;
     SENSOR_BATTERY_LOW_MASK := 0xC0; SENSOR_BATTERY_LOW_VAL := 0x80;
     SENSOR_BATTERY_LOW := 0x80;
     int_bits := 32; out_of_range_uint16 := fun q => q;
     temperature_field := fun v => v |}.

(** A frame on channel C for the registered address 0x034A whose two
    temperature bytes hold the 14-bit value 1023, one below the bias. *)
Definition cold_frame : list Z :=
  with_checksum [0x03; 0x4A; 0x44; 0x90; 0x07; 0x7F].

(** The example frame sent on channel B instead of channel A. *)
Definition channel_b_frame : list Z :=
  with_checksum [0x83; 0x4A; 0x44; 0x90; 0x08; 0x10].

(** A frame for the address 0x1E09, which [header_with 0x1E09] lists twice. *)
Definition twice_listed_frame : list Z :=
  with_checksum [0x1E; 0x09; 0x44; 0x90; 0x08; 0x10].

(** The example frame with its first bit sent as 300 us high, 300 us low:
    inside the plausibility bounds, so the frame is captured, and in the
    window of neither bit. *)
Definition smeared_durations : list Z :=
  replicate 8 600 ++ [300; 300] ++ drop 2 (flat_map byte_durations example_frame).

(** A sensor table of one slot, stamped at second 5. *)
Definition one_slot : list sensorTemperatureData :=
  [{| Sensor.id := 1; Sensor.status := 0x81; Sensor.temperature := 16;
      Sensor.timestamp := 5 |}].

(** A frame whose last byte is not the running sum of the first six. *)
Definition corrupt_frame : list Z :=
  [0x03; 0x4A; 0x44; 0x90; 0x08; 0x10; 0x00].

(** [dataBytes] is the frame pending in [s], and its last byte is the
    running sum of the others: the poll routine gets past both error exits. *)
Definition validated {hdr : Header} (s : State) (dataBytes : list Z) : Prop :=
  received s = true
  /\ decode_frame s = Some dataBytes
  /\ crc_sum dataBytes = rd dataBytes 6.

(** A value a [uint8_t] holds. *)
Definition is_byte (b : Z) : Prop := 0 <= b < 256.

(** A duration strictly within 100 us of a nominal value. *)
Definition inside (nominal t : Z) : Prop := nominal - 100 < t < nominal + 100.

(** ** PrintHex8 *)

(** Conversion to [char], signed and 8 bits wide on the target. *)
Definition to_char (x : Z) : Z := (x + 128) mod 256 - 128.

(** The loop of [PrintHex8], [n] bytes to go: two characters are written
    to [tmp] for [data[i]].  [first] is a [byte], [i] a [uint8_t]. *)
Fixpoint PrintHex8_from (n : nat) (i j : Z) (data tmp : list Z) : list Z :=
  match n with
  | O => tmp
  | S n' =>
    let first := to_uint8 (Z.lor (Z.shiftr (rd data i) 4) 48) in
    let tmp1 :=
      wr tmp j (if first >? 57 then to_char (first + 39) else to_char first) in
    let first' := to_uint8 (Z.lor (Z.land (rd data i) 0x0F) 48) in
    let tmp2 :=
      wr tmp1 (j + 1)
         (if first' >? 57 then to_char (first' + 39) else to_char first') in
    PrintHex8_from n' (to_uint8 (i + 1)) (j + 2) data tmp2
  end.

(** The characters of a C string: those before the first NUL. *)
Fixpoint c_str (chars : list Z) : list Z :=
  match chars with
  | [] => []
  | c :: chars' => if c =? 0 then [] else c :: c_str chars'
  end.

(** [PrintHex8(data, length)]: the characters handed to [Serial.print].
    [tmp] is a local array of [length * 2 + 1] characters, not initialised
    in C; every entry is written before it is printed. *)
Definition PrintHex8 (data : list Z) (length : Z) : list Z :=
  let tmp := replicate (Z.to_nat (length * 2 + 1)) 0 in
  let tmp := PrintHex8_from (Z.to_nat length) 0 0 data tmp in
  c_str (wr tmp (length * 2) 0).

(** The value of a lower-case hexadecimal digit. *)
Definition hex_value (c : Z) : Z := if c <=? 57 then c - 48 else c - 87.

(** A character code as text. *)
Definition text (chars : list Z) : string :=
  string_of_list_ascii (map (fun c => Ascii.ascii_of_N (Z.to_N c)) chars).

(** ** Interleavings of the edge context and the poll context *)

(** An edge taken by the handler, or a pass of the poll routine.  The two
    do not overlap in a way that matters: while a frame is decoded the
    interrupt is detached, and a pass with no frame pending touches only the
    slots, which the handler never reads. *)
Inductive Event :=
| Edge (pin now : Z)
| Poll (millis sweep : Z).

Section Capture.
Context {hdr : Header}.

Definition step (e : Event) (s : State) : State :=
  match e with
  | Edge pin now => handler_rf433 pin now s
  | Poll millis sweep => snd (loop592 millis sweep s)
  end.

Definition run (events : list Event) (s : State) : State :=
  fold_left (fun st e => step e st) events s.

(** A duration that passes the handler's runt test. *)
Definition plausible (d : Z) : Prop := PULSE_SHORT - 100 <= d <= PULSE_LONG + 100.

(** The [j]-th most recent duration in the ring, 0 for the newest. *)
Definition recent (s : State) (j : Z) : Z :=
  rd (pulseDurations s) ((ringIndex s - j) mod RING_BUFFER_SIZE).

(** The [n]-th duration after the sync train of the frame in capture. *)
Definition data_edge (s : State) (n : Z) : Z :=
  rd (pulseDurations s) ((syncIndex s + 1 + n) mod RING_BUFFER_SIZE).

(** What holds of the capture state from [setup592] on, whatever edges and
    polls follow. *)
Definition capture_inv (s : State) : Prop :=
  length (pulseDurations s) = Z.to_nat RING_BUFFER_SIZE
  /\ 0 <= ringIndex s < RING_BUFFER_SIZE
  /\ attached s = negb (received s)
  /\ (received s = true -> syncFound s = true /\ changeCount s = DATABITSEDGES)
  /\ (syncFound s = true ->
      0 <= changeCount s <= DATABITSEDGES
      /\ (received s = false -> changeCount s < DATABITSEDGES)
      /\ 0 <= syncIndex s < RING_BUFFER_SIZE
      /\ dataIndex s = (syncIndex s + 1) mod RING_BUFFER_SIZE
      /\ ringIndex s = (syncIndex s + changeCount s) mod RING_BUFFER_SIZE
      /\ forall n, 0 <= n < changeCount s -> plausible (data_edge s n))
  /\ length (sensorData s) = length probeIdArray
  /\ (forall (i : nat) d, sensorData s !! i = Some d -> Sensor.id d = Z.of_nat i + 1).

(** A header whose sizes fit the target: a ring longer than a frame's data
    edges with indices that fit an [int], runt bounds that are non-negative
    [int]s, fewer than 255 sensors. *)
Definition sized_header : Prop :=
  DATABITSEDGES < RING_BUFFER_SIZE <= 32767
  /\ 100 <= PULSE_SHORT <= 32767 /\ 0 <= PULSE_LONG <= 32667
  /\ _numSensors < 255.

(** A closed window of 100 us around a nominal value, as [isSync] tests. *)
Definition within (nominal t : Z) : Prop := nominal - 100 <= t <= nominal + 100.

(** A header whose timings tell sync, 1 and 0 apart: the bit durations
    pass the runt test, are shorter than any sync low, and the high times of
    the two bits are at least 200 us apart. *)
Definition timed_header : Prop :=
  100 <= SYNC_HIGH <= 32667 /\ 100 <= SYNC_LOW <= 32667
  /\ 100 <= BIT1_HIGH <= 32667 /\ 100 <= BIT1_LOW <= 32667
  /\ 100 <= BIT0_HIGH <= 32667 /\ 100 <= BIT0_LOW <= 32667
  /\ BIT0_HIGH + 100 <= BIT1_HIGH - 100
  /\ plausible BIT1_HIGH /\ plausible BIT1_LOW
  /\ plausible BIT0_HIGH /\ plausible BIT0_LOW
  /\ BIT1_HIGH < SYNC_LOW - 100 /\ BIT1_LOW < SYNC_LOW - 100
  /\ BIT0_HIGH < SYNC_LOW - 100 /\ BIT0_LOW < SYNC_LOW - 100.

(** ** The transmitter *)

(** The two durations sent for a bit: a long high and a short low for 1,
    the reverse for 0. *)
Definition bit_durations (bit : bool) : list Z :=
  if bit then [BIT1_HIGH; BIT1_LOW] else [BIT0_HIGH; BIT0_LOW].

(** The bits of a byte, most significant first. *)
Definition byte_bits (b : Z) : list bool :=
  map (Z.testbit b) [7; 6; 5; 4; 3; 2; 1; 0].

Definition frame_bits (bytes : list Z) : list bool := flat_map byte_bits bytes.

(** The data edges sent for a frame. *)
Definition encode_frame (bytes : list Z) : list Z :=
  flat_map bit_durations (frame_bits bytes).

(** The [dataBytes[i/8] |= bit << (7-(i%8))] of the bit loop. *)
Definition put_bit (dataBytes : list Z) (i bit : Z) : list Z :=
  wr dataBytes (i / 8)
     (to_uint8 (Z.lor (rd dataBytes (i / 8)) (Z.shiftl bit (7 - i mod 8)))).

(** The bit loop on bits already decoded. *)
Fixpoint pack_bits (bits : list bool) (i : Z) (dataBytes : list Z) : list Z :=
  match bits with
  | [] => dataBytes
  | bit :: bits' => pack_bits bits' (i + 1) (put_bit dataBytes i (Z.b2z bit))
  end.

End Capture.

(** ** Definitions used to state further properties *)

(** One turn of the loop of [isSync]: the low ending [i] edges back and the
    high before it are in their windows. *)
Definition sync_pair {hdr : Header} (buf : list Z) (idx i : Z) : Prop :=
  within SYNC_LOW (rd buf ((idx - i) mod RING_BUFFER_SIZE))
  /\ within SYNC_HIGH (rd buf ((idx - i - 1) mod RING_BUFFER_SIZE)).

(** The value bits add to a byte when written from bit offset [m] on, most
    significant first. *)
Fixpoint bits_value (bits : list bool) (m : Z) : Z :=
  match bits with
  | [] => 0
  | bit :: bits' => Z.lor (Z.shiftl (Z.b2z bit) (7 - m)) (bits_value bits' (m + 1))
  end.

(** An edge that can belong to the data of a frame: it passes the runt test
    and is shorter than any sync low. *)
Definition frame_edge {hdr : Header} (d : Z) : Prop :=
  plausible d /\ 0 <= d < SYNC_LOW - 100.

(** The time a stream of durations takes. *)
Definition total (ds : list Z) : Z := foldr Z.add 0 ds.

(** The two characters [PrintHex8] writes for a byte. *)
Definition hex_chars (x : Z) : list Z :=
  let first := to_uint8 (Z.lor (Z.shiftr x 4) 48) in
  let first' := to_uint8 (Z.lor (Z.land x 0x0F) 48) in
  [if first >? 57 then to_char (first + 39) else to_char first;
   if first' >? 57 then to_char (first' + 39) else to_char first'].

(** A lower-case hexadecimal digit: '0' to '9' or 'a' to 'f'. *)
Definition is_hex_digit (c : Z) : Prop := 48 <= c <= 57 \/ 97 <= c <= 102.

(** The example configuration with a table of 255 entries, none of them the
    key of the example frame. *)
Definition crowded_header : Header :=
  {| RING_BUFFER_SIZE := 120;
     SYNC_HIGH := 600; SYNC_LOW := 600;
     PULSE_LONG := 400; PULSE_SHORT := 200;
     BIT1_HIGH := 400; BIT1_LOW := 200;
     BIT0_HIGH := 200; BIT0_LOW := 400;
     probeIdArray := replicate 255 0x1E09;
     SENSOR_STALE_DATA_TIMEOUT := 90;
     SENSOR_DATA_FRESH_MASK := 0x01; SENSOR_DATA_FRESH_VAL := 0x01;
     SENSOR_BATTERY_LOW_MASK := 0xC0; SENSOR_BATTERY_LOW_VAL := 0x80;
     SENSOR_BATTERY_LOW := 0x80;
     int_bits := 16; out_of_range_uint16 := to_uint16;
     temperature_field := fun v => v |}.

(** A few edges and a poll, as they may come after [setup592]. *)
Definition some_events : list Event :=
  [Edge 1 600; Edge 0 1200; Edge 1 1250; Poll 5000 5000; Edge 0 7000].

(** The state after one edge taken 100 us before [micros()] wraps. *)
Definition before_wrap : State :=
  @handler_rf433 example_header 0 (2 ^ 32 - 100) (@setup592 example_header).

(** The edges of the example frame, sync train first, as events. *)
Definition frame_events : list Event :=
  map (fun e => Edge (fst e) (snd e))
      (edges_from 0 0 (frame_durations example_frame)).

(** * Properties *)

(** ** Fixed-width arithmetic *)

Lemma to_uint8_range x : 0 <= to_uint8 x < 256.
Proof. unfold to_uint8. apply Z.mod_pos_bound. reflexivity. Qed.

Lemma to_uint8_small x : 0 <= x < 256 -> to_uint8 x = x.
Proof. intros Hx. unfold to_uint8. apply Z.mod_small. exact Hx. Qed.

Lemma to_uint_small x : 0 <= x < 65536 -> to_uint x = x.
Proof. intros Hx. unfold to_uint. apply Z.mod_small. exact Hx. Qed.

Lemma to_uint16_small x : 0 <= x < 65536 -> to_uint16 x = x.
Proof. intros Hx. unfold to_uint16. apply Z.mod_small. exact Hx. Qed.

Lemma to_ulong_small x : 0 <= x < 4294967296 -> to_ulong x = x.
Proof. intros Hx. unfold to_ulong. apply Z.mod_small. exact Hx. Qed.

Section Handler.
Context {hdr : Header}.

(** ** convertTimingToBit *)

Lemma window_test nominal t :
  100 <= nominal <= 32667 ->
  (t >? to_uint (nominal - 100)) && (t <? to_uint (nominal + 100)) = true
  <-> inside nominal t.
Proof.
  intros Hn. unfold inside.
  rewrite !to_uint_small by lia.
  rewrite andb_true_iff, Z.gtb_ltb, !Z.ltb_lt. tauto.
Qed.

Lemma template_test hi lo t0 t1 :
  100 <= hi <= 32667 -> 100 <= lo <= 32667 ->
  (t0 >? to_uint (hi - 100)) && (t0 <? to_uint (hi + 100))
  && (t1 >? to_uint (lo - 100)) && (t1 <? to_uint (lo + 100)) = true
  <-> inside hi t0 /\ inside lo t1.
Proof.
  intros Hh Hl.
  rewrite <- (window_test hi t0 Hh), <- (window_test lo t1 Hl).
  rewrite <- andb_assoc, andb_true_iff. tauto.
Qed.

(** C4, as the code has it: the windows are open.  A pair decodes to 1 iff
    the high time is strictly within 100 us of BIT1_HIGH and the low time
    strictly within 100 us of BIT1_LOW, to 0 iff the same holds for BIT0_HIGH
    and BIT0_LOW, and to the error value -1 otherwise; a duration exactly
    100 us off its nominal value matches no template. *)
Theorem convertTimingToBit_open_windows (t0 t1 : Z) :
  100 <= BIT1_HIGH <= 32667 -> 100 <= BIT1_LOW <= 32667 ->
  100 <= BIT0_HIGH <= 32667 -> 100 <= BIT0_LOW <= 32667 ->
  BIT0_HIGH + 100 <= BIT1_HIGH - 100 ->
  (convertTimingToBit t0 t1 = 1 <-> inside BIT1_HIGH t0 /\ inside BIT1_LOW t1)
  /\ (convertTimingToBit t0 t1 = 0 <-> inside BIT0_HIGH t0 /\ inside BIT0_LOW t1)
  /\ (convertTimingToBit t0 t1 = -1
      <-> ~ (inside BIT1_HIGH t0 /\ inside BIT1_LOW t1)
          /\ ~ (inside BIT0_HIGH t0 /\ inside BIT0_LOW t1))
  /\ (t0 = BIT1_HIGH - 100 \/ t0 = BIT1_HIGH + 100 -> convertTimingToBit t0 t1 <> 1)
  /\ (t0 = BIT0_HIGH - 100 \/ t0 = BIT0_HIGH + 100 -> convertTimingToBit t0 t1 <> 0).
Proof.
  intros H1h H1l H0h H0l Hsep.
  pose proof (template_test BIT1_HIGH BIT1_LOW t0 t1 H1h H1l) as T1.
  pose proof (template_test BIT0_HIGH BIT0_LOW t0 t1 H0h H0l) as T0.
  unfold convertTimingToBit.
  destruct ((t0 >? to_uint (BIT1_HIGH - 100)) && (t0 <? to_uint (BIT1_HIGH + 100))
            && (t1 >? to_uint (BIT1_LOW - 100)) && (t1 <? to_uint (BIT1_LOW + 100)))
    eqn:E1;
  destruct ((t0 >? to_uint (BIT0_HIGH - 100)) && (t0 <? to_uint (BIT0_HIGH + 100))
            && (t1 >? to_uint (BIT0_LOW - 100)) && (t1 <? to_uint (BIT0_LOW + 100)))
    eqn:E0;
  unfold inside in *; repeat split; intros; try lia; try tauto;
  try (exfalso; intuition (try discriminate; try lia)).
Qed.

(** ** handler_rf433 *)

Lemma handler_rf433_when_received pin now s :
  received s = true -> handler_rf433 pin now s = set_bitState pin s.
Proof. intros H. unfold handler_rf433. rewrite H. reflexivity. Qed.

Lemma run_handler_when_received edges s :
  received s = true ->
  run_handler edges s = s \/ exists pin, run_handler edges s = set_bitState pin s.
Proof.
  unfold run_handler. revert s.
  induction edges as [|e edges IH]; intros s H; simpl.
  - left. reflexivity.
  - rewrite handler_rf433_when_received by exact H.
    destruct (IH (set_bitState (fst e) s) H) as [-> | [pin ->]]; right.
    + exists (fst e). reflexivity.
    + exists pin. reflexivity.
Qed.

Lemma loop592_set_bitState pin millis sweep s :
  fst (loop592 millis sweep (set_bitState pin s)) = fst (loop592 millis sweep s)
  /\ sensorData (snd (loop592 millis sweep (set_bitState pin s)))
     = sensorData (snd (loop592 millis sweep s)).
Proof.
  unfold loop592.
  change (received (set_bitState pin s)) with (received s).
  change (decode_frame (set_bitState pin s)) with (decode_frame s).
  destruct (received s); [|split; reflexivity].
  destruct (decode_frame s); [|split; reflexivity].
  destruct (negb _); [split; reflexivity|].
  destruct (_ >? _); split; reflexivity.
Qed.

(** C8: once [received] is set, no run of the edge handler changes the
    ring buffer, the edge counter, the sync index or the sync flag, and the
    flag stays set; what the poll routine then decodes and stores is what it
    would have decoded and stored from the state at the moment the frame
    became ready. *)
Theorem handler_rf433_frozen_while_received (edges : list (Z * Z)) (s : State) :
  received s = true ->
  received (run_handler edges s) = true
  /\ pulseDurations (run_handler edges s) = pulseDurations s
  /\ changeCount (run_handler edges s) = changeCount s
  /\ syncIndex (run_handler edges s) = syncIndex s
  /\ syncFound (run_handler edges s) = syncFound s
  /\ ringIndex (run_handler edges s) = ringIndex s
  /\ decode_frame (run_handler edges s) = decode_frame s
  /\ forall millis sweep,
       fst (loop592 millis sweep (run_handler edges s)) = fst (loop592 millis sweep s)
       /\ sensorData (snd (loop592 millis sweep (run_handler edges s)))
          = sensorData (snd (loop592 millis sweep s)).
Proof.
  intros H.
  destruct (run_handler_when_received edges s H) as [-> | [pin ->]].
  - repeat split; auto.
  - repeat split; auto; apply loop592_set_bitState.
Qed.

(** C7, as the code has it: on an edge whose duration is outside the
    bounds, taken while no frame is pending, the handler clears the sync flag
    and the edge counter and then stores and counts the edge like any other.
    When it returns the duration is in the ring and no frame is ready; unless
    the last eight durations form a sync train the sync flag is clear and the
    edge counter is 1; if they do, the sync flag is set, the counter is 0 and
    the sync index is the ring index. *)
Theorem handler_rf433_out_of_bounds (pin now : Z) (s : State) :
  received s = false ->
  100 <= PULSE_SHORT <= PULSE_LONG -> PULSE_LONG + 100 < 2 ^ 32 ->
  to_ulong (now - lastTime s) < PULSE_SHORT - 100
  \/ PULSE_LONG + 100 < to_ulong (now - lastTime s) ->
  let s' := handler_rf433 pin now s in
  pulseDurations s'
  = wr (pulseDurations s) (ringIndex s') (to_ulong (now - lastTime s))
  /\ received s' = false
  /\ (isSync (pulseDurations s') (ringIndex s') = false ->
      syncFound s' = false /\ changeCount s' = 1)
  /\ (isSync (pulseDurations s') (ringIndex s') = true ->
      syncFound s' = true /\ changeCount s' = 0 /\ syncIndex s' = ringIndex s').
Proof.
  intros Hrec Hlo Hhi Hout. cbv zeta.
  unfold handler_rf433. rewrite Hrec.
  assert (Hrunt : (to_ulong (now - lastTime s) >? to_ulong (PULSE_LONG + 100))
                  || (to_ulong (now - lastTime s) <? to_ulong (PULSE_SHORT - 100))
                  = true).
  { pose proof (Z.mod_pos_bound (now - lastTime s) (2 ^ 32) eq_refl) as Hd.
    fold (to_ulong (now - lastTime s)) in Hd.
    rewrite (to_ulong_small (PULSE_LONG + 100)) by (change 4294967296 with (2 ^ 32); lia).
    rewrite (to_ulong_small (PULSE_SHORT - 100)) by (change 4294967296 with (2 ^ 32); lia).
    apply orb_true_iff. rewrite Z.gtb_ltb, !Z.ltb_lt. tauto. }
  rewrite Hrunt.
  cbn [pulseDurations received syncFound changeCount syncIndex ringIndex].
  destruct (isSync _ _) eqn:Hsync.
  - repeat split; auto; discriminate.
  - repeat split; auto; discriminate.
Qed.

End Handler.

(** ** Bit operations *)

Lemma lor_shiftl_add a b n :
  0 <= n -> 0 <= b < 2 ^ n -> Z.lor (Z.shiftl a n) b = a * 2 ^ n + b.
Proof.
  intros Hn Hb.
  assert (Hdisj : Z.land (Z.shiftl a n) b = 0).
  { apply Z.bits_inj'. intros m Hm.
    rewrite Z.land_spec, Z.bits_0.
    destruct (Z.lt_ge_cases m n) as [Hlt | Hge].
    - rewrite Z.shiftl_spec_low by exact Hlt. reflexivity.
    - rewrite <- (Z.mod_small b (2 ^ n)) by exact Hb.
      rewrite Z.mod_pow2_bits_high by lia. apply andb_false_r. }
  rewrite <- Z.lxor_lor by exact Hdisj.
  rewrite <- Z.add_nocarry_lxor by exact Hdisj.
  rewrite Z.shiftl_mul_pow2 by exact Hn. reflexivity.
Qed.

Lemma land_low_bits x n : 0 <= n -> 0 <= Z.land x (Z.ones n) < 2 ^ n.
Proof.
  intros Hn. rewrite Z.land_ones by exact Hn.
  apply Z.mod_pos_bound. apply Z.pow_pos_nonneg; lia.
Qed.

Lemma to_uint8_bits x m :
  0 <= m -> Z.testbit (to_uint8 x) m = (m <? 8) && Z.testbit x m.
Proof.
  intros Hm. unfold to_uint8.
  destruct (m <? 8) eqn:E.
  - apply Z.ltb_lt in E. rewrite Z.mod_pow2_bits_low by lia. reflexivity.
  - apply Z.ltb_ge in E. rewrite Z.mod_pow2_bits_high by lia. reflexivity.
Qed.

(** ** Array reads *)

Lemma rd_is_byte (l : list Z) k : Forall is_byte l -> is_byte (rd l k).
Proof.
  intros Hl. unfold rd.
  destruct (l !! Z.to_nat k) as [x|] eqn:E; simpl.
  - exact (proj1 (Forall_lookup is_byte l) Hl _ _ E).
  - unfold is_byte. lia.
Qed.

(** ** The double arithmetic on the temperature *)

Lemma half_added_truncates (n : Z) :
  0 <= n ->
  Z.quot (Qnum (Qplus (inject_Z n) (Qmake 1 2)))
         (Zpos (Qden (Qplus (inject_Z n) (Qmake 1 2)))) = n.
Proof.
  intros Hn. unfold Qplus, inject_Z. cbn [Qnum Qden].
  change (Z.pos (1 * 2)) with 2. change (Z.pos 1) with 1.
  rewrite Z.quot_div_nonneg by lia.
  replace (n * 2 + 1 * 1) with (1 + n * 2) by lia.
  rewrite Z.div_add by lia. reflexivity.
Qed.

Lemma half_added_truncates_below (n : Z) :
  n < 0 ->
  Z.quot (Qnum (Qplus (inject_Z n) (Qmake 1 2)))
         (Zpos (Qden (Qplus (inject_Z n) (Qmake 1 2)))) = n + 1.
Proof.
  intros Hn. unfold Qplus, inject_Z. cbn [Qnum Qden].
  change (Z.pos (1 * 2)) with 2. change (Z.pos 1) with 1.
  replace (n * 2 + 1 * 1) with (- (1 + (- n - 1) * 2)) by lia.
  rewrite Z.quot_opp_l by lia.
  rewrite Z.quot_div_nonneg by lia.
  rewrite Z.div_add by lia. change (1 / 2) with 0. lia.
Qed.

(** At or above the bias the width of [int] does not show. *)
Lemma biased_temperature_above {hdr : Header} (v : Z) :
  1024 <= v < 65536 -> biased_temperature v = v - 1024.
Proof.
  intros Hv. unfold biased_temperature. cbv zeta.
  assert (Hd : (if int_bits <=? 16 then to_uint (v - 1024) else v - 1024)
               = v - 1024).
  { destruct (int_bits <=? 16); [apply to_uint_small; lia | reflexivity]. }
  rewrite Hd. unfold double_to_uint16.
  rewrite half_added_truncates by lia.
  replace (v - 1024 <? 0) with false by (symmetry; apply Z.ltb_ge; lia).
  apply to_uint16_small. lia.
Qed.

(** Below the bias the difference wraps where [int] has 16 bits. *)
Lemma biased_temperature_below_16 {hdr : Header} (v : Z) :
  int_bits <= 16 -> 0 <= v < 1024 -> biased_temperature v = v + 64512.
Proof.
  intros Hw Hv. unfold biased_temperature. cbv zeta.
  replace (int_bits <=? 16) with true by (symmetry; apply Z.leb_le; exact Hw).
  assert (Hd : to_uint (v - 1024) = v + 64512).
  { unfold to_uint. change (2 ^ 16) with 65536.
    rewrite <- (Z.mod_add _ 1 65536) by lia.
    replace (v - 1024 + 1 * 65536) with (v + 64512) by lia.
    apply Z.mod_small. lia. }
  rewrite Hd. unfold double_to_uint16.
  rewrite half_added_truncates by lia.
  replace (v + 64512 <? 0) with false by (symmetry; apply Z.ltb_ge; lia).
  apply to_uint16_small. lia.
Qed.

(** Below the bias the double is negative where [int] is wider: one below
    the bias it is -0.5, which truncates to 0; further down the truncated
    value is outside [uint16_t]. *)
Lemma biased_temperature_below_wide {hdr : Header} (v : Z) :
  16 < int_bits -> v < 1024 ->
  biased_temperature v
  = if v =? 1023 then 0 else to_uint16 (out_of_range_uint16 (v - 1023)).
Proof.
  intros Hw Hv. unfold biased_temperature. cbv zeta.
  replace (int_bits <=? 16) with false by (symmetry; apply Z.leb_gt; exact Hw).
  unfold double_to_uint16.
  rewrite half_added_truncates_below by lia.
  replace (v - 1024 + 1) with (v - 1023) by lia.
  destruct (v =? 1023) eqn:E.
  - apply Z.eqb_eq in E. subst v. reflexivity.
  - apply Z.eqb_neq in E.
    replace (v - 1023 <? 0) with true by (symmetry; apply Z.ltb_lt; lia).
    reflexivity.
Qed.

Section Poll.
Context {hdr : Header}.

(** ** The running sum *)

Lemma crc_sum_spec (bytes : list Z) :
  crc_sum bytes
  = (rd bytes 0 + rd bytes 1 + rd bytes 2 + rd bytes 3 + rd bytes 4 + rd bytes 5)
    mod 256.
Proof.
  unfold crc_sum.
  change (seqZ 0 (DATABYTESCNT - 1)) with [0; 1; 2; 3; 4; 5].
  cbn [fold_left]. unfold to_uint8. change (2 ^ 8) with 256.
  rewrite Z.add_0_l.
  rewrite (Zplus_mod_idemp_l (rd bytes 0)).
  rewrite (Zplus_mod_idemp_l (rd bytes 0 + rd bytes 1)).
  rewrite (Zplus_mod_idemp_l (rd bytes 0 + rd bytes 1 + rd bytes 2)).
  rewrite (Zplus_mod_idemp_l (rd bytes 0 + rd bytes 1 + rd bytes 2 + rd bytes 3)).
  rewrite (Zplus_mod_idemp_l
             (rd bytes 0 + rd bytes 1 + rd bytes 2 + rd bytes 3 + rd bytes 4)).
  reflexivity.
Qed.

(** ** The bit loop *)

Lemma decode_bits_bytes n : forall i buf r bytes out,
  decode_bits n i buf r bytes = Some out ->
  length out = length bytes /\ (Forall is_byte bytes -> Forall is_byte out).
Proof.
  induction n as [|n IH]; intros i buf r bytes out H; cbn [decode_bits] in H.
  - injection H as <-. split; [reflexivity | trivial].
  - destruct (_ <? 0) in H; [discriminate|].
    apply IH in H. destruct H as [Hlen Hall].
    unfold wr in *. rewrite length_insert in Hlen.
    split; [exact Hlen|].
    intros Hb. apply Hall. apply Forall_insert; [exact Hb|].
    apply to_uint8_range.
Qed.

Lemma decode_frame_bytes s bytes :
  decode_frame s = Some bytes -> length bytes = 7%nat /\ Forall is_byte bytes.
Proof.
  unfold decode_frame. intros H.
  apply decode_bits_bytes in H. destruct H as [Hlen Hall].
  split.
  - rewrite Hlen. reflexivity.
  - apply Hall. apply Forall_replicate. unfold is_byte. lia.
Qed.

(** ** The table search *)

Lemma find_sensor_from_spec tbl : forall i key id0,
  0 <= i -> i + Z.of_nat (length tbl) <= 256 ->
  ((key ∉ tbl) /\ find_sensor_from tbl i key id0 = id0)
  \/ (exists k : nat,
        tbl !! k = Some key
        /\ (forall m : nat, (k < m)%nat -> tbl !! m <> Some key)
        /\ find_sensor_from tbl i key id0 = i + Z.of_nat k).
Proof.
  induction tbl as [|p tbl IH]; intros i key id0 Hi Hlen; cbn [find_sensor_from].
  - left. split; [apply not_elem_of_nil | reflexivity].
  - cbn [length] in Hlen.
    destruct (IH (i + 1) key (if key =? p then to_uint8 i else id0))
      as [[Hnot Hres] | (k & Hk & Hlast & Hres)]; [lia | lia | |].
    + rewrite Hres. destruct (key =? p) eqn:E.
      * apply Z.eqb_eq in E. subst p. right. exists 0%nat.
        split; [reflexivity|]. split.
        -- intros [|m] Hm; [lia|]. cbn. intros Habs. apply Hnot.
           apply list_elem_of_lookup. exists m. exact Habs.
        -- rewrite to_uint8_small by lia. lia.
      * apply Z.eqb_neq in E. left. split; [|reflexivity].
        apply not_elem_of_cons. split; assumption.
    + right. exists (S k). split; [exact Hk|]. split.
      * intros [|m] Hm; [lia|]. cbn. apply Hlast. lia.
      * rewrite Hres. lia.
Qed.

(** What the search returns: the preset [_numSensors + 1] when the key is
    not in the table, else the greatest index that holds the key. *)
Lemma find_sensor_spec key :
  _numSensors < 255 ->
  ((key ∉ probeIdArray) /\ find_sensor key = _numSensors + 1)
  \/ (exists k : nat,
        probeIdArray !! k = Some key
        /\ (forall m : nat, (k < m)%nat -> probeIdArray !! m <> Some key)
        /\ find_sensor key = Z.of_nat k).
Proof.
  intros Hn. unfold find_sensor.
  assert (Hpre : to_uint8 (_numSensors + 1) = _numSensors + 1).
  { apply to_uint8_small. unfold _numSensors in *. lia. }
  destruct (find_sensor_from_spec probeIdArray 0 key (to_uint8 (_numSensors + 1)))
    as [[Hnot Hres] | (k & Hk & Hlast & Hres)].
  - lia.
  - unfold _numSensors in Hn. lia.
  - left. rewrite Hres, Hpre. split; [exact Hnot | reflexivity].
  - right. exists k. rewrite Hres. repeat split; [exact Hk | exact Hlast].
Qed.

(** ** The three exits of the poll routine *)

Lemma loop592_bit_error millis sweep s :
  received s = true -> decode_frame s = None ->
  loop592 millis sweep s
  = (BitTimingError, abandon "Bit Timing : Decoding error." (CRC s) s).
Proof. intros Hr Hd. unfold loop592. rewrite Hr, Hd. reflexivity. Qed.

Lemma loop592_crc_error millis sweep s b :
  received s = true -> decode_frame s = Some b -> crc_sum b <> rd b 6 ->
  loop592 millis sweep s
  = (CrcError, abandon "Sensor Data CRC : CRC error." (crc_sum b) s).
Proof.
  intros Hr Hd Hc. unfold loop592. rewrite Hr, Hd. cbv zeta.
  change (Raw.crc (overlay b)) with (rd b 6).
  apply Z.eqb_neq in Hc. rewrite Hc. reflexivity.
Qed.

Lemma loop592_validated millis sweep s b :
  validated s b ->
  loop592 millis sweep s
  = if find_sensor (hexID (overlay b)) >? _numSensors then
      (SensorIdError, abandon "Sensor ID : out of bounds error." (crc_sum b) s)
    else
      (Merged (find_sensor (hexID (overlay b))),
       {| pulseDurations := pulseDurations s; syncIndex := syncIndex s;
          dataIndex := dataIndex s; syncFound := false; received := false;
          changeCount := changeCount s; duration := duration s;
          lastTime := lastTime s; ringIndex := ringIndex s;
          bitState := bitState s; attached := true;
          sensorData :=
            ageStaleData sweep
              (merge (find_sensor (hexID (overlay b))) (overlay b) millis
                     (sensorData s));
          CRC := crc_sum b; Serial := Serial s |}).
Proof.
  intros (Hr & Hd & Hc). unfold loop592. rewrite Hr, Hd. cbv zeta.
  change (Raw.crc (overlay b)) with (rd b 6).
  rewrite Hc, Z.eqb_refl. reflexivity.
Qed.

Lemma loop592_unknown millis sweep s b :
  _numSensors < 255 -> validated s b -> hexID (overlay b) ∉ probeIdArray ->
  loop592 millis sweep s
  = (SensorIdError, abandon "Sensor ID : out of bounds error." (crc_sum b) s).
Proof.
  intros Hn Hv Hnot. rewrite (loop592_validated millis sweep s b Hv).
  destruct (find_sensor_spec (hexID (overlay b)) Hn)
    as [[_ Hres] | (k & Hk & _ & _)].
  - rewrite Hres.
    replace (_numSensors + 1 >? _numSensors) with true
      by (symmetry; rewrite Z.gtb_ltb; apply Z.ltb_lt; lia).
    reflexivity.
  - exfalso. apply Hnot. apply list_elem_of_lookup. exists k. exact Hk.
Qed.

(** A validated frame whose key is in the table is merged into the last
    slot that holds the key. *)
Lemma loop592_known millis sweep s b :
  _numSensors < 255 -> validated s b -> hexID (overlay b) ∈ probeIdArray ->
  exists k : nat,
    probeIdArray !! k = Some (hexID (overlay b))
    /\ (forall m : nat, (k < m)%nat -> probeIdArray !! m <> Some (hexID (overlay b)))
    /\ find_sensor (hexID (overlay b)) = Z.of_nat k
    /\ fst (loop592 millis sweep s) = Merged (Z.of_nat k)
    /\ sensorData (snd (loop592 millis sweep s))
       = ageStaleData sweep (merge (Z.of_nat k) (overlay b) millis (sensorData s))
    /\ received (snd (loop592 millis sweep s)) = false
    /\ syncFound (snd (loop592 millis sweep s)) = false
    /\ attached (snd (loop592 millis sweep s)) = true.
Proof.
  intros Hn Hv Hin. rewrite (loop592_validated millis sweep s b Hv).
  destruct (find_sensor_spec (hexID (overlay b)) Hn)
    as [[Hnot _] | (k & Hk & Hlast & Hres)]; [contradiction|].
  exists k. rewrite Hres.
  assert (Hlt : (k < length probeIdArray)%nat) by (eapply lookup_lt_Some; exact Hk).
  replace (Z.of_nat k >? _numSensors) with false
    by (symmetry; rewrite Z.gtb_ltb; apply Z.ltb_ge; unfold _numSensors; lia).
  repeat split; assumption.
Qed.

(** ** The merge *)

Lemma raw_temperature_spec (d : acurite_00592TX) :
  raw_temperature d
  = Z.lor (Z.shiftl (Z.land (Raw.temperature_high d) 0x7F) 7)
          (Z.land (Raw.temperature_low d) 0x7F)
  /\ 0 <= raw_temperature d < 16384.
Proof.
  unfold raw_temperature.
  change 0x7F with (Z.ones 7).
  pose proof (land_low_bits (Raw.temperature_high d) 7 ltac:(lia)) as Hh.
  pose proof (land_low_bits (Raw.temperature_low d) 7 ltac:(lia)) as Hl.
  change (2 ^ 7) with 128 in Hh, Hl.
  rewrite lor_shiftl_add by (change (2 ^ 7) with 128; lia).
  rewrite Z.shiftl_mul_pow2 by lia. change (2 ^ 7) with 128.
  rewrite (to_uint16_small (_ * 128)) by lia.
  rewrite to_uint16_small by lia.
  split; [reflexivity | lia].
Qed.

Lemma ageStaleData_lookup millis (sd : list sensorTemperatureData) (i : nat) :
  ageStaleData millis sd !! i = age_slot (to_ulong millis / 1000) <$> sd !! i.
Proof. unfold ageStaleData. apply list_lookup_fmap. Qed.

Lemma hexID_overlay s b :
  decode_frame s = Some b ->
  hexID (overlay b) = Z.land (rd b 0) 0x3F * 256 + rd b 1
  /\ 0 <= Z.land (rd b 0) 0x3F < 64 /\ 0 <= rd b 1 < 256.
Proof.
  intros Hd.
  destruct (decode_frame_bytes s b Hd) as [_ Hbytes].
  pose proof (rd_is_byte b 1 Hbytes) as H1.
  pose proof (land_low_bits (rd b 0) 6 ltac:(lia)) as H0.
  change (Z.ones 6) with 0x3F in H0. change (2 ^ 6) with 64 in H0.
  unfold is_byte in H1.
  unfold hexID. cbn [overlay Raw.id_high Raw.id_low].
  split; [apply to_uint16_small; lia | split; assumption].
Qed.

(** Where an accepted frame lands: in the slot whose number the search
    returned, which holds the key in the table. *)
Lemma loop592_merged millis sweep s b k :
  _numSensors < 255 -> validated s b ->
  length (sensorData s) = length probeIdArray ->
  fst (loop592 millis sweep s) = Merged k ->
  exists (n : nat) (old : sensorTemperatureData),
    k = Z.of_nat n
    /\ probeIdArray !! n = Some (hexID (overlay b))
    /\ (forall m : nat, (n < m)%nat -> probeIdArray !! m <> Some (hexID (overlay b)))
    /\ sensorData s !! n = Some old
    /\ sensorData (snd (loop592 millis sweep s)) !! n
       = Some (age_slot (to_ulong sweep / 1000) (merge_slot k (overlay b) millis old))
    /\ forall m : nat, m <> n ->
         sensorData (snd (loop592 millis sweep s)) !! m
         = age_slot (to_ulong sweep / 1000) <$> sensorData s !! m.
Proof.
  intros Hn Hv Hlen Hout.
  destruct (decide (hexID (overlay b) ∈ probeIdArray)) as [Hin | Hnot].
  - destruct (loop592_known millis sweep s b Hn Hv Hin)
      as (n & Hk & Hlast & _ & Hfst & Hsd & _).
    rewrite Hfst in Hout. injection Hout as <-.
    assert (Hlt : (n < length (sensorData s))%nat).
    { rewrite Hlen. eapply lookup_lt_Some. exact Hk. }
    destruct (lookup_lt_is_Some_2 (sensorData s) n Hlt) as [old Hold].
    exists n, old. rewrite Hsd.
    repeat split; try assumption.
    + rewrite ageStaleData_lookup. unfold merge.
      rewrite Nat2Z.id, Hold.
      rewrite list_lookup_insert_eq by exact Hlt. reflexivity.
    + intros m Hm. rewrite ageStaleData_lookup. unfold merge.
      rewrite Nat2Z.id, Hold.
      rewrite list_lookup_insert_ne by congruence. reflexivity.
  - rewrite (loop592_unknown millis sweep s b Hn Hv Hnot) in Hout. discriminate.
Qed.

End Poll.

Section Frames.
Context {hdr : Header}.

(** ** Address *)

(** C1: for a validated frame the key looked up in the sensor table is the
    14-bit address, the low six bits of byte 0 followed by byte 1; the two
    channel bits of byte 0 are no part of it.  The frame is merged into the
    slot the search finds for that address, or rejected when the search
    finds none.  For a frame that begins 0xC3, 0x4A the address is 0x034A. *)
Theorem lookup_key_is_14_bit_address (millis sweep : Z) (s : State) (b : list Z) :
  validated s b ->
  hexID (overlay b) = Z.lor (Z.shiftl (Z.land (rd b 0) 0x3F) 8) (rd b 1)
  /\ 0 <= hexID (overlay b) < 2 ^ 14
  /\ fst (loop592 millis sweep s)
     = (if find_sensor (Z.lor (Z.shiftl (Z.land (rd b 0) 0x3F) 8) (rd b 1))
           >? _numSensors
        then SensorIdError
        else Merged (find_sensor (Z.lor (Z.shiftl (Z.land (rd b 0) 0x3F) 8) (rd b 1))))
  /\ (rd b 0 = 0xC3 -> rd b 1 = 0x4A -> hexID (overlay b) = 0x034A).
Proof.
  intros Hv.
  destruct Hv as (Hr & Hd & Hc).
  destruct (hexID_overlay s b Hd) as (Hkey & H0 & H1).
  assert (Hcat : Z.lor (Z.shiftl (Z.land (rd b 0) 0x3F) 8) (rd b 1)
                 = Z.land (rd b 0) 0x3F * 256 + rd b 1).
  { rewrite lor_shiftl_add by (change (2 ^ 8) with 256; lia). reflexivity. }
  rewrite Hcat, Hkey.
  split; [reflexivity|]. split; [change (2 ^ 14) with 16384; lia|]. split.
  - rewrite (loop592_validated millis sweep s b (conj Hr (conj Hd Hc))).
    rewrite Hkey. destruct (_ >? _); reflexivity.
  - intros -> ->. reflexivity.
Qed.

(** ** What a merge writes *)

(** C3, as the code has it: an accepted frame is merged into the slot the
    search found, and the merge writes there the slot number plus one, the
    old status with the battery bit taken from byte 2 and the fresh bits
    set, the temperature computed from bytes 4 and 5, and the time of the
    merge; the slot is then swept for staleness like every slot.  No field
    is computed from byte 0: no channel is stored. *)
Theorem merged_slot_contents (millis sweep : Z) (s : State) (b : list Z) (k : Z) :
  _numSensors < 255 -> validated s b ->
  length (sensorData s) = length probeIdArray ->
  fst (loop592 millis sweep s) = Merged k ->
  exists old : sensorTemperatureData,
    sensorData s !! Z.to_nat k = Some old
    /\ sensorData (snd (loop592 millis sweep s)) !! Z.to_nat k
       = Some (age_slot (to_ulong sweep / 1000)
                 {| Sensor.id := k + 1;
                    Sensor.status :=
                      to_uint8
                        (Z.lor
                           (if Z.land (rd b 2) SENSOR_BATTERY_LOW_MASK
                               =? SENSOR_BATTERY_LOW_VAL
                            then to_uint8 (Z.lor (Sensor.status old) SENSOR_BATTERY_LOW)
                            else to_uint8 (Z.land (Sensor.status old)
                                                  (Z.lnot SENSOR_BATTERY_LOW)))
                           (Z.land SENSOR_DATA_FRESH_VAL SENSOR_DATA_FRESH_MASK));
                    Sensor.temperature :=
                      temperature_field
                        (biased_temperature
                           (Z.lor (Z.shiftl (Z.land (rd b 4) 0x7F) 7)
                                  (Z.land (rd b 5) 0x7F)));
                    Sensor.timestamp := to_ulong millis / 1000 |}).
Proof.
  intros Hn Hv Hlen Hout.
  destruct (loop592_merged millis sweep s b k Hn Hv Hlen Hout)
    as (n & old & -> & Htbl & _ & Hold & Hnew & _).
  rewrite Nat2Z.id. exists old.
  split; [exact Hold|].
  rewrite Hnew. do 2 f_equal.
  unfold merge_slot.
  destruct (raw_temperature_spec (overlay b)) as [Hraw _].
  rewrite Hraw.
  assert (Hlt : (n < length probeIdArray)%nat) by (eapply lookup_lt_Some; exact Htbl).
  rewrite (to_uint8_small (Z.of_nat n + 1)) by (unfold _numSensors in Hn; lia).
  reflexivity.
Qed.

End Frames.

Section Errors.
Context {hdr : Header}.

(** ** Checksum *)

(** C5: the check of the last byte against the running sum succeeds iff
    byte 6 is the sum of bytes 0 to 5 modulo 256.  For the pending frame the
    poll routine takes the CRC error exit iff the check fails: when byte 6 is
    that sum the frame goes on to the table search and is merged or rejected
    for its address; when it is not, the routine leaves every sensor slot as
    it was and clears both the received and the sync flag. *)
Theorem checksum_validation (millis sweep : Z) (s : State) (b : list Z) :
  received s = true -> decode_frame s = Some b ->
  (forall bytes : list Z,
     (crc_sum bytes =? Raw.crc (overlay bytes)) = true
     <-> rd bytes 6
         = (rd bytes 0 + rd bytes 1 + rd bytes 2 + rd bytes 3 + rd bytes 4
            + rd bytes 5) mod 256)
  /\ (fst (loop592 millis sweep s) = CrcError
      <-> rd b 6 <> (rd b 0 + rd b 1 + rd b 2 + rd b 3 + rd b 4 + rd b 5) mod 256)
  /\ (rd b 6 = (rd b 0 + rd b 1 + rd b 2 + rd b 3 + rd b 4 + rd b 5) mod 256 ->
      fst (loop592 millis sweep s)
      = if find_sensor (hexID (overlay b)) >? _numSensors
        then SensorIdError
        else Merged (find_sensor (hexID (overlay b))))
  /\ (rd b 6 <> (rd b 0 + rd b 1 + rd b 2 + rd b 3 + rd b 4 + rd b 5) mod 256 ->
      sensorData (snd (loop592 millis sweep s)) = sensorData s
      /\ received (snd (loop592 millis sweep s)) = false
      /\ syncFound (snd (loop592 millis sweep s)) = false).
Proof.
  intros Hr Hd.
  assert (Hgood : rd b 6 = (rd b 0 + rd b 1 + rd b 2 + rd b 3 + rd b 4 + rd b 5)
                           mod 256 ->
                  fst (loop592 millis sweep s)
                  = if find_sensor (hexID (overlay b)) >? _numSensors
                    then SensorIdError
                    else Merged (find_sensor (hexID (overlay b)))).
  { intros Hok.
    assert (Hc : crc_sum b = rd b 6) by (rewrite crc_sum_spec; symmetry; exact Hok).
    rewrite (loop592_validated millis sweep s b (conj Hr (conj Hd Hc))).
    destruct (_ >? _); reflexivity. }
  assert (Hbad : rd b 6 <> (rd b 0 + rd b 1 + rd b 2 + rd b 3 + rd b 4 + rd b 5)
                           mod 256 ->
                 loop592 millis sweep s
                 = (CrcError, abandon "Sensor Data CRC : CRC error." (crc_sum b) s)).
  { intros Hno. apply (loop592_crc_error millis sweep s b Hr Hd).
    rewrite crc_sum_spec. intros H. apply Hno. symmetry. exact H. }
  split; [|split; [|split]].
  - intros bytes. rewrite Z.eqb_eq, crc_sum_spec.
    cbn [overlay Raw.crc]. split; intros H; symmetry; exact H.
  - split.
    + intros Hexit Hok. rewrite (Hgood Hok) in Hexit.
      destruct (_ >? _); discriminate.
    + intros Hno. rewrite (Hbad Hno). reflexivity.
  - exact Hgood.
  - intros Hno. rewrite (Hbad Hno). repeat split; reflexivity.
Qed.

(** ** Error exits *)

(** C6: on each error exit of the poll routine (a pair of durations that
    decodes to no bit, a running sum that does not match, a key that is not
    in the sensor table) every sensor slot is left exactly as it was, the
    ring buffer is untouched, and capture is armed again: the received and
    sync flags are clear and the interrupt is attached. *)
Theorem error_exits_keep_slots_and_rearm (millis sweep : Z) (s : State) :
  _numSensors < 255 -> received s = true ->
  decode_frame s = None
  \/ (exists b, decode_frame s = Some b /\ crc_sum b <> rd b 6)
  \/ (exists b, decode_frame s = Some b /\ crc_sum b = rd b 6
                /\ hexID (overlay b) ∉ probeIdArray) ->
  (decode_frame s = None -> fst (loop592 millis sweep s) = BitTimingError)
  /\ (forall b, decode_frame s = Some b -> crc_sum b <> rd b 6 ->
        fst (loop592 millis sweep s) = CrcError)
  /\ (forall b, decode_frame s = Some b -> crc_sum b = rd b 6 ->
        hexID (overlay b) ∉ probeIdArray ->
        fst (loop592 millis sweep s) = SensorIdError)
  /\ sensorData (snd (loop592 millis sweep s)) = sensorData s
  /\ pulseDurations (snd (loop592 millis sweep s)) = pulseDurations s
  /\ received (snd (loop592 millis sweep s)) = false
  /\ syncFound (snd (loop592 millis sweep s)) = false
  /\ attached (snd (loop592 millis sweep s)) = true.
Proof.
  intros Hn Hr Hpath.
  split; [intros Hd; rewrite (loop592_bit_error millis sweep s Hr Hd); reflexivity|].
  split; [intros b Hd Hc; rewrite (loop592_crc_error millis sweep s b Hr Hd Hc); reflexivity|].
  split.
  { intros b Hd Hc Hnot.
    rewrite (loop592_unknown millis sweep s b Hn (conj Hr (conj Hd Hc)) Hnot). reflexivity. }
  destruct Hpath as [Hd | [(b & Hd & Hc) | (b & Hd & Hc & Hnot)]].
  - rewrite (loop592_bit_error millis sweep s Hr Hd). repeat split; reflexivity.
  - rewrite (loop592_crc_error millis sweep s b Hr Hd Hc). repeat split; reflexivity.
  - rewrite (loop592_unknown millis sweep s b Hn (conj Hr (conj Hd Hc)) Hnot).
    repeat split; reflexivity.
Qed.

(** ** Duplicate table entries *)

(** C10: when two entries of the sensor table hold the key of a validated
    frame, the frame is merged into the slot of the greatest index that holds
    the key, which is at least the greater of the two; every other slot, the
    lower one included, is only swept for staleness. *)
Theorem last_matching_entry_wins (millis sweep : Z) (s : State) (b : list Z) (i j : nat) :
  _numSensors < 255 -> validated s b ->
  length (sensorData s) = length probeIdArray ->
  (i < j)%nat ->
  probeIdArray !! i = Some (hexID (overlay b)) ->
  probeIdArray !! j = Some (hexID (overlay b)) ->
  exists (k : nat) (old : sensorTemperatureData),
    (j <= k)%nat
    /\ probeIdArray !! k = Some (hexID (overlay b))
    /\ (forall m : nat, (k < m)%nat -> probeIdArray !! m <> Some (hexID (overlay b)))
    /\ fst (loop592 millis sweep s) = Merged (Z.of_nat k)
    /\ sensorData s !! k = Some old
    /\ sensorData (snd (loop592 millis sweep s)) !! k
       = Some (age_slot (to_ulong sweep / 1000)
                 (merge_slot (Z.of_nat k) (overlay b) millis old))
    /\ forall m : nat, m <> k ->
         sensorData (snd (loop592 millis sweep s)) !! m
         = age_slot (to_ulong sweep / 1000) <$> sensorData s !! m.
Proof.
  intros Hn Hv Hlen Hij Hi Hj.
  assert (Hin : hexID (overlay b) ∈ probeIdArray).
  { apply list_elem_of_lookup. exists j. exact Hj. }
  destruct (loop592_known millis sweep s b Hn Hv Hin) as (k & _ & _ & _ & Hfst & _).
  destruct (loop592_merged millis sweep s b (Z.of_nat k) Hn Hv Hlen Hfst)
    as (n & old & Heq & Hk & Hlast & Hold & Hnew & Hrest).
  apply Nat2Z.inj in Heq. subst n.
  exists k, old.
  split.
  { destruct (Nat.le_gt_cases j k) as [Hle | Hgt]; [exact Hle|].
    exfalso. exact (Hlast j Hgt Hj). }
  repeat split; assumption.
Qed.

End Errors.

Section Staleness.
Context {hdr : Header}.

(** ** ageStaleData *)

Lemma age_slot_keeps_fields now d :
  Sensor.id (age_slot now d) = Sensor.id d
  /\ Sensor.temperature (age_slot now d) = Sensor.temperature d
  /\ Sensor.timestamp (age_slot now d) = Sensor.timestamp d.
Proof. unfold age_slot. destruct (_ <? _); repeat split; reflexivity. Qed.

Lemma age_slot_keeps_other_bits now d n :
  0 <= n < 8 -> Z.testbit SENSOR_DATA_FRESH_MASK n = false ->
  Z.testbit (Sensor.status (age_slot now d)) n = Z.testbit (Sensor.status d) n.
Proof.
  intros Hn Hbit. unfold age_slot. destruct (_ <? _); [|reflexivity].
  cbn [Sensor.status]. rewrite to_uint8_bits by lia.
  rewrite Z.land_spec, Z.lnot_spec, Hbit by lia.
  replace (n <? 8) with true by (symmetry; apply Z.ltb_lt; lia).
  cbn. apply andb_true_r.
Qed.

Lemma cleared_status_not_fresh st :
  Z.land (to_uint8 (Z.land st (Z.lnot SENSOR_DATA_FRESH_MASK)))
         SENSOR_DATA_FRESH_MASK = 0.
Proof.
  apply Z.bits_inj'. intros n Hn.
  rewrite Z.land_spec, to_uint8_bits, Z.land_spec, Z.lnot_spec, Z.bits_0 by lia.
  destruct (n <? 8), (Z.testbit st n), (Z.testbit SENSOR_DATA_FRESH_MASK n);
    reflexivity.
Qed.

Lemma cleared_status_idempotent st :
  to_uint8 (Z.land (to_uint8 (Z.land st (Z.lnot SENSOR_DATA_FRESH_MASK)))
                   (Z.lnot SENSOR_DATA_FRESH_MASK))
  = to_uint8 (Z.land st (Z.lnot SENSOR_DATA_FRESH_MASK)).
Proof.
  apply Z.bits_inj'. intros n Hn.
  rewrite !to_uint8_bits, !Z.land_spec, to_uint8_bits, Z.land_spec by lia.
  destruct (n <? 8), (Z.testbit st n),
    (Z.testbit (Z.lnot SENSOR_DATA_FRESH_MASK) n); reflexivity.
Qed.

Lemma age_slot_idempotent now d : age_slot now (age_slot now d) = age_slot now d.
Proof.
  unfold age_slot at 2 3.
  destruct (_ <? now) eqn:E; unfold age_slot; cbn [Sensor.timestamp]; rewrite E.
  - cbn [Sensor.id Sensor.status Sensor.temperature Sensor.timestamp].
    rewrite cleared_status_idempotent. reflexivity.
  - reflexivity.
Qed.

(** C9: for a slot stamped T under a timeout of S seconds, the sweep at
    second T + S + 1 clears the fresh flag and the sweep at second T + S - 1
    leaves the slot as it is; a sweep changes nothing of any slot but the
    fresh bits of its status; and a second sweep at the same time changes
    nothing more. *)
Theorem ageStaleData_sweep (sd : list sensorTemperatureData) (i : nat)
    (d : sensorTemperatureData) (T S late early : Z) :
  sd !! i = Some d ->
  Sensor.timestamp d = T -> SENSOR_STALE_DATA_TIMEOUT = S ->
  0 <= T -> 0 <= S ->
  0 <= late < 2 ^ 32 -> late / 1000 = T + S + 1 ->
  0 <= early < 2 ^ 32 -> early / 1000 = T + S - 1 ->
  (exists d', ageStaleData late sd !! i = Some d' /\ fresh d' = false)
  /\ ageStaleData early sd !! i = Some d
  /\ (forall (millis : Z) (j : nat) (e : sensorTemperatureData),
        sd !! j = Some e ->
        exists e',
          ageStaleData millis sd !! j = Some e'
          /\ Sensor.id e' = Sensor.id e
          /\ Sensor.temperature e' = Sensor.temperature e
          /\ Sensor.timestamp e' = Sensor.timestamp e
          /\ forall n, 0 <= n < 8 ->
               Z.testbit SENSOR_DATA_FRESH_MASK n = false ->
               Z.testbit (Sensor.status e') n = Z.testbit (Sensor.status e) n)
  /\ (forall millis : Z,
        ageStaleData millis (ageStaleData millis sd) = ageStaleData millis sd).
Proof.
  intros Hi HT HS HT0 HS0 Hlate Hlate' Hearly Hearly'.
  assert (Hsum : to_ulong (Sensor.timestamp d + SENSOR_STALE_DATA_TIMEOUT) = T + S).
  { rewrite HT, HS. apply to_ulong_small.
    assert (late / 1000 <= late) by (apply Z.div_le_upper_bound; lia).
    change (2 ^ 32) with 4294967296 in Hlate. lia. }
  split; [|split; [|split]].
  - rewrite ageStaleData_lookup, Hi. cbn [fmap option_fmap option_map].
    eexists. split; [reflexivity|].
    rewrite (to_ulong_small late) by (change 4294967296 with (2 ^ 32); exact Hlate).
    unfold age_slot. rewrite Hsum, Hlate'.
    replace (T + S <? T + S + 1) with true by (symmetry; apply Z.ltb_lt; lia).
    unfold fresh. cbn [Sensor.status].
    rewrite cleared_status_not_fresh. reflexivity.
  - rewrite ageStaleData_lookup, Hi. cbn [fmap option_fmap option_map].
    rewrite (to_ulong_small early) by (change 4294967296 with (2 ^ 32); exact Hearly).
    unfold age_slot. rewrite Hsum, Hearly'.
    replace (T + S <? T + S - 1) with false by (symmetry; apply Z.ltb_ge; lia).
    reflexivity.
  - intros millis j e Hj. rewrite ageStaleData_lookup, Hj.
    cbn [fmap option_fmap option_map]. eexists. split; [reflexivity|].
    destruct (age_slot_keeps_fields (to_ulong millis / 1000) e) as (H1 & H2 & H3).
    repeat split; try assumption.
    intros n Hn Hbit. apply age_slot_keeps_other_bits; assumption.
  - intros millis. unfold ageStaleData.
    rewrite <- list_fmap_compose. apply list_fmap_ext.
    intros k x _. cbn. apply age_slot_idempotent.
Qed.

End Staleness.

Section Slots.
Context {hdr : Header}.

(** ** The slot table keeps its size

    [sensorData] has one slot per table entry from [setup592] on: the
    handler never touches it, and the poll routine rewrites slots in place. *)

Lemma setup592_slots : length (sensorData setup592) = length probeIdArray.
Proof.
  cbn [setup592 sensorData]. rewrite length_map, length_seqZ.
  unfold _numSensors. apply Nat2Z.id.
Qed.

Lemma handler_rf433_slots pin now s :
  sensorData (handler_rf433 pin now s) = sensorData s.
Proof. unfold handler_rf433. destruct (received s); reflexivity. Qed.

Lemma merge_slots id d millis sd : length (merge id d millis sd) = length sd.
Proof.
  unfold merge. destruct (sd !! Z.to_nat id); [apply length_insert | reflexivity].
Qed.

Lemma loop592_slots millis sweep s :
  length (sensorData (snd (loop592 millis sweep s))) = length (sensorData s).
Proof.
  unfold loop592.
  destruct (received s); [|apply length_fmap].
  destruct (decode_frame s); [|reflexivity].
  cbv zeta. destruct (negb _); [reflexivity|].
  destruct (_ >? _); [reflexivity|].
  cbn [snd sensorData]. unfold ageStaleData.
  rewrite length_fmap. apply merge_slots.
Qed.

End Slots.

(** * The claims on the example configuration *)

(** ** Bit decoder *)

(** C4 fails as stated: 300 us high and 200 us low lie in the closed
    windows of the 1 template (300 is exactly BIT1_HIGH - 100), and the pair
    decodes to the error value; so does 500 us high, and a low time of
    exactly 100 or 300 us. *)
Lemma convertTimingToBit_rejects_endpoints :
  (@BIT1_HIGH example_header - 100 <= 300 <= @BIT1_HIGH example_header + 100)
  /\ (@BIT1_LOW example_header - 100 <= 200 <= @BIT1_LOW example_header + 100)
  /\ @convertTimingToBit example_header 300 200 = -1
  /\ @convertTimingToBit example_header 500 200 = -1
  /\ @convertTimingToBit example_header 400 100 = -1
  /\ @convertTimingToBit example_header 400 300 = -1
  /\ @convertTimingToBit example_header 301 200 = 1.
Proof. vm_compute. repeat split; congruence. Qed.

Lemma convertTimingToBit_open_windows_witness :
  @convertTimingToBit example_header 300 200 <> 1
  /\ (@convertTimingToBit example_header 400 200 = 1
      <-> inside 400 400 /\ inside 200 200).
Proof.
  destruct (@convertTimingToBit_open_windows example_header 300 200)
    as (_ & _ & _ & Hend & _); try (cbn; lia).
  destruct (@convertTimingToBit_open_windows example_header 400 200)
    as (Hone & _); try (cbn; lia).
  split; [apply Hend; left; reflexivity | exact Hone].
Defined.

(** ** Edge handler *)

(** C7 fails as stated.  After [setup592], an edge 5000 us after the last
    one is outside the bounds [100, 500], and when the handler returns the
    edge counter is 1, not 0.  And the eighth edge of a sync train, 600 us
    long and so outside the bounds too, leaves the sync flag set. *)
Lemma handler_rf433_counts_the_runt :
  ~ (@PULSE_SHORT example_header - 100 <= 5000 <= @PULSE_LONG example_header + 100)
  /\ duration (@handler_rf433 example_header 1 5000 (@setup592 example_header)) = 5000
  /\ changeCount (@handler_rf433 example_header 1 5000 (@setup592 example_header)) = 1
  /\ changeCount (@handler_rf433 example_header 1 5000 (@setup592 example_header)) <> 0
  /\ ~ (@PULSE_SHORT example_header - 100 <= 600 <= @PULSE_LONG example_header + 100)
  /\ duration (capture example_header (replicate 8 600)) = 600
  /\ syncFound (capture example_header (replicate 8 600)) = true.
Proof. vm_compute. repeat split; try congruence; intros [H1 H2]; apply H2; reflexivity. Qed.

Lemma handler_rf433_out_of_bounds_witness :
  received (@handler_rf433 example_header 1 5000 (@setup592 example_header)) = false
  /\ changeCount (@handler_rf433 example_header 1 5000 (@setup592 example_header)) = 1.
Proof.
  destruct (@handler_rf433_out_of_bounds example_header 1 5000 (@setup592 example_header))
    as (_ & Hrec & Hnosync & _).
  - reflexivity.
  - cbn. lia.
  - cbn. lia.
  - right. vm_compute. reflexivity.
  - split; [exact Hrec|]. apply Hnosync. vm_compute. reflexivity.
Defined.

Lemma handler_rf433_frozen_while_received_witness :
  received (captured example_header example_frame) = true
  /\ pulseDurations
       (@run_handler example_header [(1, 40000); (0, 40600)]
          (captured example_header example_frame))
     = pulseDurations (captured example_header example_frame).
Proof.
  assert (H : received (captured example_header example_frame) = true)
    by (vm_compute; reflexivity).
  split; [exact H|].
  exact (proj1 (proj2 (@handler_rf433_frozen_while_received example_header
                         [(1, 40000); (0, 40600)]
                         (captured example_header example_frame) H))).
Defined.

(** ** Captured frames *)

Lemma example_frame_validated :
  @validated example_header (captured example_header example_frame) example_frame.
Proof. repeat split; vm_compute; reflexivity. Qed.

Lemma channel_b_frame_validated :
  @validated example_header (captured example_header channel_b_frame)
    channel_b_frame.
Proof. repeat split; vm_compute; reflexivity. Qed.

Lemma unlisted_frame_validated :
  @validated example_header (captured example_header unlisted_frame)
    unlisted_frame.
Proof. repeat split; vm_compute; reflexivity. Qed.

Lemma cold_frame_validated :
  @validated example_header (captured example_header cold_frame) cold_frame.
Proof. repeat split; vm_compute; reflexivity. Qed.

Lemma twice_listed_frame_validated :
  @validated (header_with 0x1E09) (captured (header_with 0x1E09) twice_listed_frame)
    twice_listed_frame.
Proof. repeat split; vm_compute; reflexivity. Qed.

(** ** Address *)

Lemma lookup_key_is_14_bit_address_witness :
  hexID (overlay example_frame) = 0x034A
  /\ fst (@loop592 example_header 5000 5020 (captured example_header example_frame))
     = Merged 0.
Proof.
  destruct (@lookup_key_is_14_bit_address example_header 5000 5020
              (captured example_header example_frame) example_frame
              example_frame_validated)
    as (_ & _ & Hout & Hexample).
  split.
  - apply Hexample; reflexivity.
  - rewrite Hout. vm_compute. reflexivity.
Defined.

(** ** Channel *)

(** C3 fails as stated: no field of the stored reading is the channel.  The
    example frame, on channel A, and the same frame sent on channel B leave
    identical slots for the address 0x034A; so no reading of the slot gives
    the channel of every accepted frame. *)
Lemma stored_reading_has_no_channel :
  ~ exists f : sensorTemperatureData -> Channel,
      forall (h : Header) (millis sweep : Z) (s : State) (b : list Z) (k : Z)
             (d : sensorTemperatureData),
        @validated h s b ->
        fst (@loop592 h millis sweep s) = Merged k ->
        sensorData (snd (@loop592 h millis sweep s)) !! Z.to_nat k = Some d ->
        f d = spec_channel (rd b 0).
Proof.
  intros [f Hf].
  pose (d := {| Sensor.id := 1; Sensor.status := 1; Sensor.temperature := 16;
                Sensor.timestamp := 5 |}).
  assert (HA : f d = spec_channel (rd example_frame 0)).
  { apply (Hf example_header 5000 5020
              (captured example_header example_frame) example_frame 0 d).
    - exact example_frame_validated.
    - vm_compute. reflexivity.
    - vm_compute. reflexivity. }
  assert (HB : f d = spec_channel (rd channel_b_frame 0)).
  { apply (Hf example_header 5000 5020
              (captured example_header channel_b_frame) channel_b_frame 0 d).
    - exact channel_b_frame_validated.
    - vm_compute. reflexivity.
    - vm_compute. reflexivity. }
  rewrite HA in HB. vm_compute in HB. discriminate.
Qed.

Lemma merged_slot_contents_witness :
  exists old : sensorTemperatureData,
    sensorData (captured example_header example_frame) !! Z.to_nat 0 = Some old.
Proof.
  destruct (@merged_slot_contents example_header 5000 5020
              (captured example_header example_frame) example_frame 0)
    as (old & Hold & _).
  - vm_compute. reflexivity.
  - exact example_frame_validated.
  - reflexivity.
  - vm_compute. reflexivity.
  - exists old. exact Hold.
Defined.

(** The end-to-end example: channel A, battery good, 0x08 and 0x10 in the
    temperature bytes, merged at 5000 ms and swept at 5020 ms. *)
Example example_frame_merged :
  sensorData (snd (@loop592 example_header 5000 5020
                     (captured example_header example_frame))) !! 0%nat
  = Some {| Sensor.id := 1; Sensor.status := 1;
            Sensor.temperature := 0x08 * 128 + 0x10 - 1024;
            Sensor.timestamp := 5 |}.
Proof. vm_compute. reflexivity. Qed.

(** ** Error exits *)

Lemma checksum_validation_witness :
  fst (@loop592 example_header 5000 5020 (captured example_header corrupt_frame))
  = CrcError
  /\ sensorData (snd (@loop592 example_header 5000 5020
                        (captured example_header corrupt_frame)))
     = sensorData (captured example_header corrupt_frame).
Proof.
  destruct (@checksum_validation example_header 5000 5020
              (captured example_header corrupt_frame) corrupt_frame)
    as (_ & Hexit & _ & Hbad).
  - vm_compute. reflexivity.
  - vm_compute. reflexivity.
  - assert (Hno : rd corrupt_frame 6
                  <> (rd corrupt_frame 0 + rd corrupt_frame 1 + rd corrupt_frame 2
                      + rd corrupt_frame 3 + rd corrupt_frame 4
                      + rd corrupt_frame 5) mod 256)
      by (vm_compute; discriminate).
    split; [exact (proj2 Hexit Hno) | exact (proj1 (Hbad Hno))].
Defined.

Lemma error_exits_keep_slots_and_rearm_witness :
  sensorData (snd (@loop592 example_header 5000 5000
                     (capture example_header smeared_durations)))
  = sensorData (capture example_header smeared_durations)
  /\ attached (snd (@loop592 example_header 5000 5000
                      (capture example_header smeared_durations))) = true.
Proof.
  destruct (@error_exits_keep_slots_and_rearm example_header 5000 5000
              (capture example_header smeared_durations))
    as (_ & _ & _ & Hsd & _ & _ & _ & Hatt).
  - vm_compute. reflexivity.
  - vm_compute. reflexivity.
  - left. vm_compute. reflexivity.
  - split; [exact Hsd | exact Hatt].
Defined.

(** The three error exits on the example configuration: a smeared first
    bit, a wrong last byte, and a frame whose address 0x034B is not in the
    table. *)
Example error_exits_reached :
  fst (@loop592 example_header 5000 5000 (capture example_header smeared_durations))
  = BitTimingError
  /\ fst (@loop592 example_header 5000 5000 (captured example_header corrupt_frame))
     = CrcError
  /\ fst (@loop592 example_header 5000 5000 (captured example_header unlisted_frame))
     = SensorIdError
  /\ attached (capture example_header smeared_durations) = false
  /\ received (capture example_header smeared_durations) = true.
Proof. vm_compute. repeat split; reflexivity. Qed.

(** ** Duplicate table entries *)

Lemma last_matching_entry_wins_witness :
  exists k : nat,
    (1 <= k)%nat
    /\ fst (@loop592 (header_with 0x1E09) 5000 5000
              (captured (header_with 0x1E09) twice_listed_frame))
       = Merged (Z.of_nat k).
Proof.
  destruct (@last_matching_entry_wins (header_with 0x1E09) 5000 5000
              (captured (header_with 0x1E09) twice_listed_frame)
              twice_listed_frame 0%nat 1%nat)
    as (k & old & Hle & _ & _ & Hout & _).
  - vm_compute. reflexivity.
  - exact twice_listed_frame_validated.
  - reflexivity.
  - lia.
  - vm_compute. reflexivity.
  - vm_compute. reflexivity.
  - exists k. split; [exact Hle | exact Hout].
Defined.

(** With 0x1E09 at indices 0 and 1, the frame lands in slot 1 and slot 0
    keeps what [setup592] put there. *)
Example twice_listed_frame_merged :
  fst (@loop592 (header_with 0x1E09) 5000 5000
         (captured (header_with 0x1E09) twice_listed_frame)) = Merged 1
  /\ sensorData (snd (@loop592 (header_with 0x1E09) 5000 5000
                        (captured (header_with 0x1E09) twice_listed_frame)))
       !! 0%nat
     = Some {| Sensor.id := 1; Sensor.status := 0; Sensor.temperature := 0;
               Sensor.timestamp := 0 |}
  /\ sensorData (snd (@loop592 (header_with 0x1E09) 5000 5000
                        (captured (header_with 0x1E09) twice_listed_frame)))
       !! 1%nat
     = Some {| Sensor.id := 2; Sensor.status := 1; Sensor.temperature := 16;
               Sensor.timestamp := 5 |}.
Proof. vm_compute. repeat split; reflexivity. Qed.

(** ** Staleness *)

Lemma ageStaleData_sweep_witness :
  (exists d', @ageStaleData example_header 96000 one_slot !! 0%nat = Some d'
              /\ @fresh example_header d' = false)
  /\ @ageStaleData example_header 94000 one_slot !! 0%nat
     = Some {| Sensor.id := 1; Sensor.status := 0x81; Sensor.temperature := 16;
               Sensor.timestamp := 5 |}.
Proof.
  destruct (@ageStaleData_sweep example_header one_slot 0%nat
              {| Sensor.id := 1; Sensor.status := 0x81; Sensor.temperature := 16;
                 Sensor.timestamp := 5 |} 5 90 96000 94000)
    as (Hlate & Hearly & _).
  - reflexivity.
  - reflexivity.
  - reflexivity.
  - lia.
  - lia.
  - cbn. lia.
  - reflexivity.
  - cbn. lia.
  - reflexivity.
  - split; [exact Hlate | exact Hearly].
Defined.

(** The slot of [one_slot], fresh with a low battery, swept after its
    timeout: the fresh bit goes, the battery bit stays. *)
Example one_slot_swept :
  @ageStaleData example_header 96000 one_slot
  = [{| Sensor.id := 1; Sensor.status := 0x80; Sensor.temperature := 16;
        Sensor.timestamp := 5 |}].
Proof. vm_compute. reflexivity. Qed.

(** * Further properties of the decoder *)

(** ** Arrays *)

Lemma rd_wr_eq (a : list Z) i v :
  0 <= i -> (Z.to_nat i < length a)%nat -> rd (wr a i v) i = v.
Proof.
  intros Hi Hlen. unfold rd, wr.
  rewrite list_lookup_insert_eq by exact Hlen. reflexivity.
Qed.

Lemma rd_wr_ne (a : list Z) i k v :
  0 <= i -> 0 <= k -> i <> k -> rd (wr a i v) k = rd a k.
Proof.
  intros Hi Hk Hne. unfold rd, wr.
  rewrite list_lookup_insert_ne by lia. reflexivity.
Qed.

Lemma length_wr (a : list Z) i v : length (wr a i v) = length a.
Proof. unfold wr. apply length_insert. Qed.

(** Two ring positions less than a ring apart are different slots. *)
Lemma ring_slots_differ n a b :
  0 < n -> 0 < b - a < n -> a mod n <> b mod n.
Proof.
  intros Hn Hab Heq.
  assert (H : (b - a) mod n = 0).
  { rewrite Zminus_mod, Heq, Z.sub_diag. apply Z.mod_0_l. lia. }
  rewrite Z.mod_small in H by lia. lia.
Qed.

Section Sync.
Context {hdr : Header}.

(** ** isSync *)

Lemma isSync_from_turn fuel i buf idx :
  8 <= RING_BUFFER_SIZE <= 32767 -> 0 <= idx < RING_BUFFER_SIZE ->
  100 <= SYNC_HIGH <= 32667 -> 100 <= SYNC_LOW <= 32667 ->
  0 <= i <= 6 ->
  isSync_from (S fuel) i buf idx = true
  <-> sync_pair buf idx i /\ isSync_from fuel (i + 2) buf idx = true.
Proof.
  intros Hring Hidx Hh Hl Hi. cbn [isSync_from].
  replace (i <? SYNCPULSEEDGES) with true
    by (symmetry; apply Z.ltb_lt; unfold SYNCPULSEEDGES; lia).
  rewrite (to_uint_small (idx + RING_BUFFER_SIZE - i)) by lia.
  rewrite (to_uint_small (idx + RING_BUFFER_SIZE - i - 1)) by lia.
  replace (idx + RING_BUFFER_SIZE - i - 1)
    with (idx - i - 1 + 1 * RING_BUFFER_SIZE) by lia.
  replace (idx + RING_BUFFER_SIZE - i) with (idx - i + 1 * RING_BUFFER_SIZE) by lia.
  rewrite !Z_mod_plus_full.
  rewrite !to_ulong_small by lia.
  unfold sync_pair, within.
  set (t1 := rd buf ((idx - i) mod RING_BUFFER_SIZE)).
  set (t0 := rd buf ((idx - i - 1) mod RING_BUFFER_SIZE)).
  destruct (t0 <? SYNC_HIGH - 100) eqn:E1;
    [apply Z.ltb_lt in E1 | apply Z.ltb_ge in E1];
  (destruct (t0 >? SYNC_HIGH + 100) eqn:E2;
    rewrite Z.gtb_ltb in E2; [apply Z.ltb_lt in E2 | apply Z.ltb_ge in E2]);
  (destruct (t1 <? SYNC_LOW - 100) eqn:E3;
    [apply Z.ltb_lt in E3 | apply Z.ltb_ge in E3]);
  (destruct (t1 >? SYNC_LOW + 100) eqn:E4;
    rewrite Z.gtb_ltb in E4; [apply Z.ltb_lt in E4 | apply Z.ltb_ge in E4]);
  cbn [orb]; split; intros H; try discriminate; try (exfalso; lia);
  try (apply H); try (split; [lia | exact H]).
Qed.

Lemma isSync_windows (buf : list Z) (idx : Z) :
  8 <= RING_BUFFER_SIZE <= 32767 -> 0 <= idx < RING_BUFFER_SIZE ->
  100 <= SYNC_HIGH <= 32667 -> 100 <= SYNC_LOW <= 32667 ->
  isSync buf idx = true
  <-> forall k, 0 <= k < 4 ->
        within SYNC_LOW (rd buf ((idx - 2 * k) mod RING_BUFFER_SIZE))
        /\ within SYNC_HIGH (rd buf ((idx - 2 * k - 1) mod RING_BUFFER_SIZE)).
Proof.
  intros Hring Hidx Hh Hl. unfold isSync.
  change (Z.to_nat SYNCPULSEEDGES) with 8%nat.
  rewrite (isSync_from_turn 7 0) by (assumption || lia).
  rewrite (isSync_from_turn 6 (0 + 2)) by (assumption || lia).
  rewrite (isSync_from_turn 5 (0 + 2 + 2)) by (assumption || lia).
  rewrite (isSync_from_turn 4 (0 + 2 + 2 + 2)) by (assumption || lia).
  change (isSync_from 4 (0 + 2 + 2 + 2 + 2) buf idx) with true.
  change (0 + 2 + 2 + 2) with 6. change (0 + 2 + 2) with 4. change (0 + 2) with 2.
  unfold sync_pair. split.
  - intros (H0 & H2 & H4 & H6 & _) k Hk.
    assert (Hcases : k = 0 \/ k = 1 \/ k = 2 \/ k = 3) by lia.
    destruct Hcases as [-> | [-> | [-> | ->]]];
      [exact H0 | exact H2 | exact H4 | exact H6].
  - intros H.
    split; [exact (H 0 ltac:(lia))|].
    split; [exact (H 1 ltac:(lia))|].
    split; [exact (H 2 ltac:(lia))|].
    split; [exact (H 3 ltac:(lia)) | reflexivity].
Qed.

(** X1: [isSync] accepts an index iff the eight durations ending there
    alternate, newest first, between a low within 100 us of SYNC_LOW and a
    high within 100 us of SYNC_HIGH, bounds included; the window wraps
    around the start of the ring. *)
Theorem isSync_closed_windows (buf : list Z) (idx : Z) :
  8 <= RING_BUFFER_SIZE <= 32767 -> 0 <= idx < RING_BUFFER_SIZE ->
  100 <= SYNC_HIGH <= 32667 -> 100 <= SYNC_LOW <= 32667 ->
  isSync buf idx = true
  <-> forall k, 0 <= k < 4 ->
        within SYNC_LOW (rd buf ((idx - 2 * k) mod RING_BUFFER_SIZE))
        /\ within SYNC_HIGH (rd buf ((idx - 2 * k - 1) mod RING_BUFFER_SIZE)).
Proof.
  intros Hring Hidx Hh Hl. split.
  - intros H k Hk.
    exact (proj1 (isSync_windows buf idx Hring Hidx Hh Hl) H k Hk).
  - intros H. apply isSync_windows; assumption.
Qed.

End Sync.

Section Edges.
Context {hdr : Header}.

(** ** One edge *)

(** What the handler does to the ring on an edge it does not ignore. *)
Lemma handler_rf433_ring pin now s :
  received s = false ->
  0 < RING_BUFFER_SIZE <= 32767 ->
  0 <= ringIndex s < RING_BUFFER_SIZE ->
  length (pulseDurations s) = Z.to_nat RING_BUFFER_SIZE ->
  ringIndex (handler_rf433 pin now s) = (ringIndex s + 1) mod RING_BUFFER_SIZE
  /\ 0 <= ringIndex (handler_rf433 pin now s) < RING_BUFFER_SIZE
  /\ duration (handler_rf433 pin now s) = to_ulong (now - lastTime s)
  /\ lastTime (handler_rf433 pin now s) = to_ulong now
  /\ pulseDurations (handler_rf433 pin now s)
     = wr (pulseDurations s) ((ringIndex s + 1) mod RING_BUFFER_SIZE)
          (to_ulong (now - lastTime s))
  /\ length (pulseDurations (handler_rf433 pin now s)) = Z.to_nat RING_BUFFER_SIZE.
Proof.
  intros Hrec Hring Hidx Hlen.
  unfold handler_rf433. rewrite Hrec.
  cbn [ringIndex duration lastTime pulseDurations].
  rewrite (to_uint_small (ringIndex s + 1)) by lia.
  assert (Hpos : 0 < RING_BUFFER_SIZE) by lia.
  pose proof (Z.mod_pos_bound (ringIndex s + 1) RING_BUFFER_SIZE Hpos) as Hm.
  repeat split; try reflexivity; try lia.
  rewrite length_wr. exact Hlen.
Qed.

Lemma recent_after_edge pin now s :
  received s = false ->
  0 < RING_BUFFER_SIZE <= 32767 ->
  0 <= ringIndex s < RING_BUFFER_SIZE ->
  length (pulseDurations s) = Z.to_nat RING_BUFFER_SIZE ->
  recent (handler_rf433 pin now s) 0 = to_ulong (now - lastTime s)
  /\ forall j, 0 < j < RING_BUFFER_SIZE ->
       recent (handler_rf433 pin now s) j = recent s (j - 1).
Proof.
  intros Hrec Hring Hidx Hlen.
  destruct (handler_rf433_ring pin now s Hrec Hring Hidx Hlen)
    as (Hri & Hrange & _ & _ & Hbuf & _).
  unfold recent. rewrite Hbuf, Hri.
  assert (Hpos : 0 < RING_BUFFER_SIZE) by lia.
  pose proof (Z.mod_pos_bound (ringIndex s + 1) RING_BUFFER_SIZE Hpos) as Hm.
  split.
  - rewrite Z.sub_0_r, Z.mod_mod by lia.
    apply rd_wr_eq; [lia|]. rewrite Hlen. lia.
  - intros j Hj.
    rewrite Zminus_mod_idemp_l.
    pose proof (Z.mod_pos_bound (ringIndex s + 1 - j) RING_BUFFER_SIZE Hpos).
    rewrite rd_wr_ne; [| lia | lia |].
    + f_equal. f_equal. lia.
    + intros Heq. symmetry in Heq. revert Heq.
      apply ring_slots_differ; lia.
Qed.

(** X2: on an edge it does not ignore, the handler measures the time since
    the previous edge exactly, also when [micros()] has wrapped around since
    then; the measure becomes the newest entry of the ring, every other
    entry is one edge older than before, and the oldest is overwritten. *)
Theorem handler_rf433_stores_elapsed_time (pin prev d : Z) (s : State) :
  received s = false ->
  0 < RING_BUFFER_SIZE <= 32767 ->
  0 <= ringIndex s < RING_BUFFER_SIZE ->
  length (pulseDurations s) = Z.to_nat RING_BUFFER_SIZE ->
  lastTime s = prev -> 0 <= prev < 2 ^ 32 -> 0 <= d < 2 ^ 32 ->
  duration (handler_rf433 pin ((prev + d) mod 2 ^ 32) s) = d
  /\ lastTime (handler_rf433 pin ((prev + d) mod 2 ^ 32) s) = (prev + d) mod 2 ^ 32
  /\ ringIndex (handler_rf433 pin ((prev + d) mod 2 ^ 32) s)
     = (ringIndex s + 1) mod RING_BUFFER_SIZE
  /\ recent (handler_rf433 pin ((prev + d) mod 2 ^ 32) s) 0 = d
  /\ forall j, 0 < j < RING_BUFFER_SIZE ->
       recent (handler_rf433 pin ((prev + d) mod 2 ^ 32) s) j = recent s (j - 1).
Proof.
  intros Hrec Hring Hidx Hlen Hprev Hp Hd.
  destruct (handler_rf433_ring pin ((prev + d) mod 2 ^ 32) s Hrec Hring Hidx Hlen)
    as (Hri & _ & Hdur & Hlast & _).
  destruct (recent_after_edge pin ((prev + d) mod 2 ^ 32) s Hrec Hring Hidx Hlen)
    as (Hnew & Hold).
  assert (Hmeasure : to_ulong ((prev + d) mod 2 ^ 32 - lastTime s) = d).
  { rewrite Hprev. unfold to_ulong.
    rewrite Zminus_mod_idemp_l.
    replace (prev + d - prev) with d by lia.
    apply Z.mod_small. exact Hd. }
  rewrite Hdur, Hlast, Hnew, Hmeasure.
  split; [reflexivity|]. split; [apply Z.mod_mod; lia|].
  split; [exact Hri|]. split; [reflexivity | exact Hold].
Qed.

End Edges.

Section Machine.
Context {hdr : Header}.

(** ** The transitions of the handler *)

Lemma plausible_test d :
  100 <= PULSE_SHORT <= 32767 -> 0 <= PULSE_LONG <= 32667 ->
  (d >? to_ulong (PULSE_LONG + 100)) || (d <? to_ulong (PULSE_SHORT - 100)) = false
  <-> plausible d.
Proof.
  intros Hs Hl. unfold plausible.
  rewrite (to_ulong_small (PULSE_LONG + 100)) by lia.
  rewrite (to_ulong_small (PULSE_SHORT - 100)) by lia.
  rewrite orb_false_iff, Z.gtb_ltb, !Z.ltb_ge. lia.
Qed.

(** An edge the handler does not ignore does one of three things: it
    completes a sync train; or it leaves the handler searching, because it
    is a runt or no sync was found before; or it is counted as one more edge
    of the frame in capture. *)
Lemma handler_rf433_transitions pin now s :
  received s = false ->
  100 <= PULSE_SHORT <= 32767 -> 0 <= PULSE_LONG <= 32667 ->
  (isSync (pulseDurations (handler_rf433 pin now s))
          (ringIndex (handler_rf433 pin now s)) = true
   /\ syncFound (handler_rf433 pin now s) = true
   /\ changeCount (handler_rf433 pin now s) = 0
   /\ syncIndex (handler_rf433 pin now s) = ringIndex (handler_rf433 pin now s)
   /\ dataIndex (handler_rf433 pin now s)
      = to_uint (ringIndex (handler_rf433 pin now s) + 1) mod RING_BUFFER_SIZE
   /\ received (handler_rf433 pin now s) = false
   /\ attached (handler_rf433 pin now s) = attached s)
  \/ (isSync (pulseDurations (handler_rf433 pin now s))
             (ringIndex (handler_rf433 pin now s)) = false
      /\ (~ plausible (duration (handler_rf433 pin now s)) \/ syncFound s = false)
      /\ syncFound (handler_rf433 pin now s) = false
      /\ received (handler_rf433 pin now s) = false
      /\ attached (handler_rf433 pin now s) = attached s)
  \/ (isSync (pulseDurations (handler_rf433 pin now s))
             (ringIndex (handler_rf433 pin now s)) = false
      /\ plausible (duration (handler_rf433 pin now s))
      /\ syncFound s = true
      /\ syncIndex (handler_rf433 pin now s) = syncIndex s
      /\ dataIndex (handler_rf433 pin now s) = dataIndex s
      /\ changeCount (handler_rf433 pin now s) = to_uint (changeCount s + 1)
      /\ syncFound (handler_rf433 pin now s)
         = (to_uint (changeCount s + 1) <=? DATABITSEDGES)
      /\ received (handler_rf433 pin now s)
         = (to_uint (changeCount s + 1) =? DATABITSEDGES)
      /\ attached (handler_rf433 pin now s)
         = if to_uint (changeCount s + 1) =? DATABITSEDGES then false
           else attached s).
Proof.
  intros Hrec Hs Hl.
  unfold handler_rf433. rewrite Hrec.
  cbn [pulseDurations ringIndex syncFound changeCount syncIndex dataIndex
       received attached duration].
  pose proof (plausible_test (to_ulong (now - lastTime s)) Hs Hl) as Hplaus.
  destruct (isSync _ _) eqn:Hsync.
  - left. repeat split; reflexivity.
  - right.
    destruct ((to_ulong (now - lastTime s) >? to_ulong (PULSE_LONG + 100))
              || (to_ulong (now - lastTime s) <? to_ulong (PULSE_SHORT - 100)))
      eqn:Hrunt.
    + left. split; [reflexivity|]. split.
      { left. intros Hp. apply Hplaus in Hp. discriminate. }
      repeat split; reflexivity.
    + destruct (syncFound s) eqn:Hfound.
      * right. split; [reflexivity|].
        split; [apply Hplaus; reflexivity|].
        split; [reflexivity|]. split; [reflexivity|]. split; [reflexivity|].
        split; [reflexivity|].
        set (c := to_uint (changeCount s + 1)).
        cbn [andb].
        destruct (Z.compare_spec c DATABITSEDGES) as [Heq | Hlt | Hgt].
        -- rewrite Heq. rewrite Z.ltb_irrefl, Z.gtb_ltb, Z.ltb_irrefl, Z.leb_refl,
             Z.eqb_refl. repeat split; reflexivity.
        -- replace (c <? DATABITSEDGES) with true by (symmetry; apply Z.ltb_lt; lia).
           replace (c <=? DATABITSEDGES) with true by (symmetry; apply Z.leb_le; lia).
           replace (c =? DATABITSEDGES) with false by (symmetry; apply Z.eqb_neq; lia).
           repeat split; reflexivity.
        -- replace (c <? DATABITSEDGES) with false by (symmetry; apply Z.ltb_ge; lia).
           replace (c >? DATABITSEDGES) with true
             by (symmetry; rewrite Z.gtb_ltb; apply Z.ltb_lt; lia).
           replace (c <=? DATABITSEDGES) with false by (symmetry; apply Z.leb_gt; lia).
           replace (c =? DATABITSEDGES) with false by (symmetry; apply Z.eqb_neq; lia).
           repeat split; reflexivity.
      * left. split; [reflexivity|]. split; [right; reflexivity|].
        repeat split; reflexivity.
Qed.

End Machine.

Section Invariant.
Context {hdr : Header}.

(** ** The capture invariant *)

Lemma setup592_inv : sized_header -> capture_inv setup592.
Proof.
  intros (Hring & _ & _ & Hn). unfold capture_inv.
  cbn [setup592 pulseDurations ringIndex attached received syncFound changeCount].
  split; [apply length_replicate|].
  split; [unfold DATABITSEDGES, DATABITSCNT, DATABYTESCNT in Hring; lia|].
  split; [reflexivity|].
  split; [discriminate|].
  split; [discriminate|].
  split; [apply setup592_slots|].
  intros i d Hd. cbn [setup592 sensorData] in Hd.
  change (map ?f ?l) with (f <$> l) in Hd.
  rewrite list_lookup_fmap in Hd.
  destruct (seqZ 0 _numSensors !! i) as [x|] eqn:Hx; [|discriminate].
  apply lookup_seqZ in Hx. destruct Hx as [-> Hi].
  injection Hd as <-. cbn [Sensor.id].
  rewrite to_uint8_small by lia. lia.
Qed.

Lemma set_bitState_inv pin s : capture_inv s -> capture_inv (set_bitState pin s).
Proof. intros H. exact H. Qed.

Lemma handler_rf433_inv pin now s :
  sized_header -> capture_inv s -> capture_inv (handler_rf433 pin now s).
Proof.
  intros (Hring & Hshort & Hlong & Hn) Hinv.
  destruct (received s) eqn:Hrec.
  { rewrite handler_rf433_when_received by exact Hrec.
    apply set_bitState_inv. exact Hinv. }
  destruct Hinv as (Hlen & Hidx & Hatt & _ & Hsync & Hslots & Hids).
  assert (Hring' : 0 < RING_BUFFER_SIZE <= 32767)
    by (unfold DATABITSEDGES, DATABITSCNT, DATABYTESCNT in Hring; lia).
  assert (Hpos : 0 < RING_BUFFER_SIZE) by lia.
  destruct (handler_rf433_ring pin now s Hrec Hring' Hidx Hlen)
    as (Hri & Hrange & Hdur & _ & Hbuf & Hlen').
  rewrite Hrec in Hatt. cbn [negb] in Hatt.
  unfold capture_inv.
  split; [exact Hlen'|]. split; [exact Hrange|].
  rewrite handler_rf433_slots.
  destruct (handler_rf433_transitions pin now s Hrec Hshort Hlong)
    as [(_ & Hf & Hc & Hsi & Hdi & Hr & Ha)
       | [(_ & _ & Hf & Hr & Ha)
         | (_ & Hplaus & Hfound & Hsi & Hdi & Hc & Hf & Hr & Ha)]].
  - (* a sync train ends here *)
    rewrite Hf, Hc, Hr, Ha, Hatt, Hsi, Hdi.
    split; [reflexivity|]. split; [discriminate|].
    split; [|split; assumption].
    intros _. unfold DATABITSEDGES, DATABITSCNT, DATABYTESCNT.
    split; [lia|]. split; [lia|]. split; [exact Hrange|].
    split; [rewrite to_uint_small by lia; reflexivity|].
    split; [rewrite Z.add_0_r, Z.mod_small by lia; reflexivity|].
    intros n Hn'. lia.
  - (* searching *)
    rewrite Hf, Hr, Ha, Hatt.
    split; [reflexivity|]. split; [discriminate|].
    split; [discriminate|]. split; assumption.
  - (* one more edge of the frame *)
    destruct (Hsync Hfound) as (Hcc & Hccr & Hsidx & Hdidx & Hrel & Hedges).
    specialize (Hccr Hrec).
    assert (Hu : to_uint (changeCount s + 1) = changeCount s + 1).
    { apply to_uint_small.
      unfold DATABITSEDGES, DATABITSCNT, DATABYTESCNT in Hccr. lia. }
    rewrite Hu in Hc, Hf, Hr, Ha.
    rewrite Hr, Ha, Hf, Hsi, Hdi, Hc, Hatt.
    assert (Hle : (changeCount s + 1 <=? DATABITSEDGES) = true)
      by (apply Z.leb_le; lia).
    rewrite Hle.
    split.
    { destruct (changeCount s + 1 =? DATABITSEDGES); reflexivity. }
    split.
    { intros Heq. apply Z.eqb_eq in Heq. split; [reflexivity | exact Heq]. }
    split; [|split; assumption].
    intros _.
    split; [lia|]. split.
    { intros Hne. apply Z.eqb_neq in Hne. lia. }
    split; [exact Hsidx|]. split; [exact Hdidx|]. split.
    { rewrite Hri, Hrel, Zplus_mod_idemp_l. f_equal. lia. }
    intros n Hn'. unfold data_edge. rewrite Hsi, Hbuf.
    assert (Hslot : (ringIndex s + 1) mod RING_BUFFER_SIZE
                    = (syncIndex s + 1 + changeCount s) mod RING_BUFFER_SIZE).
    { rewrite Hrel, Zplus_mod_idemp_l. f_equal. lia. }
    pose proof (Z.mod_pos_bound (syncIndex s + 1 + n) RING_BUFFER_SIZE Hpos).
    pose proof (Z.mod_pos_bound (syncIndex s + 1 + changeCount s)
                  RING_BUFFER_SIZE Hpos).
    destruct (Z.eq_dec n (changeCount s)) as [-> | Hne].
    + rewrite Hslot, rd_wr_eq; [| lia | rewrite Hlen; lia].
      rewrite <- Hdur. exact Hplaus.
    + rewrite Hslot, rd_wr_ne; [| lia | lia |].
      * apply Hedges. lia.
      * intros Heq. symmetry in Heq. revert Heq.
        apply ring_slots_differ; lia.
Qed.

(** What a pass of the poll routine does to the capture state. *)
Lemma loop592_capture millis sweep s :
  pulseDurations (snd (loop592 millis sweep s)) = pulseDurations s
  /\ syncIndex (snd (loop592 millis sweep s)) = syncIndex s
  /\ dataIndex (snd (loop592 millis sweep s)) = dataIndex s
  /\ changeCount (snd (loop592 millis sweep s)) = changeCount s
  /\ ringIndex (snd (loop592 millis sweep s)) = ringIndex s
  /\ duration (snd (loop592 millis sweep s)) = duration s
  /\ lastTime (snd (loop592 millis sweep s)) = lastTime s
  /\ bitState (snd (loop592 millis sweep s)) = bitState s
  /\ received (snd (loop592 millis sweep s)) = false
  /\ (received s = true ->
      syncFound (snd (loop592 millis sweep s)) = false
      /\ attached (snd (loop592 millis sweep s)) = true)
  /\ (received s = false ->
      syncFound (snd (loop592 millis sweep s)) = syncFound s
      /\ attached (snd (loop592 millis sweep s)) = attached s).
Proof.
  unfold loop592.
  destruct (received s) eqn:Hrec.
  - destruct (decode_frame s); [|repeat split; (reflexivity || discriminate)].
    cbv zeta. destruct (negb _); [repeat split; (reflexivity || discriminate)|].
    destruct (_ >? _); repeat split; (reflexivity || discriminate).
  - cbn [snd pulseDurations syncIndex dataIndex changeCount ringIndex duration
         lastTime bitState received syncFound attached].
    repeat split; (assumption || reflexivity || discriminate).
Qed.

Lemma age_slot_id now d : Sensor.id (age_slot now d) = Sensor.id d.
Proof. unfold age_slot. destruct (_ <? _); reflexivity. Qed.

Lemma ageStaleData_ids millis (sd : list sensorTemperatureData) :
  (forall (i : nat) d, sd !! i = Some d -> Sensor.id d = Z.of_nat i + 1) ->
  forall (i : nat) d,
    ageStaleData millis sd !! i = Some d -> Sensor.id d = Z.of_nat i + 1.
Proof.
  intros Hids i d Hd. rewrite ageStaleData_lookup in Hd.
  destruct (sd !! i) as [e|] eqn:He; [|discriminate].
  injection Hd as <-. rewrite age_slot_id. exact (Hids i e He).
Qed.

Lemma loop592_ids millis sweep s :
  _numSensors < 255 ->
  (forall (i : nat) d, sensorData s !! i = Some d -> Sensor.id d = Z.of_nat i + 1) ->
  forall (i : nat) d,
    sensorData (snd (loop592 millis sweep s)) !! i = Some d ->
    Sensor.id d = Z.of_nat i + 1.
Proof.
  intros Hn Hids.
  destruct (received s) eqn:Hrec.
  - destruct (decode_frame s) as [b|] eqn:Hdec.
    + destruct (Z.eq_dec (crc_sum b) (rd b 6)) as [Hcrc | Hcrc].
      * assert (Hv : validated s b) by (repeat split; assumption).
        destruct (decide (hexID (overlay b) ∈ probeIdArray)) as [Hin | Hnot].
        -- destruct (loop592_known millis sweep s b Hn Hv Hin)
             as (k & Hk & _ & _ & _ & Hsd & _).
           rewrite Hsd. apply ageStaleData_ids.
           intros i d Hd. unfold merge in Hd. rewrite Nat2Z.id in Hd.
           destruct (sensorData s !! k) as [old|] eqn:Hold; [|exact (Hids i d Hd)].
           destruct (decide (i = k)) as [-> | Hne].
           ++ rewrite list_lookup_insert_eq in Hd
                by (eapply lookup_lt_Some; exact Hold).
              injection Hd as <-. cbn [merge_slot Sensor.id].
              apply to_uint8_small.
              assert ((k < length probeIdArray)%nat)
                by (eapply lookup_lt_Some; exact Hk).
              unfold _numSensors in Hn. lia.
           ++ rewrite list_lookup_insert_ne in Hd by congruence.
              exact (Hids i d Hd).
        -- rewrite (loop592_unknown millis sweep s b Hn Hv Hnot). exact Hids.
      * rewrite (loop592_crc_error millis sweep s b Hrec Hdec Hcrc). exact Hids.
    + rewrite (loop592_bit_error millis sweep s Hrec Hdec). exact Hids.
  - unfold loop592. rewrite Hrec. cbn [snd sensorData].
    apply ageStaleData_ids. exact Hids.
Qed.

Lemma loop592_inv millis sweep s :
  sized_header -> capture_inv s -> capture_inv (snd (loop592 millis sweep s)).
Proof.
  intros (Hring & Hshort & Hlong & Hn) Hinv.
  destruct Hinv as (Hlen & Hidx & Hatt & Hready & Hsync & Hslots & Hids).
  destruct (loop592_capture millis sweep s)
    as (Hbuf & Hsi & Hdi & Hcc & Hri & _ & _ & _ & Hrec' & Hwas & Hwasnt).
  unfold capture_inv, data_edge.
  rewrite Hbuf, Hsi, Hdi, Hcc, Hri, Hrec', loop592_slots.
  split; [exact Hlen|]. split; [exact Hidx|].
  destruct (received s) eqn:Hrec.
  - destruct (Hwas eq_refl) as [Hf Ha]. rewrite Hf, Ha.
    split; [reflexivity|]. split; [discriminate|]. split; [discriminate|].
    split; [exact Hslots|]. apply loop592_ids; assumption.
  - destruct (Hwasnt eq_refl) as [Hf Ha]. rewrite Hf, Ha.
    split; [exact Hatt|]. split; [discriminate|].
    split; [|split; [exact Hslots | apply loop592_ids; assumption]].
    intros Hfound. destruct (Hsync Hfound) as (H1 & H2 & H3 & H4 & H5 & H6).
    split; [exact H1|]. split; [intros _; apply H2; reflexivity|].
    split; [exact H3|]. split; [exact H4|]. split; [exact H5 | exact H6].
Qed.

Lemma run_inv events : forall s,
  sized_header -> capture_inv s -> capture_inv (run events s).
Proof.
  unfold run.
  induction events as [|e events IH]; intros s Hh Hinv; cbn [fold_left].
  - exact Hinv.
  - apply IH; [exact Hh|].
    destruct e as [pin now | millis]; cbn [step].
    + apply handler_rf433_inv; assumption.
    + apply loop592_inv; assumption.
Qed.

End Invariant.

Section Bits.
Context {hdr : Header}.

(** ** The bit loop as an inverse of the transmitter *)

Lemma convertTimingToBit_bit_durations bit :
  timed_header ->
  convertTimingToBit (to_uint (rd (bit_durations bit) 0))
                     (to_uint (rd (bit_durations bit) 1)) = Z.b2z bit.
Proof.
  intros (_ & _ & H1h & H1l & H0h & H0l & Hsep & _).
  pose proof (template_test BIT1_HIGH BIT1_LOW) as T1.
  pose proof (template_test BIT0_HIGH BIT0_LOW) as T0.
  unfold convertTimingToBit.
  destruct bit; cbn [bit_durations Z.b2z];
    change (rd [?a; ?b] 0) with a; change (rd [?a; ?b] 1) with b.
  - rewrite (to_uint_small BIT1_HIGH), (to_uint_small BIT1_LOW) by lia.
    rewrite (proj2 (T1 BIT1_HIGH BIT1_LOW H1h H1l)); [reflexivity|].
    unfold inside. lia.
  - rewrite (to_uint_small BIT0_HIGH), (to_uint_small BIT0_LOW) by lia.
    destruct (_ && _ && _ && _) eqn:E1 at 1.
    + apply (T1 BIT0_HIGH BIT0_LOW H1h H1l) in E1. unfold inside in E1. lia.
    + rewrite (proj2 (T0 BIT0_HIGH BIT0_LOW H0h H0l)); [reflexivity|].
      unfold inside. lia.
Qed.

Lemma rd_cons (x : Z) (l : list Z) n : 0 <= n -> rd (x :: l) (n + 1) = rd l n.
Proof.
  intros Hn. unfold rd.
  replace (Z.to_nat (n + 1)) with (S (Z.to_nat n)) by lia. reflexivity.
Qed.

Lemma rd_bit_durations_app bit (l : list Z) n :
  0 <= n -> rd (bit_durations bit ++ l) (n + 2) = rd l n.
Proof.
  intros Hn. destruct bit; cbn [bit_durations app];
    replace (n + 2) with (n + 1 + 1) by lia;
    rewrite !rd_cons by lia; reflexivity.
Qed.

Lemma rd_bit_durations_head bit (l : list Z) :
  rd (bit_durations bit ++ l) 0 = rd (bit_durations bit) 0
  /\ rd (bit_durations bit ++ l) 1 = rd (bit_durations bit) 1.
Proof. destruct bit; split; reflexivity. Qed.

(** On a buffer that holds the durations of [bits] from ring position [r]
    on, the bit loop does what [pack_bits] does. *)
Lemma decode_bits_pack buf : forall bits i r acc,
  timed_header ->
  0 <= r -> r + 2 * Z.of_nat (length bits) < 65536 ->
  (forall n, 0 <= n < 2 * Z.of_nat (length bits) ->
     rd buf ((r + n) mod RING_BUFFER_SIZE) = rd (flat_map bit_durations bits) n) ->
  decode_bits (length bits) i buf r acc = Some (pack_bits bits i acc).
Proof.
  induction bits as [|bit bits IH]; intros i r acc Ht Hr Hmax Hbuf.
  - reflexivity.
  - cbn [length] in *. cbn [decode_bits pack_bits flat_map] in *.
    rewrite (to_uint_small (r + 1)) by lia.
    rewrite (to_uint_small (r + 2)) by lia.
    destruct (rd_bit_durations_head bit (flat_map bit_durations bits)) as [Hhi Hlo].
    pose proof (Hbuf 0 ltac:(lia)) as H0. rewrite Z.add_0_r, Hhi in H0.
    pose proof (Hbuf 1 ltac:(lia)) as H1. rewrite Hlo in H1.
    rewrite H0, H1, (convertTimingToBit_bit_durations bit Ht).
    replace (Z.b2z bit <? 0) with false by (destruct bit; reflexivity).
    fold (put_bit acc i (Z.b2z bit)).
    apply IH; [exact Ht | lia | lia |].
    intros n Hn.
    replace (r + 2 + n) with (r + (n + 2)) by lia.
    rewrite Hbuf by lia. apply rd_bit_durations_app. lia.
Qed.

(** ** Packing bits into bytes *)

Lemma put_bit_at acc k m bit :
  0 <= k -> 0 <= m < 8 ->
  put_bit acc (8 * k + m) bit
  = wr acc k (to_uint8 (Z.lor (rd acc k) (Z.shiftl bit (7 - m)))).
Proof.
  intros Hk Hm. unfold put_bit.
  replace ((8 * k + m) / 8) with k by (apply (Z.div_unique _ 8 k m); lia).
  replace ((8 * k + m) mod 8) with m by (apply (Z.mod_unique _ 8 k m); lia).
  reflexivity.
Qed.

Lemma to_uint8_lor_l y z : to_uint8 (Z.lor (to_uint8 y) z) = to_uint8 (Z.lor y z).
Proof.
  apply Z.bits_inj'. intros n Hn.
  rewrite !to_uint8_bits, !Z.lor_spec, to_uint8_bits by lia.
  destruct (n <? 8), (Z.testbit y n), (Z.testbit z n); reflexivity.
Qed.

Lemma wr_wr (acc : list Z) k v v' : wr (wr acc k v) k v' = wr acc k v'.
Proof. unfold wr. apply list_insert_insert_eq. Qed.

Lemma wr_rd (acc : list Z) (k : nat) :
  (k < length acc)%nat -> wr acc (Z.of_nat k) (rd acc (Z.of_nat k)) = acc.
Proof.
  intros Hk. unfold wr, rd. rewrite Nat2Z.id.
  destruct (lookup_lt_is_Some_2 acc k Hk) as [x Hx]. rewrite Hx.
  apply list_insert_id. exact Hx.
Qed.

(** Bits written into byte [k] from offset [m] on are or-ed into it. *)
Lemma pack_bits_within_byte (k : nat) : forall bits m rest acc,
  0 <= m -> m + Z.of_nat (length bits) <= 8 ->
  (k < length acc)%nat -> is_byte (rd acc (Z.of_nat k)) ->
  pack_bits (bits ++ rest) (8 * Z.of_nat k + m) acc
  = pack_bits rest (8 * Z.of_nat k + m + Z.of_nat (length bits))
      (wr acc (Z.of_nat k)
          (to_uint8 (Z.lor (rd acc (Z.of_nat k)) (bits_value bits m)))).
Proof.
  induction bits as [|bit bits IH]; intros m rest acc Hm Hlen Hk Hbyte.
  - cbn [app length bits_value]. rewrite Z.add_0_r, Z.lor_0_r.
    rewrite to_uint8_small by exact Hbyte. rewrite wr_rd by exact Hk. reflexivity.
  - cbn [length] in Hlen. cbn [app pack_bits bits_value length].
    rewrite put_bit_at by lia.
    replace (8 * Z.of_nat k + m + 1) with (8 * Z.of_nat k + (m + 1)) by lia.
    rewrite IH; [| lia | lia | rewrite length_wr; exact Hk |].
    + rewrite rd_wr_eq by (rewrite ?Nat2Z.id; lia || exact Hk).
      rewrite wr_wr, to_uint8_lor_l, Z.lor_assoc.
      f_equal. lia.
    + rewrite rd_wr_eq by (rewrite ?Nat2Z.id; lia || exact Hk).
      apply to_uint8_range.
Qed.

(** The eight bits of a byte, or-ed into a zero, give the byte back. *)
Lemma bits_value_byte_bits b :
  is_byte b -> to_uint8 (Z.lor 0 (bits_value (byte_bits b) 0)) = b.
Proof.
  intros Hb.
  assert (Hall : Forall (fun x => to_uint8 (Z.lor 0 (bits_value (byte_bits x) 0)) = x)
                        (seqZ 0 256)).
  { apply Forall_forall. intros x Hx.
    assert (Hdec : forallb (fun x => to_uint8 (Z.lor 0 (bits_value (byte_bits x) 0)) =? x)
                           (seqZ 0 256) = true) by (vm_compute; reflexivity).
    rewrite forallb_forall in Hdec. apply Z.eqb_eq. apply Hdec.
    apply list_elem_of_In. exact Hx. }
  rewrite Forall_forall in Hall. apply Hall.
  apply elem_of_seqZ. unfold is_byte in Hb. lia.
Qed.

Lemma pack_bits_byte (k : nat) b rest acc :
  is_byte b -> acc !! k = Some 0 ->
  pack_bits (byte_bits b ++ rest) (8 * Z.of_nat k) acc
  = pack_bits rest (8 * Z.of_nat (S k)) (<[k := b]> acc).
Proof.
  intros Hb Hk.
  assert (Hlt : (k < length acc)%nat) by (eapply lookup_lt_Some; exact Hk).
  assert (Hrd : rd acc (Z.of_nat k) = 0).
  { unfold rd. rewrite Nat2Z.id, Hk. reflexivity. }
  replace (8 * Z.of_nat k) with (8 * Z.of_nat k + 0) by lia.
  rewrite pack_bits_within_byte;
    [| lia | cbn; lia | exact Hlt | rewrite Hrd; unfold is_byte; lia].
  rewrite Hrd, bits_value_byte_bits by exact Hb.
  unfold wr. rewrite Nat2Z.id. f_equal. cbn [byte_bits map length]. lia.
Qed.

Lemma pack_bits_frame : forall bytes done,
  Forall is_byte bytes ->
  pack_bits (frame_bits bytes) (8 * Z.of_nat (length done))
            (done ++ replicate (length bytes) 0)
  = done ++ bytes.
Proof.
  induction bytes as [|b bytes IH]; intros done Hall.
  - reflexivity.
  - apply Forall_cons in Hall. destruct Hall as [Hb Hall].
    unfold frame_bits. cbn [flat_map length replicate].
    fold (frame_bits bytes).
    rewrite pack_bits_byte; [| exact Hb |].
    + assert (Hins : <[length done := b]> (done ++ 0 :: replicate (length bytes) 0)
                     = (done ++ [b]) ++ replicate (length bytes) 0).
      { rewrite insert_app_r_alt by lia. rewrite Nat.sub_diag.
        rewrite <- app_assoc. reflexivity. }
      rewrite Hins.
      assert (HS : S (length done) = length (done ++ [b]))
        by (rewrite length_app; cbn; lia).
      rewrite HS, IH by exact Hall.
      rewrite <- app_assoc. reflexivity.
    + rewrite lookup_app_r by lia. rewrite Nat.sub_diag. reflexivity.
Qed.

End Bits.

Section Decode.
Context {hdr : Header}.

(** ** decode_frame *)

Lemma length_frame_bits bytes : length (frame_bits bytes) = (8 * length bytes)%nat.
Proof.
  unfold frame_bits. induction bytes as [|b bytes IH]; [reflexivity|].
  cbn [flat_map length]. rewrite length_app, IH. cbn [byte_bits map length]. lia.
Qed.

(** Where the bit loop starts reading, and what it reads from there. *)
Lemma decode_frame_reads s n :
  0 < RING_BUFFER_SIZE <= 32767 -> 0 <= syncIndex s < RING_BUFFER_SIZE ->
  0 <= to_uint (syncIndex s + 1) mod RING_BUFFER_SIZE < RING_BUFFER_SIZE
  /\ rd (pulseDurations s)
        ((to_uint (syncIndex s + 1) mod RING_BUFFER_SIZE + n) mod RING_BUFFER_SIZE)
     = data_edge s n.
Proof.
  intros Hring Hsi.
  assert (Hpos : 0 < RING_BUFFER_SIZE) by lia.
  rewrite to_uint_small by lia.
  split; [apply Z.mod_pos_bound; exact Hpos|].
  unfold data_edge. rewrite Zplus_mod_idemp_l. reflexivity.
Qed.

Lemma decode_frame_encoded s bytes :
  timed_header ->
  0 < RING_BUFFER_SIZE <= 32767 -> 0 <= syncIndex s < RING_BUFFER_SIZE ->
  length bytes = Z.to_nat DATABYTESCNT -> Forall is_byte bytes ->
  (forall n, 0 <= n < DATABITSEDGES -> data_edge s n = rd (encode_frame bytes) n) ->
  decode_frame s = Some bytes.
Proof.
  intros Ht Hring Hsi Hlen Hall Hbuf.
  unfold decode_frame.
  assert (Hbits : length (frame_bits bytes) = Z.to_nat DATABITSCNT).
  { rewrite length_frame_bits, Hlen. reflexivity. }
  rewrite <- Hbits.
  destruct (decode_frame_reads s 0 Hring Hsi) as [Hr0 _].
  rewrite decode_bits_pack.
  - f_equal. rewrite <- Hlen.
    exact (pack_bits_frame bytes [] Hall).
  - exact Ht.
  - lia.
  - rewrite Hbits. change (Z.of_nat (Z.to_nat DATABITSCNT)) with 56. lia.
  - intros n Hn. rewrite Hbits in Hn.
    change (Z.of_nat (Z.to_nat DATABITSCNT)) with 56 in Hn.
    rewrite (proj2 (decode_frame_reads s n Hring Hsi)).
    apply Hbuf. unfold DATABITSEDGES, DATABITSCNT, DATABYTESCNT. lia.
Qed.

Lemma convertTimingToBit_values t0 t1 :
  convertTimingToBit t0 t1 = 1 \/ convertTimingToBit t0 t1 = 0
  \/ convertTimingToBit t0 t1 = -1.
Proof.
  unfold convertTimingToBit.
  destruct (_ && _ && _ && _); [left; reflexivity|].
  destruct (_ && _ && _ && _); [right; left; reflexivity | right; right; reflexivity].
Qed.

Lemma decode_bits_None buf : forall n i r acc,
  0 <= r -> r + 2 * Z.of_nat n < 65536 ->
  decode_bits n i buf r acc = None
  <-> exists m, 0 <= m < Z.of_nat n
        /\ convertTimingToBit
             (to_uint (rd buf ((r + 2 * m) mod RING_BUFFER_SIZE)))
             (to_uint (rd buf ((r + 2 * m + 1) mod RING_BUFFER_SIZE))) = -1.
Proof.
  induction n as [|n IH]; intros i r acc Hr Hmax.
  - cbn [decode_bits]. split; [discriminate | intros (m & Hm & _); lia].
  - cbn [decode_bits].
    rewrite (to_uint_small (r + 1)) by lia.
    rewrite (to_uint_small (r + 2)) by lia.
    set (bit := convertTimingToBit (to_uint (rd buf (r mod RING_BUFFER_SIZE)))
                  (to_uint (rd buf ((r + 1) mod RING_BUFFER_SIZE)))).
    assert (Hbit : bit = 1 \/ bit = 0 \/ bit = -1)
      by apply convertTimingToBit_values.
    destruct (bit <? 0) eqn:E.
    + apply Z.ltb_lt in E. split; [intros _ | reflexivity].
      exists 0. split; [lia|].
      replace (r + 2 * 0) with r by lia. fold bit. lia.
    + apply Z.ltb_ge in E. rewrite IH by lia. split.
      * intros (m & Hm & Hbad). exists (m + 1). split; [lia|].
        replace (r + 2 * (m + 1)) with (r + 2 + 2 * m) by lia. exact Hbad.
      * intros (m & Hm & Hbad).
        destruct (Z.eq_dec m 0) as [-> | Hne].
        -- replace (r + 2 * 0) with r in Hbad by lia. fold bit in Hbad. lia.
        -- exists (m - 1). split; [lia|].
           replace (r + 2 + 2 * (m - 1)) with (r + 2 * m) by lia. exact Hbad.
Qed.

(** X8: the poll routine takes the bit timing error exit iff, among the 56
    pairs of durations after the sync train, there is one that
    [convertTimingToBit] maps to neither bit: one bad pair rejects the
    frame, whatever the other 55 are. *)
Theorem one_bad_pair_rejects_the_frame (millis sweep : Z) (s : State) :
  0 < RING_BUFFER_SIZE <= 32767 -> 0 <= syncIndex s < RING_BUFFER_SIZE ->
  received s = true ->
  fst (loop592 millis sweep s) = BitTimingError
  <-> exists m, 0 <= m < DATABITSCNT
        /\ convertTimingToBit (to_uint (data_edge s (2 * m)))
                              (to_uint (data_edge s (2 * m + 1))) = -1.
Proof.
  intros Hring Hsi Hrec.
  assert (Hnone : fst (loop592 millis sweep s) = BitTimingError <-> decode_frame s = None).
  { unfold loop592. rewrite Hrec.
    destruct (decode_frame s); [|split; reflexivity].
    cbv zeta. destruct (negb _); [split; discriminate|].
    destruct (_ >? _); split; discriminate. }
  rewrite Hnone. unfold decode_frame.
  destruct (decode_frame_reads s 0 Hring Hsi) as [Hr0 _].
  rewrite decode_bits_None
    by (change (Z.of_nat (Z.to_nat DATABITSCNT)) with 56; lia).
  change (Z.of_nat (Z.to_nat DATABITSCNT)) with DATABITSCNT.
  split; intros (m & Hm & Hbad); exists m; (split; [exact Hm|]).
  - rewrite <- (proj2 (decode_frame_reads s (2 * m) Hring Hsi)).
    rewrite <- (proj2 (decode_frame_reads s (2 * m + 1) Hring Hsi)).
    rewrite Z.add_assoc. exact Hbad.
  - rewrite <- (proj2 (decode_frame_reads s (2 * m) Hring Hsi)) in Hbad.
    rewrite <- (proj2 (decode_frame_reads s (2 * m + 1) Hring Hsi)) in Hbad.
    rewrite Z.add_assoc in Hbad. exact Hbad.
Qed.

End Decode.

Section Feed.
Context {hdr : Header}.

(** ** Streams of edges *)

Lemma run_handler_app es1 es2 s :
  run_handler (es1 ++ es2) s = run_handler es2 (run_handler es1 s).
Proof. unfold run_handler. apply fold_left_app. Qed.

Lemma run_handler_slots es : forall s,
  sensorData (run_handler es s) = sensorData s.
Proof.
  unfold run_handler. induction es as [|e es IH]; intros s; cbn [fold_left].
  - reflexivity.
  - rewrite IH. apply handler_rf433_slots.
Qed.

Lemma edges_from_app : forall ds1 ds2 t pin,
  exists pin',
    edges_from t pin (ds1 ++ ds2)
    = edges_from t pin ds1 ++ edges_from (t + total ds1) pin' ds2.
Proof.
  induction ds1 as [|d ds1 IH]; intros ds2 t pin.
  - exists pin. cbn. rewrite Z.add_0_r. reflexivity.
  - destruct (IH ds2 (t + d) (1 - pin)) as [pin' Hpin'].
    exists pin'. cbn [app edges_from total foldr]. rewrite Hpin'.
    fold (total ds1). rewrite Z.add_assoc. reflexivity.
Qed.

Lemma measured_duration t d s :
  lastTime s = to_ulong t -> 0 <= d < 2 ^ 32 ->
  to_ulong (t + d - lastTime s) = d.
Proof.
  intros Hlast Hd. rewrite Hlast. unfold to_ulong.
  rewrite Zminus_mod_idemp_r.
  replace (t + d - t) with d by lia.
  apply Z.mod_small. exact Hd.
Qed.

Lemma isSync_needs_a_long_low buf idx :
  8 <= RING_BUFFER_SIZE <= 32767 -> 0 <= idx < RING_BUFFER_SIZE ->
  100 <= SYNC_HIGH <= 32667 -> 100 <= SYNC_LOW <= 32667 ->
  rd buf idx < SYNC_LOW - 100 -> isSync buf idx = false.
Proof.
  intros Hring Hidx Hh Hl Hshort.
  destruct (isSync buf idx) eqn:E; [|reflexivity].
  unfold isSync in E. change (Z.to_nat SYNCPULSEEDGES) with 8%nat in E.
  apply (isSync_from_turn 7 0) in E; try assumption; try lia.
  destruct E as [[Hlow _] _]. unfold within in Hlow.
  rewrite Z.sub_0_r, Z.mod_small in Hlow by lia. lia.
Qed.

(** One edge of frame data, taken while a frame is in capture. *)
Lemma frame_edge_step pin t d s k :
  sized_header -> timed_header ->
  length (pulseDurations s) = Z.to_nat RING_BUFFER_SIZE ->
  0 <= ringIndex s < RING_BUFFER_SIZE -> 0 <= syncIndex s < RING_BUFFER_SIZE ->
  received s = false -> syncFound s = true -> attached s = true ->
  changeCount s = k -> 0 <= k < DATABITSEDGES ->
  ringIndex s = (syncIndex s + k) mod RING_BUFFER_SIZE ->
  lastTime s = to_ulong t -> frame_edge d ->
  length (pulseDurations (handler_rf433 pin (t + d) s)) = Z.to_nat RING_BUFFER_SIZE
  /\ 0 <= ringIndex (handler_rf433 pin (t + d) s) < RING_BUFFER_SIZE
  /\ syncIndex (handler_rf433 pin (t + d) s) = syncIndex s
  /\ syncFound (handler_rf433 pin (t + d) s) = true
  /\ changeCount (handler_rf433 pin (t + d) s) = k + 1
  /\ received (handler_rf433 pin (t + d) s) = (k + 1 =? DATABITSEDGES)
  /\ attached (handler_rf433 pin (t + d) s) = negb (k + 1 =? DATABITSEDGES)
  /\ ringIndex (handler_rf433 pin (t + d) s)
     = (syncIndex s + (k + 1)) mod RING_BUFFER_SIZE
  /\ lastTime (handler_rf433 pin (t + d) s) = to_ulong (t + d)
  /\ (forall n, 0 <= n < k ->
        data_edge (handler_rf433 pin (t + d) s) n = data_edge s n)
  /\ data_edge (handler_rf433 pin (t + d) s) k = d.
Proof.
  intros (Hring & Hshort & Hlong & Hn) Ht Hlen Hidx Hsi Hrec Hfound Hatt Hcc Hk
         Hrel Hlast (Hplaus & Hd).
  destruct Ht as (Hsh & Hsl & _).
  assert (Hring' : 0 < RING_BUFFER_SIZE <= 32767)
    by (unfold DATABITSEDGES, DATABITSCNT, DATABYTESCNT in Hring; lia).
  assert (Hpos : 0 < RING_BUFFER_SIZE) by lia.
  assert (Hring8 : 8 <= RING_BUFFER_SIZE <= 32767)
    by (unfold DATABITSEDGES, DATABITSCNT, DATABYTESCNT in Hring; lia).
  destruct (handler_rf433_ring pin (t + d) s Hrec Hring' Hidx Hlen)
    as (Hri & Hrange & Hdur & Hlast' & Hbuf & Hlen').
  rewrite (measured_duration t d s Hlast) in Hdur, Hbuf
    by (change (2 ^ 32) with 4294967296; lia).
  assert (Hslot : (ringIndex s + 1) mod RING_BUFFER_SIZE
                  = (syncIndex s + 1 + k) mod RING_BUFFER_SIZE).
  { rewrite Hrel, Zplus_mod_idemp_l. f_equal. lia. }
  assert (Hnew : rd (pulseDurations (handler_rf433 pin (t + d) s))
                    (ringIndex (handler_rf433 pin (t + d) s)) = d).
  { rewrite Hbuf, Hri. apply rd_wr_eq; [lia|]. rewrite Hlen. lia. }
  assert (Hnosync : isSync (pulseDurations (handler_rf433 pin (t + d) s))
                           (ringIndex (handler_rf433 pin (t + d) s)) = false).
  { apply isSync_needs_a_long_low; try assumption. rewrite Hnew. lia. }
  destruct (handler_rf433_transitions pin (t + d) s Hrec Hshort Hlong)
    as [(Habs & _) | [(_ & [Habs | Habs] & _)
                     | (_ & _ & _ & Hsi' & _ & Hc & Hf & Hr & Ha)]].
  - rewrite Hnosync in Habs. discriminate.
  - exfalso. apply Habs. rewrite Hdur. exact Hplaus.
  - rewrite Hfound in Habs. discriminate.
  - assert (Hu : to_uint (changeCount s + 1) = k + 1).
    { rewrite Hcc. apply to_uint_small.
      unfold DATABITSEDGES, DATABITSCNT, DATABYTESCNT in Hk. lia. }
    rewrite Hu in Hc, Hf, Hr, Ha.
    split; [exact Hlen'|]. split; [exact Hrange|]. split; [exact Hsi'|].
    split; [rewrite Hf; apply Z.leb_le; lia|]. split; [exact Hc|].
    split; [exact Hr|]. split.
    { rewrite Ha, Hatt. destruct (k + 1 =? DATABITSEDGES); reflexivity. }
    split; [rewrite Hri, Hslot; f_equal; lia|]. split; [exact Hlast'|].
    pose proof (Z.mod_pos_bound (syncIndex s + 1 + k) RING_BUFFER_SIZE Hpos).
    split.
    + intros n Hn'. unfold data_edge. rewrite Hsi', Hbuf, Hslot.
      pose proof (Z.mod_pos_bound (syncIndex s + 1 + n) RING_BUFFER_SIZE Hpos).
      apply rd_wr_ne; [lia | lia |].
      intros Heq. symmetry in Heq. revert Heq.
      apply ring_slots_differ; lia.
    + unfold data_edge. rewrite Hsi', Hbuf, Hslot.
      apply rd_wr_eq; [lia|]. rewrite Hlen. lia.
Qed.

(** The data edges of a frame, fed after a sync: they are counted and kept
    in the ring, and the last of 112 makes the frame ready. *)
Lemma feed_frame_edges : forall ds t pin s k,
  sized_header -> timed_header ->
  length (pulseDurations s) = Z.to_nat RING_BUFFER_SIZE ->
  0 <= ringIndex s < RING_BUFFER_SIZE -> 0 <= syncIndex s < RING_BUFFER_SIZE ->
  received s = false -> syncFound s = true -> attached s = true ->
  changeCount s = k -> 0 <= k < DATABITSEDGES ->
  k + Z.of_nat (length ds) <= DATABITSEDGES ->
  ringIndex s = (syncIndex s + k) mod RING_BUFFER_SIZE ->
  lastTime s = to_ulong t -> Forall frame_edge ds ->
  syncIndex (run_handler (edges_from t pin ds) s) = syncIndex s
  /\ received (run_handler (edges_from t pin ds) s)
     = (k + Z.of_nat (length ds) =? DATABITSEDGES)
  /\ attached (run_handler (edges_from t pin ds) s)
     = negb (k + Z.of_nat (length ds) =? DATABITSEDGES)
  /\ (forall n, 0 <= n < k ->
        data_edge (run_handler (edges_from t pin ds) s) n = data_edge s n)
  /\ (forall n, 0 <= n < Z.of_nat (length ds) ->
        data_edge (run_handler (edges_from t pin ds) s) (k + n) = rd ds n).
Proof.
  induction ds as [|d ds IH];
    intros t pin s k Hsz Ht Hlen Hidx Hsi Hrec Hfound Hatt Hcc Hk Hmax Hrel Hlast Hall.
  - cbn [edges_from length]. unfold run_handler. cbn [fold_left].
    rewrite Z.add_0_r.
    replace (k =? DATABITSEDGES) with false by (symmetry; apply Z.eqb_neq; lia).
    rewrite Hrec, Hatt. repeat split; try reflexivity. intros n Hn. lia.
  - apply Forall_cons in Hall. destruct Hall as [Hd Hall].
    cbn [length] in Hmax.
    destruct (frame_edge_step pin t d s k Hsz Ht Hlen Hidx Hsi Hrec Hfound Hatt
                Hcc Hk Hrel Hlast Hd)
      as (Hlen1 & Hidx1 & Hsi1 & Hf1 & Hc1 & Hr1 & Ha1 & Hri1 & Hlast1 & Hold1 & Hnew1).
    cbn [edges_from]. unfold run_handler. cbn [fold_left fst snd].
    fold (run_handler (edges_from (t + d) (1 - pin) ds) (handler_rf433 pin (t + d) s)).
    destruct ds as [|d' ds'].
    + cbn [edges_from length]. unfold run_handler. cbn [fold_left].
      change (Z.of_nat 1) with 1.
      split; [exact Hsi1|]. split; [exact Hr1|]. split; [exact Ha1|].
      split; [exact Hold1|].
      intros n Hn. replace n with 0 by lia. rewrite Z.add_0_r. exact Hnew1.
    + assert (Hk1 : k + 1 < DATABITSEDGES) by (cbn [length] in Hmax; lia).
      assert (Hrec1 : received (handler_rf433 pin (t + d) s) = false).
      { rewrite Hr1. apply Z.eqb_neq. lia. }
      assert (Hatt1 : attached (handler_rf433 pin (t + d) s) = true).
      { rewrite Ha1. replace (k + 1 =? DATABITSEDGES) with false
          by (symmetry; apply Z.eqb_neq; lia). reflexivity. }
      rewrite <- Hsi1 in Hri1.
      destruct (IH (t + d) (1 - pin) (handler_rf433 pin (t + d) s) (k + 1)
                  Hsz Ht Hlen1 Hidx1 ltac:(rewrite Hsi1; exact Hsi) Hrec1 Hf1 Hatt1
                  Hc1 ltac:(lia) ltac:(lia) Hri1 Hlast1 Hall)
        as (Hsi' & Hr' & Ha' & Hold' & Hnew').
      replace (k + Z.of_nat (length (d :: d' :: ds')))
        with (k + 1 + Z.of_nat (length (d' :: ds')))
        by (cbn [length]; lia).
      split; [rewrite Hsi'; exact Hsi1|]. split; [exact Hr'|]. split; [exact Ha'|].
      split.
      * intros n Hn. rewrite Hold' by lia. apply Hold1. exact Hn.
      * intros n Hn.
        destruct (Z.eq_dec n 0) as [-> | Hne].
        -- rewrite Z.add_0_r, Hold' by lia. exact Hnew1.
        -- replace (k + n) with (k + 1 + (n - 1)) by lia.
           rewrite Hnew' by (cbn [length] in *; lia).
           replace n with (n - 1 + 1) at 2 by lia.
           symmetry. apply rd_cons. lia.
Qed.

End Feed.

Section Search.
Context {hdr : Header}.

(** One edge taken while no frame can become ready within [b] more edges. *)
Lemma search_step pin now s b :
  sized_header ->
  received s = false -> attached s = true -> 0 <= b < DATABITSEDGES ->
  (syncFound s = true -> 0 <= changeCount s /\ changeCount s + 1 + b < DATABITSEDGES) ->
  received (handler_rf433 pin now s) = false
  /\ attached (handler_rf433 pin now s) = true
  /\ (syncFound (handler_rf433 pin now s) = true ->
      0 <= changeCount (handler_rf433 pin now s)
      /\ changeCount (handler_rf433 pin now s) + b < DATABITSEDGES)
  /\ (isSync (pulseDurations (handler_rf433 pin now s))
             (ringIndex (handler_rf433 pin now s)) = true ->
      syncFound (handler_rf433 pin now s) = true
      /\ changeCount (handler_rf433 pin now s) = 0
      /\ syncIndex (handler_rf433 pin now s) = ringIndex (handler_rf433 pin now s)).
Proof.
  intros (_ & Hshort & Hlong & _) Hrec Hatt Hb Hq.
  destruct (handler_rf433_transitions pin now s Hrec Hshort Hlong)
    as [(Hs & Hf & Hc & Hsi & _ & Hr & Ha)
       | [(Hs & _ & Hf & Hr & Ha)
         | (Hs & _ & Hfound & _ & _ & Hc & Hf & Hr & Ha)]].
  - rewrite Hr, Ha, Hc. split; [reflexivity|]. split; [exact Hatt|].
    split; [intros _; lia|]. intros _. repeat split; assumption.
  - rewrite Hr, Ha, Hf, Hs. split; [reflexivity|]. split; [exact Hatt|].
    split; discriminate.
  - destruct (Hq Hfound) as [Hc0 Hcb].
    assert (Hu : to_uint (changeCount s + 1) = changeCount s + 1).
    { apply to_uint_small.
      unfold DATABITSEDGES, DATABITSCNT, DATABYTESCNT in Hcb. lia. }
    rewrite Hu in Hc, Hr, Ha.
    assert (Hne : (changeCount s + 1 =? DATABITSEDGES) = false)
      by (apply Z.eqb_neq; lia).
    rewrite Hne in Hr, Ha.
    rewrite Hr, Ha, Hc, Hs. split; [reflexivity|]. split; [exact Hatt|].
    split; [intros _; lia | discriminate].
Qed.

(** A stream of edges too short to complete a frame: they end up in the
    ring, newest first, and a sync train found at the last one is
    recorded. *)
Lemma feed_edges : forall ds t pin s s',
  sized_header ->
  length (pulseDurations s) = Z.to_nat RING_BUFFER_SIZE ->
  0 <= ringIndex s < RING_BUFFER_SIZE ->
  received s = false -> attached s = true ->
  (syncFound s = true ->
   0 <= changeCount s /\ changeCount s + Z.of_nat (length ds) < DATABITSEDGES) ->
  Z.of_nat (length ds) < DATABITSEDGES ->
  lastTime s = to_ulong t -> Forall (fun d => 0 <= d < 2 ^ 32) ds ->
  s' = run_handler (edges_from t pin ds) s ->
  length (pulseDurations s') = Z.to_nat RING_BUFFER_SIZE
  /\ 0 <= ringIndex s' < RING_BUFFER_SIZE
  /\ received s' = false /\ attached s' = true
  /\ lastTime s' = to_ulong (t + total ds)
  /\ sensorData s' = sensorData s
  /\ (forall j, 0 <= j -> Z.of_nat (length ds) + j < RING_BUFFER_SIZE ->
        recent s' (Z.of_nat (length ds) + j) = recent s j)
  /\ (forall n, 0 <= n < Z.of_nat (length ds) ->
        recent s' (Z.of_nat (length ds) - 1 - n) = rd ds n)
  /\ (ds <> [] ->
      isSync (pulseDurations s') (ringIndex s') = true ->
      syncFound s' = true /\ changeCount s' = 0 /\ syncIndex s' = ringIndex s').
Proof.
  induction ds as [|d ds IH];
    intros t pin s s' Hsz Hlen Hidx Hrec Hatt Hq Hshort Hlast Hall ->.
  - cbn [edges_from length total foldr]. unfold run_handler. cbn [fold_left].
    rewrite Z.add_0_r.
    split; [exact Hlen|]. split; [exact Hidx|]. split; [exact Hrec|].
    split; [exact Hatt|]. split; [exact Hlast|]. split; [reflexivity|].
    split; [intros j _ _; reflexivity|].
    split; [intros n Hn; lia|].
    intros Habs. exfalso. apply Habs. reflexivity.
  - apply Forall_cons in Hall. destruct Hall as [Hd Hall].
    cbn [length] in Hq, Hshort.
    pose proof Hsz as (Hring & _).
    assert (Hring' : 0 < RING_BUFFER_SIZE <= 32767)
      by (unfold DATABITSEDGES, DATABITSCNT, DATABYTESCNT in Hring; lia).
    destruct (handler_rf433_ring pin (t + d) s Hrec Hring' Hidx Hlen)
      as (_ & Hidx1 & _ & Hlast1 & _ & Hlen1).
    destruct (recent_after_edge pin (t + d) s Hrec Hring' Hidx Hlen)
      as (Hnew1 & Hold1).
    rewrite (measured_duration t d s Hlast Hd) in Hnew1.
    destruct (search_step pin (t + d) s (Z.of_nat (length ds)) Hsz Hrec Hatt
                ltac:(lia) ltac:(intros Hf; destruct (Hq Hf); lia))
      as (Hrec1 & Hatt1 & Hq1 & Hsync1).
    cbn [edges_from]. unfold run_handler. cbn [fold_left fst snd].
    fold (run_handler (edges_from (t + d) (1 - pin) ds) (handler_rf433 pin (t + d) s)).
    destruct (IH (t + d) (1 - pin) (handler_rf433 pin (t + d) s) _
                Hsz Hlen1 Hidx1 Hrec1 Hatt1 Hq1 ltac:(lia) Hlast1 Hall eq_refl)
      as (Hlen' & Hidx' & Hrec' & Hatt' & Hlast' & Hsd' & Hshift' & Hfed' & Hsync').
    split; [exact Hlen'|]. split; [exact Hidx'|]. split; [exact Hrec'|].
    split; [exact Hatt'|]. split.
    { rewrite Hlast'. cbn [total foldr]. fold (total ds). f_equal. lia. }
    split; [rewrite Hsd'; apply handler_rf433_slots|].
    unfold DATABITSEDGES, DATABITSCNT, DATABYTESCNT in Hring, Hshort.
    split; [|split].
    + intros j Hj Hjr. cbn [length] in *.
      replace (Z.of_nat (S (length ds)) + j)
        with (Z.of_nat (length ds) + (j + 1)) by lia.
      rewrite Hshift' by lia. rewrite Hold1 by lia. f_equal. lia.
    + intros n Hn. cbn [length] in *.
      destruct (Z.eq_dec n 0) as [-> | Hne].
      * replace (Z.of_nat (S (length ds)) - 1 - 0)
          with (Z.of_nat (length ds) + 0) by lia.
        rewrite Hshift' by lia. exact Hnew1.
      * replace (Z.of_nat (S (length ds)) - 1 - n)
          with (Z.of_nat (length ds) - 1 - (n - 1)) by lia.
        rewrite Hfed' by lia.
        replace n with (n - 1 + 1) at 2 by lia.
        symmetry. apply rd_cons. lia.
    + intros _. destruct ds as [|d' ds'].
      * cbn [edges_from]. unfold run_handler. cbn [fold_left]. exact Hsync1.
      * apply Hsync'. discriminate.
Qed.

End Search.

Section EndToEnd.
Context {hdr : Header}.

(** ** From edges to a reading *)

Lemma bit_durations_frame_edge bit :
  sized_header -> timed_header -> Forall frame_edge (bit_durations bit).
Proof.
  intros _ (_ & _ & H1h & H1l & H0h & H0l & _ & P1h & P1l & P0h & P0l
            & S1h & S1l & S0h & S0l).
  unfold frame_edge.
  destruct bit; cbn [bit_durations];
    (apply Forall_cons; split; [split; [assumption | lia]|]);
    (apply Forall_cons; split; [split; [assumption | lia] | constructor]).
Qed.

Lemma encode_frame_edges bytes :
  sized_header -> timed_header ->
  Forall frame_edge (encode_frame bytes)
  /\ length (encode_frame bytes) = (16 * length bytes)%nat.
Proof.
  intros Hsz Ht. unfold encode_frame.
  assert (H : forall bits,
             Forall frame_edge (flat_map bit_durations bits)
             /\ length (flat_map bit_durations bits) = (2 * length bits)%nat).
  { induction bits as [|bit bits [IH1 IH2]]; [split; [constructor | reflexivity]|].
    cbn [flat_map]. split.
    - apply Forall_app. split; [apply bit_durations_frame_edge; assumption | exact IH1].
    - rewrite length_app, IH2. destruct bit; cbn [bit_durations length]; lia. }
  destruct (H (frame_bits bytes)) as [H1 H2].
  split; [exact H1|]. rewrite H2, length_frame_bits. lia.
Qed.

(** Eight edges that alternate between the two sync windows, taken while the
    handler is searching, end with the sync found at the last of them. *)
Lemma feed_sync_train sync t pin s s' :
  sized_header -> timed_header ->
  length (pulseDurations s) = Z.to_nat RING_BUFFER_SIZE ->
  0 <= ringIndex s < RING_BUFFER_SIZE ->
  received s = false -> attached s = true -> syncFound s = false ->
  lastTime s = to_ulong t ->
  length sync = 8%nat ->
  (forall n, 0 <= n < 8 ->
     within (if Z.even n then SYNC_HIGH else SYNC_LOW) (rd sync n)) ->
  s' = run_handler (edges_from t pin sync) s ->
  length (pulseDurations s') = Z.to_nat RING_BUFFER_SIZE
  /\ 0 <= ringIndex s' < RING_BUFFER_SIZE
  /\ received s' = false /\ attached s' = true
  /\ lastTime s' = to_ulong (t + total sync)
  /\ sensorData s' = sensorData s
  /\ syncFound s' = true /\ changeCount s' = 0 /\ syncIndex s' = ringIndex s'.
Proof.
  intros Hsz Ht Hlen Hidx Hrec Hatt Hsearch Hlast Hlen8 Hwin Hs'.
  pose proof Hsz as (Hring & _). pose proof Ht as (Hsh & Hsl & _).
  unfold DATABITSEDGES, DATABITSCNT, DATABYTESCNT in Hring.
  assert (Hall : Forall (fun d => 0 <= d < 2 ^ 32) sync).
  { apply Forall_lookup. intros i x Hx.
    assert (Hi : (i < 8)%nat) by (rewrite <- Hlen8; eapply lookup_lt_Some; exact Hx).
    pose proof (Hwin (Z.of_nat i) ltac:(lia)) as Hw.
    unfold rd in Hw. rewrite Nat2Z.id, Hx in Hw.
    change (default 0 (Some x)) with x in Hw.
    unfold within in Hw. change (2 ^ 32) with 4294967296. cbv beta.
    destruct (Z.even (Z.of_nat i)); lia. }
  destruct (feed_edges sync t pin s s' Hsz Hlen Hidx Hrec Hatt
              ltac:(rewrite Hsearch; discriminate)
              ltac:(rewrite Hlen8; unfold DATABITSEDGES, DATABITSCNT, DATABYTESCNT; lia)
              Hlast Hall Hs')
    as (Hlen' & Hidx' & Hrec' & Hatt' & Hlast' & Hsd' & _ & Hfed & Hsync).
  split; [exact Hlen'|]. split; [exact Hidx'|]. split; [exact Hrec'|].
  split; [exact Hatt'|]. split; [exact Hlast'|]. split; [exact Hsd'|].
  apply Hsync; [intros ->; discriminate|].
  apply isSync_windows; try assumption; try lia.
  rewrite Hlen8 in Hfed. change (Z.of_nat 8) with 8 in Hfed.
  intros k Hk.
  assert (Hcases : k = 0 \/ k = 1 \/ k = 2 \/ k = 3) by lia.
  fold (recent s' (2 * k)).
  replace (ringIndex s' - 2 * k - 1) with (ringIndex s' - (2 * k + 1)) by lia.
  fold (recent s' (2 * k + 1)).
  split.
  - replace (2 * k) with (8 - 1 - (7 - 2 * k)) by lia.
    rewrite Hfed by lia.
    destruct Hcases as [-> | [-> | [-> | ->]]];
      [exact (Hwin 7 ltac:(lia)) | exact (Hwin 5 ltac:(lia))
      | exact (Hwin 3 ltac:(lia)) | exact (Hwin 1 ltac:(lia))].
  - replace (2 * k + 1) with (8 - 1 - (6 - 2 * k)) by lia.
    rewrite Hfed by lia.
    destruct Hcases as [-> | [-> | [-> | ->]]];
      [exact (Hwin 6 ltac:(lia)) | exact (Hwin 4 ltac:(lia))
      | exact (Hwin 2 ltac:(lia)) | exact (Hwin 0 ltac:(lia))].
Qed.

Lemma capture_of_frame sync bytes t pin s :
  sized_header -> timed_header ->
  capture_inv s -> received s = false -> syncFound s = false ->
  lastTime s = to_ulong t ->
  length sync = 8%nat ->
  (forall n, 0 <= n < 8 ->
     within (if Z.even n then SYNC_HIGH else SYNC_LOW) (rd sync n)) ->
  length bytes = Z.to_nat DATABYTESCNT -> Forall is_byte bytes ->
  received (run_handler (edges_from t pin (sync ++ encode_frame bytes)) s) = true
  /\ attached (run_handler (edges_from t pin (sync ++ encode_frame bytes)) s) = false
  /\ decode_frame (run_handler (edges_from t pin (sync ++ encode_frame bytes)) s)
     = Some bytes
  /\ sensorData (run_handler (edges_from t pin (sync ++ encode_frame bytes)) s)
     = sensorData s.
Proof.
  intros Hsz Ht Hinv Hrec Hsearch Hlast Hlen8 Hwin Hlen7 Hbytes.
  destruct Hinv as (Hlen & Hidx & Hatt & _).
  rewrite Hrec in Hatt. cbn [negb] in Hatt.
  destruct (edges_from_app sync (encode_frame bytes) t pin) as [pin' ->].
  rewrite run_handler_app.
  set (s8 := run_handler (edges_from t pin sync) s).
  destruct (feed_sync_train sync t pin s s8 Hsz Ht Hlen Hidx Hrec Hatt Hsearch
              Hlast Hlen8 Hwin eq_refl)
    as (Hlen' & Hidx' & Hrec' & Hatt' & Hlast' & Hsd' & Hf' & Hc' & Hsi').
  destruct (encode_frame_edges bytes Hsz Ht) as [Hedges Hlen112].
  rewrite Hlen7 in Hlen112. change (16 * Z.to_nat DATABYTESCNT)%nat with 112%nat in Hlen112.
  pose proof Hsz as (Hring & _).
  assert (Hring' : 0 < RING_BUFFER_SIZE <= 32767)
    by (unfold DATABITSEDGES, DATABITSCNT, DATABYTESCNT in Hring; lia).
  destruct (feed_frame_edges (encode_frame bytes) (t + total sync) pin' s8 0
              Hsz Ht Hlen' Hidx' ltac:(rewrite Hsi'; exact Hidx') Hrec' Hf' Hatt'
              Hc' ltac:(unfold DATABITSEDGES, DATABITSCNT, DATABYTESCNT; lia)
              ltac:(rewrite Hlen112; unfold DATABITSEDGES, DATABITSCNT, DATABYTESCNT; lia)
              ltac:(rewrite Hsi', Z.add_0_r, Z.mod_small by lia; reflexivity)
              Hlast' Hedges)
    as (Hsi'' & Hr'' & Ha'' & _ & Hdata).
  rewrite Hlen112 in Hr'', Ha'', Hdata.
  split; [rewrite Hr''; reflexivity|]. split; [rewrite Ha''; reflexivity|].
  split.
  - apply (decode_frame_encoded _ bytes Ht Hring'); [| exact Hlen7 | exact Hbytes |].
    + rewrite Hsi'', Hsi'. exact Hidx'.
    + intros n Hn. apply (Hdata n).
      unfold DATABITSEDGES, DATABITSCNT, DATABYTESCNT in Hn. lia.
  - rewrite run_handler_slots. exact Hsd'.
Qed.

End EndToEnd.

Section Readings.
Context {hdr : Header}.

(** ** What a reading holds after a merge *)

Lemma merged_slot_lookup millis sweep s b k :
  _numSensors < 255 -> validated s b ->
  length (sensorData s) = length probeIdArray ->
  fst (loop592 millis sweep s) = Merged k ->
  exists old,
    sensorData s !! Z.to_nat k = Some old
    /\ sensorData (snd (loop592 millis sweep s)) !! Z.to_nat k
       = Some (age_slot (to_ulong sweep / 1000)
                        (merge_slot k (overlay b) millis old)).
Proof.
  intros Hn Hv Hlen Hout.
  destruct (loop592_merged millis sweep s b k Hn Hv Hlen Hout)
    as (n & old & -> & _ & _ & Hold & Hnew & _).
  rewrite Nat2Z.id. exists old. split; assumption.
Qed.

Lemma sweep_at_merge millis sweep id d old :
  0 <= SENSOR_STALE_DATA_TIMEOUT ->
  to_ulong millis / 1000 + SENSOR_STALE_DATA_TIMEOUT < 2 ^ 32 ->
  age_slot (to_ulong sweep / 1000) (merge_slot id d millis old)
  = if to_ulong millis / 1000 + SENSOR_STALE_DATA_TIMEOUT <? to_ulong sweep / 1000
    then {| Sensor.id := Sensor.id (merge_slot id d millis old);
            Sensor.status :=
              to_uint8 (Z.land (Sensor.status (merge_slot id d millis old))
                               (Z.lnot SENSOR_DATA_FRESH_MASK));
            Sensor.temperature := Sensor.temperature (merge_slot id d millis old);
            Sensor.timestamp := Sensor.timestamp (merge_slot id d millis old) |}
    else merge_slot id d millis old.
Proof.
  intros Ht Hmax. unfold age_slot at 1.
  change (Sensor.timestamp (merge_slot id d millis old))
    with (to_ulong millis / 1000) at 1.
  assert (Hnow : 0 <= to_ulong millis / 1000).
  { apply Z.div_pos; [|lia]. unfold to_ulong. apply Z.mod_pos_bound. reflexivity. }
  rewrite to_ulong_small by (change 4294967296 with (2 ^ 32); lia).
  reflexivity.
Qed.

Lemma nonzero_byte_has_a_bit v :
  0 < v < 256 -> exists n, 0 <= n < 8 /\ Z.testbit v n = true.
Proof.
  intros Hv. exists (Z.log2 v). split.
  - split; [apply Z.log2_nonneg|]. apply Z.log2_lt_pow2; lia.
  - apply Z.bit_log2. lia.
Qed.

Lemma merge_slot_fresh id d millis old :
  0 < Z.land SENSOR_DATA_FRESH_VAL SENSOR_DATA_FRESH_MASK < 256 ->
  fresh (merge_slot id d millis old) = true.
Proof.
  intros Hbits.
  unfold fresh. cbn [merge_slot Sensor.status].
  destruct (nonzero_byte_has_a_bit _ Hbits) as (n & Hn8 & Hbit).
  apply negb_true_iff, Z.eqb_neq. intros Hzero.
  apply (f_equal (fun x => Z.testbit x n)) in Hzero.
  rewrite Z.land_spec, to_uint8_bits, Z.lor_spec, Hbit, Z.bits_0 in Hzero by lia.
  rewrite Z.land_spec in Hbit. apply andb_true_iff in Hbit. destruct Hbit as [_ Hmask].
  rewrite Hmask, orb_true_r in Hzero.
  replace (n <? 8) with true in Hzero by (symmetry; apply Z.ltb_lt; lia).
  discriminate.
Qed.

(** X12: the two clock reads of a pass.  A frame that is accepted leaves its
    slot stamped with the second of the first read, and the slot is fresh
    after the pass exactly when the second read by the sweep is not beyond
    the stamp plus the timeout.  With a timeout of 0 the slot stays fresh
    only if both reads fall in the same second.  This holds whatever the
    slot held before, provided the timeout is not negative, the stamp plus
    the timeout fits an [unsigned long], and the fresh value has a bit of
    the fresh mask in the low byte. *)
Theorem accepted_frame_is_fresh (millis sweep : Z) (s : State) (b : list Z) (k : Z) :
  _numSensors < 255 -> validated s b ->
  length (sensorData s) = length probeIdArray ->
  fst (loop592 millis sweep s) = Merged k ->
  0 <= SENSOR_STALE_DATA_TIMEOUT ->
  to_ulong millis / 1000 + SENSOR_STALE_DATA_TIMEOUT < 2 ^ 32 ->
  0 < Z.land SENSOR_DATA_FRESH_VAL SENSOR_DATA_FRESH_MASK < 256 ->
  exists d,
    sensorData (snd (loop592 millis sweep s)) !! Z.to_nat k = Some d
    /\ Sensor.timestamp d = to_ulong millis / 1000
    /\ (fresh d = true
        <-> to_ulong sweep / 1000
            <= to_ulong millis / 1000 + SENSOR_STALE_DATA_TIMEOUT).
Proof.
  intros Hn Hv Hlen Hout Ht Hmax Hbits.
  destruct (merged_slot_lookup millis sweep s b k Hn Hv Hlen Hout) as (old & _ & Hnew).
  rewrite sweep_at_merge in Hnew by assumption.
  eexists. split; [exact Hnew|].
  destruct (_ <? _) eqn:E.
  - apply Z.ltb_lt in E. split; [reflexivity|].
    unfold fresh at 1. cbn [Sensor.status].
    rewrite cleared_status_not_fresh. cbn [Z.eqb negb].
    split; [discriminate | lia].
  - apply Z.ltb_ge in E. split; [reflexivity|].
    rewrite merge_slot_fresh by exact Hbits.
    split; [intros _; exact E | reflexivity].
Qed.

(** X13: after a frame is accepted, the battery bit of its slot says what
    byte 2 of this frame says, whatever the slot held before: it is set when
    byte 2 under the battery mask is the low value and clear otherwise,
    provided the battery bit is in the low byte and apart from the fresh
    mask. *)
Theorem battery_bit_follows_byte_2 (millis sweep : Z) (s : State) (b : list Z) (k : Z) :
  _numSensors < 255 -> validated s b ->
  length (sensorData s) = length probeIdArray ->
  fst (loop592 millis sweep s) = Merged k ->
  is_byte SENSOR_BATTERY_LOW ->
  Z.land SENSOR_BATTERY_LOW SENSOR_DATA_FRESH_MASK = 0 ->
  exists d,
    sensorData (snd (loop592 millis sweep s)) !! Z.to_nat k = Some d
    /\ Z.land (Sensor.status d) SENSOR_BATTERY_LOW
       = if Z.land (rd b 2) SENSOR_BATTERY_LOW_MASK =? SENSOR_BATTERY_LOW_VAL
         then SENSOR_BATTERY_LOW else 0.
Proof.
  intros Hn Hv Hlen Hout Hlow Hapart.
  destruct (merged_slot_lookup millis sweep s b k Hn Hv Hlen Hout) as (old & _ & Hnew).
  eexists. split; [exact Hnew|].
  assert (Hhigh : forall n, 8 <= n -> Z.testbit SENSOR_BATTERY_LOW n = false).
  { intros n Hn8. unfold is_byte in Hlow.
    rewrite <- (Z.mod_small SENSOR_BATTERY_LOW (2 ^ 8)) by (change (2 ^ 8) with 256; lia).
    apply Z.mod_pow2_bits_high. lia. }
  assert (Hdisj : forall n, 0 <= n -> Z.testbit SENSOR_BATTERY_LOW n = true ->
                            Z.testbit SENSOR_DATA_FRESH_MASK n = false).
  { intros n Hn0 Hbit.
    apply (f_equal (fun x => Z.testbit x n)) in Hapart.
    rewrite Z.land_spec, Hbit, Z.bits_0 in Hapart. exact Hapart. }
  apply Z.bits_inj'. intros n Hn0.
  specialize (Hhigh n). specialize (Hdisj n Hn0).
  unfold age_slot, merge_slot. cbn [Sensor.timestamp Sensor.status overlay Raw.status].
  destruct (_ <? _); cbn [Sensor.status];
    destruct (Z.land (rd b 2) SENSOR_BATTERY_LOW_MASK =? SENSOR_BATTERY_LOW_VAL);
    rewrite ?Z.bits_0;
    repeat (rewrite ?Z.land_spec, ?Z.lor_spec, ?Z.lnot_spec, ?to_uint8_bits by lia);
    destruct (n <? 8) eqn:E8;
    try (apply Z.ltb_ge in E8; rewrite (Hhigh E8));
    destruct (Z.testbit SENSOR_BATTERY_LOW n) eqn:EL;
    try rewrite (Hdisj eq_refl);
    destruct (Z.testbit (Sensor.status old) n),
             (Z.testbit SENSOR_DATA_FRESH_VAL n);
    try destruct (Z.testbit SENSOR_DATA_FRESH_MASK n);
    reflexivity.
Qed.

(** ** Known and unknown keys *)

(** X14: a validated frame takes the unknown sensor exit iff its key is not
    in the table, and is merged iff it is; no frame adds a key. *)
Theorem unknown_key_iff_not_in_table (millis sweep : Z) (s : State) (b : list Z) :
  _numSensors < 255 -> validated s b ->
  (fst (loop592 millis sweep s) = SensorIdError <-> hexID (overlay b) ∉ probeIdArray)
  /\ ((exists k, fst (loop592 millis sweep s) = Merged k)
      <-> hexID (overlay b) ∈ probeIdArray).
Proof.
  intros Hn Hv.
  destruct (decide (hexID (overlay b) ∈ probeIdArray)) as [Hin | Hnot].
  - destruct (loop592_known millis sweep s b Hn Hv Hin) as (k & _ & _ & _ & Hfst & _).
    rewrite Hfst. split.
    + split; [discriminate | intros Hnot; contradiction].
    + split; [intros _; exact Hin | intros _; exists (Z.of_nat k); reflexivity].
  - rewrite (loop592_unknown millis sweep s b Hn Hv Hnot). cbn [fst]. split.
    + split; [intros _; exact Hnot | reflexivity].
    + split; [intros [k Hk]; discriminate | intros Hin; contradiction].
Qed.

(** X15: with 255 table entries the preset [_numSensors + 1] does not fit the
    [uint8_t] it is kept in and reads as 0: a validated frame whose key is
    in no entry is then merged into slot 0 instead of being rejected. *)
Theorem table_of_255_defeats_the_unknown_check (millis sweep : Z) (s : State) (b : list Z) :
  _numSensors = 255 -> validated s b -> hexID (overlay b) ∉ probeIdArray ->
  fst (loop592 millis sweep s) = Merged 0.
Proof.
  intros Hn Hv Hnot.
  rewrite (loop592_validated millis sweep s b Hv).
  assert (Hfind : find_sensor (hexID (overlay b)) = 0).
  { unfold find_sensor. rewrite Hn.
    destruct (find_sensor_from_spec probeIdArray 0 (hexID (overlay b))
                (to_uint8 (255 + 1)))
      as [[_ Hres] | (k & Hk & _)].
    - lia.
    - unfold _numSensors in Hn. lia.
    - rewrite Hres. reflexivity.
    - exfalso. apply Hnot. apply list_elem_of_lookup. exists k. exact Hk. }
  rewrite Hfind, Hn. reflexivity.
Qed.

(** ** What the poll routine leaves alone *)

(** X16: a pass of the poll routine never changes the ring buffer, the sync
    and data indices, the edge counter or the handler's statics, and it
    always ends with no frame pending; when none was pending it changes
    nothing at all but the slots, which are swept. *)
Theorem loop592_leaves_capture_alone (millis sweep : Z) (s : State) :
  pulseDurations (snd (loop592 millis sweep s)) = pulseDurations s
  /\ syncIndex (snd (loop592 millis sweep s)) = syncIndex s
  /\ dataIndex (snd (loop592 millis sweep s)) = dataIndex s
  /\ changeCount (snd (loop592 millis sweep s)) = changeCount s
  /\ ringIndex (snd (loop592 millis sweep s)) = ringIndex s
  /\ lastTime (snd (loop592 millis sweep s)) = lastTime s
  /\ received (snd (loop592 millis sweep s)) = false
  /\ (received s = false ->
      fst (loop592 millis sweep s) = NoFrame
      /\ syncFound (snd (loop592 millis sweep s)) = syncFound s
      /\ attached (snd (loop592 millis sweep s)) = attached s
      /\ CRC (snd (loop592 millis sweep s)) = CRC s
      /\ Serial (snd (loop592 millis sweep s)) = Serial s
      /\ sensorData (snd (loop592 millis sweep s)) = ageStaleData sweep (sensorData s)).
Proof.
  destruct (loop592_capture millis sweep s)
    as (H1 & H2 & H3 & H4 & H5 & _ & H7 & _ & H9 & _ & H11).
  repeat (split; [assumption|]).
  intros Hrec. destruct (H11 Hrec) as [Hf Ha].
  unfold loop592 in *. rewrite Hrec in *.
  repeat split; assumption || reflexivity.
Qed.

(** ** The temperature a merge stores *)

Lemma merged_temperature millis sweep s b k :
  _numSensors < 255 -> validated s b ->
  length (sensorData s) = length probeIdArray ->
  fst (loop592 millis sweep s) = Merged k ->
  exists d,
    sensorData (snd (loop592 millis sweep s)) !! Z.to_nat k = Some d
    /\ Sensor.temperature d
       = temperature_field
           (biased_temperature
              (Z.lor (Z.shiftl (Z.land (rd b 4) 0x7F) 7) (Z.land (rd b 5) 0x7F)))
    /\ 0 <= Z.lor (Z.shiftl (Z.land (rd b 4) 0x7F) 7) (Z.land (rd b 5) 0x7F)
       < 16384.
Proof.
  intros Hn Hv Hlen Hout.
  destruct (merged_slot_lookup millis sweep s b k Hn Hv Hlen Hout) as (old & _ & Hnew).
  eexists. split; [exact Hnew|].
  destruct (age_slot_keeps_fields (to_ulong sweep / 1000)
              (merge_slot k (overlay b) millis old)) as (_ & Htemp & _).
  rewrite Htemp. cbn [merge_slot Sensor.temperature].
  destruct (raw_temperature_spec (overlay b)) as [Hraw Hrange].
  rewrite Hraw in Hrange |- *.
  split; [reflexivity | exact Hrange].
Qed.

(** X20: the temperature stored at or above the bias.  For an accepted
    frame whose bytes 4 and 5 hold a 14-bit value of at least 1024, the
    slot's temperature is that value minus 1024, between 0 and 15359, handed
    to the field; the width of [int] on the target plays no part. *)
Theorem temperature_at_or_above_the_bias (millis sweep : Z) (s : State)
    (b : list Z) (k : Z) :
  _numSensors < 255 -> validated s b ->
  length (sensorData s) = length probeIdArray ->
  fst (loop592 millis sweep s) = Merged k ->
  1024 <= Z.lor (Z.shiftl (Z.land (rd b 4) 0x7F) 7) (Z.land (rd b 5) 0x7F) ->
  exists d,
    sensorData (snd (loop592 millis sweep s)) !! Z.to_nat k = Some d
    /\ Sensor.temperature d
       = temperature_field
           (Z.lor (Z.shiftl (Z.land (rd b 4) 0x7F) 7) (Z.land (rd b 5) 0x7F) - 1024)
    /\ 0 <= Z.lor (Z.shiftl (Z.land (rd b 4) 0x7F) 7) (Z.land (rd b 5) 0x7F) - 1024
       < 15360.
Proof.
  intros Hn Hv Hlen Hout Hraw.
  destruct (merged_temperature millis sweep s b k Hn Hv Hlen Hout)
    as (d & Hd & Htemp & Hrange).
  exists d. split; [exact Hd|].
  rewrite Htemp, biased_temperature_above by lia.
  split; [reflexivity | lia].
Qed.

(** X21: the temperature stored below the bias depends on the target.  For
    an accepted frame whose bytes 4 and 5 hold a value below 1024: where
    [int] has 16 bits the difference wraps and the value plus 64512 is
    handed to the field; where [int] is wider, the value 1023 stores 0, and
    a smaller value stores what the target makes of a negative double. *)
Theorem temperature_below_the_bias (millis sweep : Z) (s : State)
    (b : list Z) (k : Z) :
  _numSensors < 255 -> validated s b ->
  length (sensorData s) = length probeIdArray ->
  fst (loop592 millis sweep s) = Merged k ->
  Z.lor (Z.shiftl (Z.land (rd b 4) 0x7F) 7) (Z.land (rd b 5) 0x7F) < 1024 ->
  exists d,
    sensorData (snd (loop592 millis sweep s)) !! Z.to_nat k = Some d
    /\ (int_bits <= 16 ->
        Sensor.temperature d
        = temperature_field
            (Z.lor (Z.shiftl (Z.land (rd b 4) 0x7F) 7) (Z.land (rd b 5) 0x7F)
             + 64512))
    /\ (16 < int_bits ->
        Z.lor (Z.shiftl (Z.land (rd b 4) 0x7F) 7) (Z.land (rd b 5) 0x7F) = 1023 ->
        Sensor.temperature d = temperature_field 0)
    /\ (16 < int_bits ->
        Z.lor (Z.shiftl (Z.land (rd b 4) 0x7F) 7) (Z.land (rd b 5) 0x7F) < 1023 ->
        Sensor.temperature d
        = temperature_field
            (to_uint16
               (out_of_range_uint16
                  (Z.lor (Z.shiftl (Z.land (rd b 4) 0x7F) 7)
                         (Z.land (rd b 5) 0x7F) - 1023)))).
Proof.
  intros Hn Hv Hlen Hout Hraw.
  destruct (merged_temperature millis sweep s b k Hn Hv Hlen Hout)
    as (d & Hd & Htemp & Hrange).
  exists d. split; [exact Hd|].
  rewrite Htemp. split; [|split].
  - intros Hw. rewrite biased_temperature_below_16 by lia. reflexivity.
  - intros Hw H1023. rewrite biased_temperature_below_wide by lia.
    rewrite H1023. reflexivity.
  - intros Hw Hless. rewrite biased_temperature_below_wide by lia.
    replace (_ =? 1023) with false by (symmetry; apply Z.eqb_neq; lia).
    reflexivity.
Qed.

End Readings.

Section Sweep.
Context {hdr : Header}.

(** ** The threshold of the sweep *)

(** X17: the sweep clears the fresh flag of a slot exactly when the clock, in
    seconds, is past the slot's timestamp plus the timeout; at that second
    itself the slot is left as it is.  A sweep never makes a slot fresh. *)
Theorem ageStaleData_threshold (millis : Z) (sd : list sensorTemperatureData)
    (i : nat) (d : sensorTemperatureData) :
  sd !! i = Some d ->
  0 <= Sensor.timestamp d -> 0 <= SENSOR_STALE_DATA_TIMEOUT ->
  Sensor.timestamp d + SENSOR_STALE_DATA_TIMEOUT < 2 ^ 32 ->
  0 <= millis < 2 ^ 32 ->
  exists d',
    ageStaleData millis sd !! i = Some d'
    /\ (millis / 1000 <= Sensor.timestamp d + SENSOR_STALE_DATA_TIMEOUT -> d' = d)
    /\ (Sensor.timestamp d + SENSOR_STALE_DATA_TIMEOUT < millis / 1000 ->
        fresh d' = false)
    /\ (fresh d' = true -> fresh d = true).
Proof.
  intros Hi Ht Hs Hmax Hm.
  rewrite ageStaleData_lookup, Hi. cbn [fmap option_fmap option_map].
  eexists. split; [reflexivity|].
  rewrite (to_ulong_small millis) by (change 4294967296 with (2 ^ 32); exact Hm).
  unfold age_slot.
  rewrite to_ulong_small by (change 4294967296 with (2 ^ 32); lia).
  destruct (_ <? _) eqn:E; [apply Z.ltb_lt in E | apply Z.ltb_ge in E].
  - split; [intros Hle; lia|].
    assert (Hclear : fresh {| Sensor.id := Sensor.id d;
                              Sensor.status :=
                                to_uint8 (Z.land (Sensor.status d)
                                            (Z.lnot SENSOR_DATA_FRESH_MASK));
                              Sensor.temperature := Sensor.temperature d;
                              Sensor.timestamp := Sensor.timestamp d |} = false).
    { unfold fresh. cbn [Sensor.status]. rewrite cleared_status_not_fresh. reflexivity. }
    split; [intros _; exact Hclear|].
    intros Habs. rewrite Hclear in Habs. discriminate.
  - split; [reflexivity|]. split; [intros Hlt; lia | trivial].
Qed.

End Sweep.

(** ** PrintHex8 *)

Lemma hex_digit_test c :
  (((48 <=? c) && (c <=? 57)) || ((97 <=? c) && (c <=? 102))) = true ->
  is_hex_digit c.
Proof.
  unfold is_hex_digit.
  rewrite orb_true_iff, !andb_true_iff, !Z.leb_le. tauto.
Qed.

Lemma hex_chars_of_byte x :
  is_byte x ->
  exists c1 c2,
    hex_chars x = [c1; c2]
    /\ is_hex_digit c1 /\ is_hex_digit c2
    /\ hex_value c1 = x / 16 /\ hex_value c2 = x mod 16.
Proof.
  intros Hx.
  assert (Hdec : forallb
                   (fun x =>
                      match hex_chars x with
                      | [c1; c2] =>
                        (((48 <=? c1) && (c1 <=? 57)) || ((97 <=? c1) && (c1 <=? 102)))
                        && (((48 <=? c2) && (c2 <=? 57)) || ((97 <=? c2) && (c2 <=? 102)))
                        && (hex_value c1 =? x / 16) && (hex_value c2 =? x mod 16)
                      | _ => false
                      end) (seqZ 0 256) = true) by (vm_compute; reflexivity).
  rewrite forallb_forall in Hdec.
  assert (Hin : In x (seqZ 0 256)).
  { apply list_elem_of_In, elem_of_seqZ. unfold is_byte in Hx. lia. }
  specialize (Hdec x Hin).
  destruct (hex_chars x) as [|c1 [|c2 [|c3 l]]]; try discriminate.
  exists c1, c2. split; [reflexivity|].
  apply andb_true_iff in Hdec. destruct Hdec as [Hdec HD].
  apply andb_true_iff in Hdec. destruct Hdec as [Hdec HC].
  apply andb_true_iff in Hdec. destruct Hdec as [HA HB].
  split; [exact (hex_digit_test c1 HA)|].
  split; [exact (hex_digit_test c2 HB)|].
  split; apply Z.eqb_eq; assumption.
Qed.

(** The loop fills [tmp] from [j] on with the characters of the next [n]
    bytes of [data], and touches nothing else. *)
Lemma PrintHex8_from_spec : forall (bytes seen : list Z) pre mid rest later,
  length mid = (2 * length bytes)%nat ->
  Z.of_nat (length seen + length bytes) <= 255 ->
  PrintHex8_from (length bytes) (Z.of_nat (length seen)) (Z.of_nat (length pre))
                 (seen ++ bytes ++ later) (pre ++ mid ++ rest)
  = pre ++ flat_map hex_chars bytes ++ rest.
Proof.
  induction bytes as [|x bytes IH]; intros seen pre mid rest later Hmid Hmax.
  - destruct mid; [reflexivity | discriminate].
  - destruct mid as [|m0 [|m1 mid]]; [cbn [length] in Hmid; lia | cbn [length] in Hmid; lia |].
    cbn [length] in Hmid, Hmax. cbn [length PrintHex8_from flat_map].
    assert (Hrd : rd (seen ++ (x :: bytes) ++ later) (Z.of_nat (length seen)) = x).
    { unfold rd. rewrite Nat2Z.id, lookup_app_r by lia.
      rewrite Nat.sub_diag. reflexivity. }
    rewrite Hrd.
    rewrite (to_uint8_small (Z.of_nat (length seen) + 1)) by lia.
    fold (hex_chars x).
    set (first := to_uint8 (Z.lor (Z.shiftr x 4) 48)).
    set (first' := to_uint8 (Z.lor (Z.land x 15) 48)).
    set (c1 := if first >? 57 then to_char (first + 39) else to_char first).
    set (c2 := if first' >? 57 then to_char (first' + 39) else to_char first').
    assert (Hw1 : wr (pre ++ (m0 :: m1 :: mid) ++ rest) (Z.of_nat (length pre)) c1
                  = pre ++ (c1 :: m1 :: mid) ++ rest).
    { unfold wr. rewrite Nat2Z.id, insert_app_r_alt by lia.
      rewrite Nat.sub_diag. reflexivity. }
    rewrite Hw1.
    assert (Hw2 : wr (pre ++ (c1 :: m1 :: mid) ++ rest) (Z.of_nat (length pre) + 1) c2
                  = (pre ++ [c1; c2]) ++ mid ++ rest).
    { unfold wr.
      replace (Z.to_nat (Z.of_nat (length pre) + 1)) with (S (length pre)) by lia.
      rewrite insert_app_r_alt by lia.
      replace (S (length pre) - length pre)%nat with 1%nat by lia.
      rewrite <- app_assoc. reflexivity. }
    rewrite Hw2.
    replace (Z.of_nat (length seen) + 1) with (Z.of_nat (length (seen ++ [x])))
      by (rewrite length_app; cbn [length]; lia).
    replace (Z.of_nat (length pre) + 2) with (Z.of_nat (length (pre ++ [c1; c2])))
      by (rewrite length_app; cbn [length]; lia).
    replace (seen ++ (x :: bytes) ++ later) with ((seen ++ [x]) ++ bytes ++ later)
      by (rewrite <- app_assoc; reflexivity).
    rewrite IH; [| lia | rewrite length_app; cbn [length]; lia].
    rewrite <- app_assoc. reflexivity.
Qed.

Lemma c_str_app_nul (chars rest : list Z) :
  Forall (fun c => c <> 0) chars -> c_str (chars ++ 0 :: rest) = chars.
Proof.
  induction chars as [|c chars IH]; intros Hall; [reflexivity|].
  apply Forall_cons in Hall. destruct Hall as [Hc Hall].
  cbn [app c_str]. apply Z.eqb_neq in Hc. rewrite Hc, IH by exact Hall.
  reflexivity.
Qed.

Lemma hex_chars_all_digits (bytes : list Z) :
  Forall is_byte bytes ->
  Forall is_hex_digit (flat_map hex_chars bytes)
  /\ length (flat_map hex_chars bytes) = (2 * length bytes)%nat.
Proof.
  induction bytes as [|x bytes IH]; intros Hall.
  - split; [constructor | reflexivity].
  - apply Forall_cons in Hall. destruct Hall as [Hx Hall].
    destruct (IH Hall) as [IH1 IH2].
    destruct (hex_chars_of_byte x Hx) as (c1 & c2 & Heq & H1 & H2 & _).
    cbn [flat_map]. rewrite Heq. cbn [app length]. split.
    + apply Forall_cons. split; [exact H1|]. apply Forall_cons. split; assumption.
    + rewrite IH2. lia.
Qed.

Lemma PrintHex8_spec (data : list Z) (len : Z) :
  Forall is_byte data -> 0 <= len <= 255 -> len <= Z.of_nat (length data) ->
  PrintHex8 data len = flat_map hex_chars (take (Z.to_nat len) data).
Proof.
  intros Hall Hlen Hdata. unfold PrintHex8.
  set (n := Z.to_nat len).
  set (bytes := take n data).
  assert (Hn : length bytes = n) by (unfold bytes; rewrite length_take; lia).
  assert (Hbytes : Forall is_byte bytes) by (apply Forall_take; exact Hall).
  destruct (hex_chars_all_digits bytes Hbytes) as [Hdigits Hlen2].
  replace (Z.to_nat (len * 2 + 1)) with (2 * n + 1)%nat by lia.
  replace (replicate (2 * n + 1) 0) with ([] ++ replicate (2 * n) 0 ++ [0])
    by (rewrite replicate_add; reflexivity).
  replace data with ([] ++ bytes ++ drop n data) at 1
    by (unfold bytes; cbn [app]; apply take_drop).
  rewrite <- Hn at 1.
  change 0 with (Z.of_nat (@length Z [])) at 1 2.
  rewrite PrintHex8_from_spec;
    [| rewrite length_replicate; lia | cbn [length]; lia].
  cbn [app].
  assert (Hw : wr (flat_map hex_chars bytes ++ [0]) (len * 2) 0
               = flat_map hex_chars bytes ++ [0]).
  { unfold wr. replace (Z.to_nat (len * 2)) with (length (flat_map hex_chars bytes))
      by (rewrite Hlen2; lia).
    rewrite insert_app_r_alt by lia. rewrite Nat.sub_diag. reflexivity. }
  rewrite Hw. apply c_str_app_nul.
  eapply Forall_impl; [exact Hdigits|].
  intros c Hc. unfold is_hex_digit in Hc. lia.
Qed.

(** X18: for [length] bytes of [data], [PrintHex8] prints exactly two
    characters per byte, each a decimal digit or a lower-case letter from a
    to f: no character is lost to the terminating NUL and none follows. *)
Theorem PrintHex8_prints_two_digits_per_byte (data : list Z) (len : Z) :
  Forall is_byte data -> 0 <= len <= 255 -> len <= Z.of_nat (length data) ->
  Z.of_nat (length (PrintHex8 data len)) = 2 * len
  /\ Forall is_hex_digit (PrintHex8 data len).
Proof.
  intros Hall Hlen Hdata.
  rewrite PrintHex8_spec by assumption.
  destruct (hex_chars_all_digits (take (Z.to_nat len) data)
              (Forall_take _ _ _ Hall)) as [Hd Hl].
  split; [|exact Hd]. rewrite Hl, length_take. lia.
Qed.

Lemma rd_hex_chars_app x (l : list Z) n :
  0 <= n -> rd (hex_chars x ++ l) (n + 2) = rd l n.
Proof.
  intros Hn. unfold hex_chars. cbn [app].
  replace (n + 2) with (n + 1 + 1) by lia.
  rewrite !rd_cons by lia. reflexivity.
Qed.

Lemma rd_flat_map_hex_chars : forall (bytes : list Z) (i : nat),
  (i < length bytes)%nat ->
  hex_chars (rd bytes (Z.of_nat i))
  = [rd (flat_map hex_chars bytes) (2 * Z.of_nat i);
     rd (flat_map hex_chars bytes) (2 * Z.of_nat i + 1)].
Proof.
  induction bytes as [|x bytes IH]; intros i Hi; [cbn in Hi; lia|].
  destruct i as [|i].
  - cbn [flat_map]. reflexivity.
  - cbn [length] in Hi. cbn [flat_map].
    replace (Z.of_nat (S i)) with (Z.of_nat i + 1) by lia.
    rewrite rd_cons by lia. rewrite IH by lia.
    replace (2 * (Z.of_nat i + 1) + 1) with (2 * Z.of_nat i + 1 + 2) by lia.
    replace (2 * (Z.of_nat i + 1)) with (2 * Z.of_nat i + 2) by lia.
    rewrite !rd_hex_chars_app by lia. reflexivity.
Qed.

(** X19: the text [PrintHex8] prints reads back as the bytes: the characters
    at 2i and 2i + 1 are the digits of the high and the low half of byte i. *)
Theorem PrintHex8_reads_back (data : list Z) (len i : Z) :
  Forall is_byte data -> 0 <= len <= 255 -> len <= Z.of_nat (length data) ->
  0 <= i < len ->
  hex_value (rd (PrintHex8 data len) (2 * i)) * 16
  + hex_value (rd (PrintHex8 data len) (2 * i + 1)) = rd data i.
Proof.
  intros Hall Hlen Hdata Hi.
  rewrite PrintHex8_spec by assumption.
  set (bytes := take (Z.to_nat len) data).
  assert (Hrd : rd data i = rd bytes i).
  { unfold rd, bytes. rewrite lookup_take_lt by lia. reflexivity. }
  assert (Hbyte : is_byte (rd bytes i)).
  { apply rd_is_byte. apply Forall_take. exact Hall. }
  destruct (hex_chars_of_byte _ Hbyte) as (c1 & c2 & Heq & _ & _ & H1 & H2).
  pose proof (rd_flat_map_hex_chars bytes (Z.to_nat i)) as Hpair.
  rewrite Z2Nat.id in Hpair by lia.
  rewrite Heq in Hpair.
  assert (Hlt : (Z.to_nat i < length bytes)%nat)
    by (unfold bytes; rewrite length_take; lia).
  specialize (Hpair Hlt). injection Hpair as <- <-.
  rewrite Hrd, H1, H2.
  pose proof (Z.div_mod (rd bytes i) 16 ltac:(lia)). lia.
Qed.

Section Reachable.
Context {hdr : Header}.

(** ** States reached from setup592 *)

Lemma reachable_inv events : sized_header -> capture_inv (run events setup592).
Proof. intros Hsz. apply run_inv; [exact Hsz | apply setup592_inv; exact Hsz]. Qed.

(** X3: whatever edges and polls follow [setup592], the interrupt is
    detached exactly while a frame is pending. *)
Theorem interrupt_detached_while_frame_pending (events : list Event) :
  sized_header ->
  attached (run events setup592) = negb (received (run events setup592)).
Proof. intros Hsz. exact (proj1 (proj2 (proj2 (reachable_inv events Hsz)))). Qed.

(** X4: whatever edges and polls follow [setup592], a frame is pending only
    with the sync flag set and exactly 112 edges counted since the sync;
    while the sync flag is set the counter is between 0 and 112, and below
    112 as long as no frame is pending: the handler never finds more than
    112 edges after a sync. *)
Theorem frame_ready_at_112_edges (events : list Event) :
  sized_header ->
  (received (run events setup592) = true ->
   syncFound (run events setup592) = true
   /\ changeCount (run events setup592) = DATABITSEDGES)
  /\ (syncFound (run events setup592) = true ->
      0 <= changeCount (run events setup592) <= DATABITSEDGES
      /\ (received (run events setup592) = false ->
          changeCount (run events setup592) < DATABITSEDGES)).
Proof.
  intros Hsz.
  destruct (reachable_inv events Hsz) as (_ & _ & _ & Hready & Hsync & _).
  split; [exact Hready|].
  intros Hf. destruct (Hsync Hf) as (H1 & H2 & _). split; assumption.
Qed.

(** X5: whatever edges and polls follow [setup592], the ring keeps its
    size and the ring index stays inside it, so the handler writes no
    duration outside the ring; and while the sync flag is set, the sync index
    is inside the ring, the data index is the slot after it, and the ring
    index is the sync index advanced by the edge counter, around the ring. *)
Theorem ring_indices_stay_in_range (events : list Event) :
  sized_header ->
  length (pulseDurations (run events setup592)) = Z.to_nat RING_BUFFER_SIZE
  /\ 0 <= ringIndex (run events setup592) < RING_BUFFER_SIZE
  /\ (syncFound (run events setup592) = true ->
      0 <= syncIndex (run events setup592) < RING_BUFFER_SIZE
      /\ dataIndex (run events setup592)
         = (syncIndex (run events setup592) + 1) mod RING_BUFFER_SIZE
      /\ ringIndex (run events setup592)
         = (syncIndex (run events setup592) + changeCount (run events setup592))
           mod RING_BUFFER_SIZE).
Proof.
  intros Hsz.
  destruct (reachable_inv events Hsz) as (Hlen & Hidx & _ & _ & Hsync & _).
  split; [exact Hlen|]. split; [exact Hidx|].
  intros Hf. destruct (Hsync Hf) as (_ & _ & H3 & H4 & H5 & _).
  split; [exact H3|]. split; assumption.
Qed.

(** X6: whatever edges and polls follow [setup592], every duration of a
    pending frame, the 112 the bit loop will read, has passed the handler's
    runt test: none was overwritten or let in after a runt. *)
Theorem pending_frame_passed_the_runt_test (events : list Event) (n : Z) :
  sized_header ->
  received (run events setup592) = true ->
  0 <= n < DATABITSEDGES ->
  plausible (data_edge (run events setup592) n)
  /\ data_edge (run events setup592) n
     = rd (pulseDurations (run events setup592))
          ((to_uint (syncIndex (run events setup592) + 1) mod RING_BUFFER_SIZE + n)
           mod RING_BUFFER_SIZE).
Proof.
  intros Hsz Hrec Hn.
  destruct (reachable_inv events Hsz) as (_ & _ & _ & Hready & Hsync & _).
  destruct (Hready Hrec) as [Hf Hc].
  destruct (Hsync Hf) as (_ & _ & Hsi & _ & _ & Hedges).
  split; [apply Hedges; rewrite Hc; exact Hn|].
  destruct Hsz as (Hring & _).
  unfold DATABITSEDGES, DATABITSCNT, DATABYTESCNT in Hring.
  symmetry. apply decode_frame_reads; [lia | exact Hsi].
Qed.

(** X7: whatever edges and polls follow [setup592], there is one slot per
    table entry and slot i carries the number i + 1: no slot is created,
    dropped or renumbered. *)
Theorem slot_table_keeps_its_shape (events : list Event) :
  sized_header ->
  length (sensorData (run events setup592)) = length probeIdArray
  /\ forall (i : nat) d,
       sensorData (run events setup592) !! i = Some d ->
       Sensor.id d = Z.of_nat i + 1.
Proof.
  intros Hsz.
  destruct (reachable_inv events Hsz) as (_ & _ & _ & _ & _ & Hslots & Hids).
  split; assumption.
Qed.

(** ** From the transmitter to a reading *)

(** X9: the bit loop inverts the transmitter: when the 112 ring entries
    after the sync index hold the durations sent for seven bytes, most
    significant bit first, a long high and short low for 1 and the reverse
    for 0, [decode_frame] returns these seven bytes. *)
Theorem decode_frame_inverts_the_transmitter (s : State) (bytes : list Z) :
  timed_header ->
  0 < RING_BUFFER_SIZE <= 32767 -> 0 <= syncIndex s < RING_BUFFER_SIZE ->
  length bytes = Z.to_nat DATABYTESCNT -> Forall is_byte bytes ->
  (forall n, 0 <= n < DATABITSEDGES -> data_edge s n = rd (encode_frame bytes) n) ->
  decode_frame s = Some bytes.
Proof. apply decode_frame_encoded. Qed.

(** X10: in any state reached from [setup592] in which the handler is
    searching, eight edges that alternate between the sync high and sync low
    windows followed by the 112 edges sent for seven bytes make the frame
    ready: the received flag is set, the interrupt detached, the slots
    untouched, and the bit loop will return the seven bytes. *)
Theorem sync_train_and_frame_are_captured (events : list Event)
    (sync bytes : list Z) (t pin : Z) :
  sized_header -> timed_header ->
  received (run events setup592) = false ->
  syncFound (run events setup592) = false ->
  lastTime (run events setup592) = to_ulong t ->
  length sync = 8%nat ->
  (forall n, 0 <= n < 8 ->
     within (if Z.even n then SYNC_HIGH else SYNC_LOW) (rd sync n)) ->
  length bytes = Z.to_nat DATABYTESCNT -> Forall is_byte bytes ->
  received (run_handler (edges_from t pin (sync ++ encode_frame bytes))
              (run events setup592)) = true
  /\ attached (run_handler (edges_from t pin (sync ++ encode_frame bytes))
                 (run events setup592)) = false
  /\ decode_frame (run_handler (edges_from t pin (sync ++ encode_frame bytes))
                     (run events setup592)) = Some bytes
  /\ sensorData (run_handler (edges_from t pin (sync ++ encode_frame bytes))
                   (run events setup592))
     = sensorData (run events setup592).
Proof.
  intros Hsz Ht. apply capture_of_frame; try assumption.
  apply reachable_inv. exact Hsz.
Qed.

(** X11: end to end.  In any state reached from [setup592] in which the
    handler is searching, a sync train followed by the edges of seven bytes
    whose last byte is the running sum of the others and whose key is in the
    table, and then one pass of the poll routine, merge the frame: the slot
    of the last table entry with that key gets its number and the time of
    the pass, and capture is armed again. *)
Theorem frame_is_merged_end_to_end (events : list Event)
    (sync bytes : list Z) (t pin millis sweep : Z) :
  sized_header -> timed_header ->
  received (run events setup592) = false ->
  syncFound (run events setup592) = false ->
  lastTime (run events setup592) = to_ulong t ->
  length sync = 8%nat ->
  (forall n, 0 <= n < 8 ->
     within (if Z.even n then SYNC_HIGH else SYNC_LOW) (rd sync n)) ->
  length bytes = Z.to_nat DATABYTESCNT -> Forall is_byte bytes ->
  rd bytes 6
  = (rd bytes 0 + rd bytes 1 + rd bytes 2 + rd bytes 3 + rd bytes 4 + rd bytes 5)
    mod 256 ->
  hexID (overlay bytes) ∈ probeIdArray ->
  exists (k : nat) (d : sensorTemperatureData),
    fst (loop592 millis sweep
           (run_handler (edges_from t pin (sync ++ encode_frame bytes))
              (run events setup592))) = Merged (Z.of_nat k)
    /\ probeIdArray !! k = Some (hexID (overlay bytes))
    /\ (forall m : nat, (k < m)%nat ->
          probeIdArray !! m <> Some (hexID (overlay bytes)))
    /\ sensorData
         (snd (loop592 millis sweep
                 (run_handler (edges_from t pin (sync ++ encode_frame bytes))
                    (run events setup592)))) !! k = Some d
    /\ Sensor.id d = Z.of_nat k + 1
    /\ Sensor.timestamp d = to_ulong millis / 1000
    /\ received
         (snd (loop592 millis sweep
                 (run_handler (edges_from t pin (sync ++ encode_frame bytes))
                    (run events setup592)))) = false
    /\ attached
         (snd (loop592 millis sweep
                 (run_handler (edges_from t pin (sync ++ encode_frame bytes))
                    (run events setup592)))) = true.
Proof.
  intros Hsz Ht Hrec Hsearch Hlast Hlen8 Hwin Hlen7 Hbytes Hsum Hkey.
  pose proof (reachable_inv events Hsz) as Hinv.
  destruct (capture_of_frame sync bytes t pin (run events setup592)
              Hsz Ht Hinv Hrec Hsearch Hlast Hlen8 Hwin Hlen7 Hbytes)
    as (Hready & _ & Hdec & Hsd).
  set (s' := run_handler (edges_from t pin (sync ++ encode_frame bytes))
               (run events setup592)) in *.
  assert (Hv : validated s' bytes).
  { split; [exact Hready|]. split; [exact Hdec|].
    rewrite crc_sum_spec. symmetry. exact Hsum. }
  pose proof Hsz as (_ & _ & _ & Hn).
  destruct (loop592_known millis sweep s' bytes Hn Hv Hkey)
    as (k & Hk & Hlastk & _ & Hfst & _ & Hrec' & _ & Hatt').
  destruct Hinv as (_ & _ & _ & _ & _ & Hslots & _).
  destruct (loop592_merged millis sweep s' bytes (Z.of_nat k) Hn Hv
              ltac:(rewrite Hsd; exact Hslots) Hfst)
    as (n & old & Heq & _ & _ & _ & Hnew & _).
  apply Nat2Z.inj in Heq. subst n.
  eexists k, _. split; [exact Hfst|]. split; [exact Hk|]. split; [exact Hlastk|].
  split; [exact Hnew|].
  destruct (age_slot_keeps_fields (to_ulong sweep / 1000)
              (merge_slot (Z.of_nat k) (overlay bytes) millis old))
    as (Hi & _ & Hts).
  rewrite Hi, Hts. cbn [merge_slot Sensor.id Sensor.timestamp].
  assert (Hlt : (k < length probeIdArray)%nat) by (eapply lookup_lt_Some; exact Hk).
  split; [apply to_uint8_small; unfold _numSensors in Hn; lia|].
  split; [reflexivity|]. split; assumption.
Qed.

End Reachable.

(** * The further properties on the example configuration *)

Lemma header_with_sized t : @sized_header (header_with t).
Proof.
  unfold sized_header, DATABITSEDGES, DATABITSCNT, DATABYTESCNT, _numSensors.
  cbn. lia.
Qed.

Lemma header_with_timed t : @timed_header (header_with t).
Proof. unfold timed_header, plausible. cbn. lia. Qed.

Lemma crowded_header_validated :
  @validated crowded_header (captured crowded_header example_frame) example_frame.
Proof. repeat split; vm_compute; reflexivity. Qed.

Lemma sync_600_in_windows t n :
  0 <= n < 8 ->
  @within (if Z.even n then @SYNC_HIGH (header_with t) else @SYNC_LOW (header_with t))
          (rd (replicate 8 600) n).
Proof.
  intros Hn.
  assert (Hcases : n = 0 \/ n = 1 \/ n = 2 \/ n = 3 \/ n = 4 \/ n = 5 \/ n = 6 \/ n = 7)
    by lia.
  unfold within.
  destruct Hcases as [-> | [-> | [-> | [-> | [-> | [-> | [-> | ->]]]]]]];
    vm_compute; split; discriminate.
Qed.

Lemma isSync_closed_windows_witness :
  @isSync example_header (replicate 120 600) 7 = true.
Proof.
  apply (@isSync_closed_windows example_header (replicate 120 600) 7);
    try (cbn; lia).
  intros k Hk.
  assert (Hcases : k = 0 \/ k = 1 \/ k = 2 \/ k = 3) by lia.
  unfold within.
  destruct Hcases as [-> | [-> | [-> | ->]]];
    vm_compute; repeat split; discriminate.
Defined.

Lemma handler_rf433_stores_elapsed_time_witness :
  lastTime before_wrap = 2 ^ 32 - 100
  /\ duration (@handler_rf433 example_header 1 ((2 ^ 32 - 100 + 600) mod 2 ^ 32)
                 before_wrap) = 600.
Proof.
  split; [vm_compute; reflexivity|].
  apply (@handler_rf433_stores_elapsed_time example_header 1 (2 ^ 32 - 100) 600
           before_wrap).
  - vm_compute. reflexivity.
  - cbn. lia.
  - vm_compute. split; [discriminate | reflexivity].
  - vm_compute. reflexivity.
  - vm_compute. reflexivity.
  - lia.
  - lia.
Defined.

Lemma interrupt_detached_while_frame_pending_witness :
  attached (@run example_header frame_events (@setup592 example_header))
  = negb (received (@run example_header frame_events (@setup592 example_header))).
Proof.
  apply (@interrupt_detached_while_frame_pending example_header frame_events).
  apply header_with_sized.
Defined.

Lemma frame_ready_at_112_edges_witness :
  received (@run example_header frame_events (@setup592 example_header)) = true
  /\ changeCount (@run example_header frame_events (@setup592 example_header))
     = DATABITSEDGES.
Proof.
  assert (H : received (@run example_header frame_events (@setup592 example_header))
              = true) by (vm_compute; reflexivity).
  split; [exact H|].
  exact (proj2 (proj1 (@frame_ready_at_112_edges example_header frame_events
                         (header_with_sized _)) H)).
Defined.

Lemma ring_indices_stay_in_range_witness :
  0 <= ringIndex (@run example_header some_events (@setup592 example_header))
  < @RING_BUFFER_SIZE example_header.
Proof.
  exact (proj1 (proj2 (@ring_indices_stay_in_range example_header some_events
                         (header_with_sized _)))).
Defined.

Lemma pending_frame_passed_the_runt_test_witness :
  @plausible example_header
    (@data_edge example_header
       (@run example_header frame_events (@setup592 example_header)) 5).
Proof.
  apply (@pending_frame_passed_the_runt_test example_header frame_events 5).
  - apply header_with_sized.
  - vm_compute. reflexivity.
  - unfold DATABITSEDGES, DATABITSCNT, DATABYTESCNT. lia.
Defined.

Lemma slot_table_keeps_its_shape_witness :
  length (sensorData (@run example_header some_events (@setup592 example_header)))
  = length (@probeIdArray example_header).
Proof.
  exact (proj1 (@slot_table_keeps_its_shape example_header some_events
                  (header_with_sized _))).
Defined.

Lemma one_bad_pair_rejects_the_frame_witness :
  exists m,
    0 <= m < DATABITSCNT
    /\ @convertTimingToBit example_header
         (to_uint (@data_edge example_header
                     (capture example_header smeared_durations) (2 * m)))
         (to_uint (@data_edge example_header
                     (capture example_header smeared_durations) (2 * m + 1)))
       = -1.
Proof.
  apply (@one_bad_pair_rejects_the_frame example_header 5000 5000
           (capture example_header smeared_durations)).
  - cbn. lia.
  - vm_compute. split; [discriminate | reflexivity].
  - vm_compute. reflexivity.
  - vm_compute. reflexivity.
Defined.

Lemma captured_example_frame_data n :
  0 <= n < DATABITSEDGES ->
  @data_edge example_header (captured example_header example_frame) n
  = rd (@encode_frame example_header example_frame) n.
Proof.
  intros Hn.
  assert (Hcheck : forallb
                     (fun n =>
                        @data_edge example_header
                          (captured example_header example_frame) n
                        =? rd (@encode_frame example_header example_frame) n)
                     (seqZ 0 112) = true) by (vm_compute; reflexivity).
  rewrite forallb_forall in Hcheck.
  apply Z.eqb_eq, Hcheck, list_elem_of_In, elem_of_seqZ.
  unfold DATABITSEDGES, DATABITSCNT, DATABYTESCNT in Hn. lia.
Qed.

Lemma example_frame_bytes : Forall is_byte example_frame.
Proof.
  apply Forall_forall. intros x Hx. apply list_elem_of_In in Hx.
  unfold is_byte. vm_compute in Hx.
  repeat (destruct Hx as [<- | Hx]; [lia|]). contradiction.
Qed.

Lemma decode_frame_inverts_the_transmitter_witness :
  @decode_frame example_header (captured example_header example_frame)
  = Some example_frame.
Proof.
  apply (@decode_frame_inverts_the_transmitter example_header).
  - apply header_with_timed.
  - cbn. lia.
  - vm_compute. split; [discriminate | reflexivity].
  - reflexivity.
  - exact example_frame_bytes.
  - exact captured_example_frame_data.
Defined.

Lemma sync_train_and_frame_are_captured_witness :
  received (@run_handler example_header
              (edges_from 0 0 (replicate 8 600
                               ++ @encode_frame example_header example_frame))
              (@run example_header [] (@setup592 example_header))) = true.
Proof.
  apply (@sync_train_and_frame_are_captured example_header [] (replicate 8 600)
           example_frame 0 0).
  - apply header_with_sized.
  - apply header_with_timed.
  - reflexivity.
  - reflexivity.
  - reflexivity.
  - reflexivity.
  - apply sync_600_in_windows.
  - reflexivity.
  - exact example_frame_bytes.
Defined.

Lemma frame_is_merged_end_to_end_witness :
  exists k : nat,
    fst (@loop592 example_header 5000 5020
           (@run_handler example_header
              (edges_from 0 0 (replicate 8 600
                               ++ @encode_frame example_header example_frame))
              (@run example_header [] (@setup592 example_header))))
    = Merged (Z.of_nat k).
Proof.
  destruct (@frame_is_merged_end_to_end example_header [] (replicate 8 600)
              example_frame 0 0 5000 5020)
    as (k & d & Hfst & _).
  - apply header_with_sized.
  - apply header_with_timed.
  - reflexivity.
  - reflexivity.
  - reflexivity.
  - reflexivity.
  - apply sync_600_in_windows.
  - reflexivity.
  - exact example_frame_bytes.
  - vm_compute. reflexivity.
  - apply list_elem_of_In. vm_compute. left. reflexivity.
  - exists k. exact Hfst.
Defined.

Lemma accepted_frame_is_fresh_witness :
  exists d,
    sensorData (snd (@loop592 example_header 5000 96000
                       (captured example_header example_frame))) !! Z.to_nat 0
    = Some d
    /\ @fresh example_header d = false.
Proof.
  destruct (@accepted_frame_is_fresh example_header 5000 96000
              (captured example_header example_frame) example_frame 0)
    as (d & Hd & _ & Hfresh).
  - vm_compute. reflexivity.
  - exact example_frame_validated.
  - reflexivity.
  - vm_compute. reflexivity.
  - cbn. lia.
  - vm_compute. reflexivity.
  - vm_compute. split; reflexivity.
  - exists d. split; [exact Hd|].
    destruct (@fresh example_header d); [|reflexivity].
    exfalso. pose proof (proj1 Hfresh eq_refl) as Hle.
    vm_compute in Hle. apply Hle. reflexivity.
Defined.

(** With the clock read twice in the same second the slot of the example
    frame is fresh. *)
Example example_frame_fresh :
  @fresh example_header
  <$> sensorData (snd (@loop592 example_header 5000 5020
                         (captured example_header example_frame))) !! 0%nat
  = Some true.
Proof. vm_compute. reflexivity. Qed.

Lemma battery_bit_follows_byte_2_witness :
  exists d,
    sensorData (snd (@loop592 example_header 5000 5000
                       (captured example_header example_frame))) !! Z.to_nat 0
    = Some d
    /\ Z.land (Sensor.status d) (@SENSOR_BATTERY_LOW example_header) = 0.
Proof.
  destruct (@battery_bit_follows_byte_2 example_header 5000 5000
              (captured example_header example_frame) example_frame 0)
    as (d & Hd & Hbit).
  - vm_compute. reflexivity.
  - exact example_frame_validated.
  - reflexivity.
  - vm_compute. reflexivity.
  - unfold is_byte. cbn. lia.
  - vm_compute. reflexivity.
  - exists d. split; [exact Hd | exact Hbit].
Defined.

Lemma unknown_key_iff_not_in_table_witness :
  fst (@loop592 example_header 5000 5000 (captured example_header unlisted_frame))
  = SensorIdError
  <-> hexID (overlay unlisted_frame) ∉ @probeIdArray example_header.
Proof.
  apply (@unknown_key_iff_not_in_table example_header 5000 5000
           (captured example_header unlisted_frame) unlisted_frame).
  - vm_compute. reflexivity.
  - exact unlisted_frame_validated.
Defined.

Lemma table_of_255_defeats_the_unknown_check_witness :
  fst (@loop592 crowded_header 5000 5000 (captured crowded_header example_frame))
  = Merged 0.
Proof.
  apply (@table_of_255_defeats_the_unknown_check crowded_header 5000 5000
           (captured crowded_header example_frame) example_frame).
  - reflexivity.
  - exact crowded_header_validated.
  - intros Hin. apply elem_of_replicate in Hin. destruct Hin as [Heq _].
    vm_compute in Heq. discriminate.
Defined.

Lemma temperature_at_or_above_the_bias_witness :
  exists d,
    sensorData (snd (@loop592 example_header 5000 5020
                       (captured example_header example_frame))) !! Z.to_nat 0
    = Some d
    /\ Sensor.temperature d = 16.
Proof.
  destruct (@temperature_at_or_above_the_bias example_header 5000 5020
              (captured example_header example_frame) example_frame 0)
    as (d & Hd & Htemp & _).
  - vm_compute. reflexivity.
  - exact example_frame_validated.
  - reflexivity.
  - vm_compute. reflexivity.
  - vm_compute. discriminate.
  - exists d. split; [exact Hd | exact Htemp].
Defined.

Lemma temperature_below_the_bias_witness :
  exists d,
    sensorData (snd (@loop592 example_header 5000 5020
                       (captured example_header cold_frame))) !! Z.to_nat 0
    = Some d
    /\ Sensor.temperature d = 65535.
Proof.
  destruct (@temperature_below_the_bias example_header 5000 5020
              (captured example_header cold_frame) cold_frame 0)
    as (d & Hd & Hnarrow & _).
  - vm_compute. reflexivity.
  - exact cold_frame_validated.
  - reflexivity.
  - vm_compute. reflexivity.
  - vm_compute. reflexivity.
  - exists d. split; [exact Hd|]. apply Hnarrow. vm_compute. discriminate.
Defined.

(** The frame with the raw value 1023 on the two targets: 65535 is stored
    where [int] has 16 bits, 0 where it has 32. *)
Example cold_frame_on_two_targets :
  Sensor.temperature
  <$> sensorData (snd (@loop592 example_header 5000 5020
                         (captured example_header cold_frame))) !! 0%nat
  = Some 65535
  /\ Sensor.temperature
     <$> sensorData (snd (@loop592 wide_header 5000 5020
                            (captured wide_header cold_frame))) !! 0%nat
     = Some 0.
Proof. vm_compute. split; reflexivity. Qed.

Lemma ageStaleData_threshold_witness :
  exists d',
    @ageStaleData example_header 95999 one_slot !! 0%nat = Some d'
    /\ @fresh example_header d' = true.
Proof.
  destruct (@ageStaleData_threshold example_header 95999 one_slot 0%nat
              {| Sensor.id := 1; Sensor.status := 0x81; Sensor.temperature := 16;
                 Sensor.timestamp := 5 |})
    as (d' & Hd' & Hkeep & _).
  - reflexivity.
  - cbn. lia.
  - cbn. lia.
  - cbn. lia.
  - lia.
  - exists d'. split; [exact Hd'|].
    rewrite Hkeep; [reflexivity|]. vm_compute. discriminate.
Defined.

Lemma PrintHex8_prints_two_digits_per_byte_witness :
  Z.of_nat (length (PrintHex8 example_frame 7)) = 2 * 7.
Proof.
  apply (PrintHex8_prints_two_digits_per_byte example_frame 7).
  - exact example_frame_bytes.
  - lia.
  - cbn. lia.
Defined.

Lemma PrintHex8_reads_back_witness :
  hex_value (rd (PrintHex8 example_frame 7) (2 * 6)) * 16
  + hex_value (rd (PrintHex8 example_frame 7) (2 * 6 + 1))
  = rd example_frame 6.
Proof.
  apply (PrintHex8_reads_back example_frame 7 6).
  - exact example_frame_bytes.
  - lia.
  - cbn. lia.
  - lia.
Defined.

(** The example frame as [PrintHex8] prints it. *)
Example PrintHex8_example_frame :
  text (PrintHex8 example_frame 7) = "c34a44900810f9"%string.
Proof. vm_compute. reflexivity. Qed.

(** With 255 table entries the example frame, whose key is in none of
    them, overwrites slot 0. *)
Example crowded_table_slot_0 :
  sensorData (snd (@loop592 crowded_header 5000 5000
                     (captured crowded_header example_frame))) !! 0%nat
  = Some {| Sensor.id := 1; Sensor.status := 1; Sensor.temperature := 16;
            Sensor.timestamp := 5 |}.
Proof. vm_compute. reflexivity. Qed.
